(** * Turfer backend: game membership state machine and booking availability

    A shallow embedding of the domain logic of the turfer backend:

    - [src/models/GameSupabase.ts] (class [GameModel]): [joinGame],
      [leaveGame], [createJoinRequest], [acceptRequest], [rejectRequest],
      [respondToJoinRequest].  The SQLite model [src/models/Game.ts] has the
      same control flow and differs only in how a row is written; its
      [update], [create] and [findAvailableGames] are the ones the routes
      call.
    - [src/routes/games.ts]: the [GET /:id], [POST /], [PUT /:id] and
      [DELETE /:id] handlers and the join, leave and join-request routes.
    - [src/models/Booking.ts] and [src/models/BookingSupabase.ts] (class
      [BookingModel]): [checkAvailability], [findConflictingBookings],
      [getAvailableSlots], [generateTimeSlots], [timeToMinutes],
      [minutesToTime], [update].
    - [src/routes/bookings.ts]: the booking-creation handler and its price,
      the [GET /:id] and [PATCH /:id/status] handlers.
    - [src/middleware/validation.ts]: [bookingCreateSchema],
      [gameCreateSchema].
    - [src/database/schema.sql] and the Supabase migration: the [updated_at]
      triggers.

    In the source tree at hand, [Game.ts] is the third document of
    [src/types/index.ts], [Booking.ts] is [unnamed/part_007],
    [BookingSupabase.ts] is [unnamed/part_006] and [routes/bookings.ts] is the
    second document of [setup-supabase-data.sql].

    The database is explicit state: the [games] table is a finite map from
    row id to row, the [bookings] table a list of rows.  Reading the clock
    ([new Date()], [NOW()], [CURRENT_TIMESTAMP]) reads the [now] component of
    the world.  JavaScript numbers that hold money are IEEE doubles
    ([float]); counts of players are integers ([Z]); times of day are the
    texts the code stores and compares. *)

From Stdlib Require Import ZArith String Ascii List Bool Lia.
From Stdlib Require Import Floats.PrimFloat Numbers.Cyclic.Int63.Uint63.
From stdpp Require Import gmap strings list pretty.

Local Open Scope string_scope.
Local Open Scope Z_scope.

(** ** Data model ([src/types/index.ts]) *)

Inductive GameStatus := open | full | in_progress | completed | cancelled.

Inductive SkillLevel := beginner | intermediate | advanced | all_levels.

Definition GameStatus_eqb (a b : GameStatus) : bool :=
  match a, b with
  | open, open | full, full | in_progress, in_progress
  | completed, completed | cancelled, cancelled => true
  | _, _ => false
  end.

(** A pending request as the record-shaped models store it:
    [{ userId, requestedAt, status: 'pending' }]. *)
Record JoinRequest := mkJoinRequest {
  jr_userId : string;
  jr_requestedAt : string;
  jr_status : string
}.

(** [interface Game], one field per column of the [games] table. *)
Record Game := mkGame {
  g_id : string;
  g_hostId : string;
  g_turfId : string;
  g_date : string;
  g_startTime : string;
  g_endTime : string;
  g_sport : string;
  g_format : string;
  g_skillLevel : SkillLevel;
  g_currentPlayers : Z;
  g_maxPlayers : Z;
  g_costPerPerson : float;
  g_description : option string;
  g_notes : option string;
  g_isPrivate : bool;
  g_joinRequests : list JoinRequest;
  g_confirmedPlayers : list string;
  g_status : GameStatus;
  g_createdAt : string;
  g_updatedAt : string
}.

(** [Partial<Omit<Game, 'id' | 'createdAt' | 'updatedAt'>>]: the object
    handed to [update]; [None] is an absent key. *)
Record GameUpdate := mkGameUpdate {
  u_date : option string;
  u_startTime : option string;
  u_endTime : option string;
  u_sport : option string;
  u_format : option string;
  u_skillLevel : option SkillLevel;
  u_currentPlayers : option Z;
  u_maxPlayers : option Z;
  u_costPerPerson : option float;
  u_description : option string;
  u_notes : option string;
  u_isPrivate : option bool;
  u_joinRequests : option (list JoinRequest);
  u_confirmedPlayers : option (list string);
  u_status : option GameStatus
}.

(** The empty object literal [{}]. *)
Definition no_updates : GameUpdate :=
  mkGameUpdate None None None None None None None None None None None None
               None None None.

Definition set_join_requests (l : list JoinRequest) (u : GameUpdate) : GameUpdate :=
  mkGameUpdate (u_date u) (u_startTime u) (u_endTime u) (u_sport u) (u_format u)
    (u_skillLevel u) (u_currentPlayers u) (u_maxPlayers u) (u_costPerPerson u)
    (u_description u) (u_notes u) (u_isPrivate u) (Some l)
    (u_confirmedPlayers u) (u_status u).

Definition set_confirmed_players (l : list string) (u : GameUpdate) : GameUpdate :=
  mkGameUpdate (u_date u) (u_startTime u) (u_endTime u) (u_sport u) (u_format u)
    (u_skillLevel u) (u_currentPlayers u) (u_maxPlayers u) (u_costPerPerson u)
    (u_description u) (u_notes u) (u_isPrivate u) (u_joinRequests u)
    (Some l) (u_status u).

Definition set_current_players (n : Z) (u : GameUpdate) : GameUpdate :=
  mkGameUpdate (u_date u) (u_startTime u) (u_endTime u) (u_sport u) (u_format u)
    (u_skillLevel u) (Some n) (u_maxPlayers u) (u_costPerPerson u)
    (u_description u) (u_notes u) (u_isPrivate u) (u_joinRequests u)
    (u_confirmedPlayers u) (u_status u).

Definition set_status (s : GameStatus) (u : GameUpdate) : GameUpdate :=
  mkGameUpdate (u_date u) (u_startTime u) (u_endTime u) (u_sport u) (u_format u)
    (u_skillLevel u) (u_currentPlayers u) (u_maxPlayers u) (u_costPerPerson u)
    (u_description u) (u_notes u) (u_isPrivate u) (u_joinRequests u)
    (u_confirmedPlayers u) (Some s).

(** The row after [UPDATE games SET <the keys of u> WHERE id = ...]: every
    key present in [u] overwrites its column, and the [updated_at] trigger of
    the schema stamps the row with the current time [t]. *)
Definition write_columns (t : string) (u : GameUpdate) (g : Game) : Game :=
  mkGame (g_id g) (g_hostId g) (g_turfId g)
    (default (g_date g) (u_date u))
    (default (g_startTime g) (u_startTime u))
    (default (g_endTime g) (u_endTime u))
    (default (g_sport g) (u_sport u))
    (default (g_format g) (u_format u))
    (default (g_skillLevel g) (u_skillLevel u))
    (default (g_currentPlayers g) (u_currentPlayers u))
    (default (g_maxPlayers g) (u_maxPlayers u))
    (default (g_costPerPerson g) (u_costPerPerson u))
    (match u_description u with Some d => Some d | None => g_description g end)
    (match u_notes u with Some n => Some n | None => g_notes g end)
    (default (g_isPrivate g) (u_isPrivate u))
    (default (g_joinRequests g) (u_joinRequests u))
    (default (g_confirmedPlayers g) (u_confirmedPlayers u))
    (default (g_status g) (u_status u))
    (g_createdAt g) t.

(** ** The store *)

(** The state the models run against: the clock and the [games] table. *)
Record World := mkWorld {
  now : string;
  games : gmap string Game
}.

(** [{ success, message }], the value every model operation resolves to. *)
Record Result := mkResult {
  success : bool;
  message : string
}.

Definition failure (m : string) : Result := mkResult false m.
Definition succeeded (m : string) : Result := mkResult true m.

(** [findById]: the row with that id, if any. *)
Definition findById (w : World) (id : string) : option Game := games w !! id.

(** [SupabaseModel.update(id, updates)]: writes the given columns of the row.
    Every caller below has just loaded the row, so the row exists; on a
    missing row the query matches nothing and the table is left as it is. *)
Definition update (w : World) (id : string) (u : GameUpdate) : World :=
  match games w !! id with
  | Some g => mkWorld (now w) (<[id := write_columns (now w) u g]> (games w))
  | None => w
  end.

(** [Array.prototype.includes] on ids. *)
Definition includes (l : list string) (x : string) : bool :=
  existsb (String.eqb x) l.

(** [joinRequests.some(req => req.userId === userId)]. *)
Definition has_request (l : list JoinRequest) (userId : string) : bool :=
  existsb (fun req => String.eqb (jr_userId req) userId) l.

(** [joinRequests.filter(req => req.userId !== userId)]. *)
Definition without_request (l : list JoinRequest) (userId : string) : list JoinRequest :=
  List.filter (fun req => negb (String.eqb (jr_userId req) userId)) l.

(** [confirmedPlayers.filter(id => id !== userId)]. *)
Definition without_player (l : list string) (userId : string) : list string :=
  List.filter (fun id => negb (String.eqb id userId)) l.

(** [findIndex] followed by [splice(index, 1)]: drops the first request of
    that user; [None] when [findIndex] returns -1. *)
Fixpoint splice_first (l : list JoinRequest) (userId : string)
  : option (list JoinRequest) :=
  match l with
  | [] => None
  | req :: rest =>
      if String.eqb (jr_userId req) userId then Some rest
      else match splice_first rest userId with
           | Some rest' => Some (req :: rest')
           | None => None
           end
  end.

Definition len {A} (l : list A) : Z := Z.of_nat (List.length l).

(** ** Membership operations ([GameModel], [src/models/GameSupabase.ts]) *)

(** [joinGame(gameId, userId)]. *)
Definition joinGame (w : World) (gameId userId : string) : Result * World :=
  match findById w gameId with
  | None => (failure "Game not found", w)
  | Some game =>
      if negb (GameStatus_eqb (g_status game) open) then
        (failure "Game is not open for joining", w)
      else if g_currentPlayers game >=? g_maxPlayers game then
        (failure "Game is full", w)
      else if includes (g_confirmedPlayers game) userId then
        (failure "Already joined this game", w)
      else if has_request (g_joinRequests game) userId then
        (failure "Join request already pending", w)
      else if negb (g_isPrivate game) then
        let updatedConfirmedPlayers := (g_confirmedPlayers game ++ [userId])%list in
        let newStatus :=
          if len updatedConfirmedPlayers >=? g_maxPlayers game then full else open in
        (succeeded "Successfully joined the game",
         update w gameId
           (set_confirmed_players updatedConfirmedPlayers
              (set_current_players (len updatedConfirmedPlayers + 1)
                 (set_status newStatus no_updates))))
      else
        let updatedJoinRequests :=
          (g_joinRequests game ++ [mkJoinRequest userId (now w) "pending"])%list in
        (succeeded "Join request sent to game host",
         update w gameId (set_join_requests updatedJoinRequests no_updates))
  end.

(** [leaveGame(gameId, userId)]. *)
Definition leaveGame (w : World) (gameId userId : string) : Result * World :=
  match findById w gameId with
  | None => (failure "Game not found", w)
  | Some game =>
      let updatedConfirmedPlayers := without_player (g_confirmedPlayers game) userId in
      let updatedJoinRequests := without_request (g_joinRequests game) userId in
      if (len updatedConfirmedPlayers =? len (g_confirmedPlayers game))
         && (len updatedJoinRequests =? len (g_joinRequests game)) then
        (failure "Not part of this game", w)
      else
        let newStatus :=
          if len updatedConfirmedPlayers <? g_maxPlayers game then open
          else g_status game in
        (succeeded "Successfully left the game",
         update w gameId
           (set_confirmed_players updatedConfirmedPlayers
              (set_join_requests updatedJoinRequests
                 (set_current_players (len updatedConfirmedPlayers + 1)
                    (set_status newStatus no_updates)))))
  end.

(** [createJoinRequest(gameId, userId)]. *)
Definition createJoinRequest (w : World) (gameId userId : string) : Result * World :=
  match findById w gameId with
  | None => (failure "Game not found", w)
  | Some game =>
      if String.eqb (g_hostId game) userId then
        (failure "You cannot join your own game", w)
      else if includes (g_confirmedPlayers game) userId then
        (failure "Already joined this game", w)
      else if has_request (g_joinRequests game) userId then
        (failure "Join request already pending", w)
      else
        let joinRequests :=
          (g_joinRequests game ++ [mkJoinRequest userId (now w) "pending"])%list in
        (succeeded "Join request sent successfully",
         update w gameId (set_join_requests joinRequests no_updates))
  end.

(** [acceptRequest(gameId, userId)]. *)
Definition acceptRequest (w : World) (gameId userId : string) : Result * World :=
  match findById w gameId with
  | None => (failure "Game not found", w)
  | Some game =>
      match splice_first (g_joinRequests game) userId with
      | None => (failure "Join request not found", w)
      | Some joinRequests =>
          let confirmedPlayers := (g_confirmedPlayers game ++ [userId])%list in
          (succeeded "Player request accepted",
           update w gameId
             (set_join_requests joinRequests
                (set_confirmed_players confirmedPlayers
                   (set_current_players (len confirmedPlayers + 1) no_updates))))
      end
  end.

(** [rejectRequest(gameId, userId)]. *)
Definition rejectRequest (w : World) (gameId userId : string) : Result * World :=
  match findById w gameId with
  | None => (failure "Game not found", w)
  | Some game =>
      match splice_first (g_joinRequests game) userId with
      | None => (failure "Join request not found", w)
      | Some joinRequests =>
          (succeeded "Player request rejected",
           update w gameId (set_join_requests joinRequests no_updates))
      end
  end.

(** [respondToJoinRequest(gameId, hostId, userId, approve)]. *)
Definition respondToJoinRequest (w : World) (gameId hostId userId : string)
    (approve : bool) : Result * World :=
  match findById w gameId with
  | None => (failure "Game not found", w)
  | Some game =>
      if negb (String.eqb (g_hostId game) hostId) then
        (failure "Only the host can approve join requests", w)
      else if negb (has_request (g_joinRequests game) userId) then
        (failure "No pending join request from this user", w)
      else
        let updatedJoinRequests := without_request (g_joinRequests game) userId in
        if approve then
          if g_currentPlayers game >=? g_maxPlayers game then
            (failure "Game is full", w)
          else
            let updatedConfirmedPlayers := (g_confirmedPlayers game ++ [userId])%list in
            let newStatus :=
              if len updatedConfirmedPlayers >=? g_maxPlayers game then full else open in
            (succeeded "Player approved and added to the game",
             update w gameId
               (set_join_requests updatedJoinRequests
                  (set_confirmed_players updatedConfirmedPlayers
                     (set_current_players (len updatedConfirmedPlayers + 1)
                        (set_status newStatus no_updates)))))
        else
          (succeeded "Join request declined",
           update w gameId (set_join_requests updatedJoinRequests no_updates))
  end.

(** ** Route handlers ([src/routes/games.ts]) *)

(** [req.user] as [authenticateToken] leaves it. *)
Record AuthUser := mkAuthUser {
  au_id : string;
  au_role : string
}.

(** What a handler sends: the HTTP status, the [success] flag, the [error] or
    [message] text, and the [data] payload when there is one. *)
Record Response := mkResponse {
  r_code : Z;
  r_success : bool;
  r_text : string;
  r_data : option Game
}.

(** JavaScript truthiness of an optional string / number key. *)
Definition truthy_string (o : option string) : option string :=
  match o with
  | Some s => if String.eqb s "" then None else Some s
  | None => None
  end.

Definition truthy_number (o : option Z) : option Z :=
  match o with
  | Some n => if n =? 0 then None else Some n
  | None => None
  end.

(** The [updateData] object that [GameModel.update] of [Game.ts] builds from
    [updates]: keys guarded by [if (updates.k)] are kept when truthy, keys
    guarded by [!== undefined] whenever present. *)
Definition updateData (u : GameUpdate) : GameUpdate :=
  mkGameUpdate
    (truthy_string (u_date u))
    (truthy_string (u_startTime u))
    (truthy_string (u_endTime u))
    (truthy_string (u_sport u))
    (truthy_string (u_format u))
    (u_skillLevel u)
    (u_currentPlayers u)
    (truthy_number (u_maxPlayers u))
    (u_costPerPerson u)
    (u_description u)
    (u_notes u)
    (u_isPrivate u)
    (u_joinRequests u)
    (u_confirmedPlayers u)
    (u_status u).

(** [!set]: [buildUpdateClause] produced no assignment. *)
Definition empty_set_clause (u : GameUpdate) : bool :=
  match u with
  | mkGameUpdate None None None None None None None None None None None None
                 None None None => true
  | _ => false
  end.

(** [GameModel.update(id, updates)] of [Game.ts]: the new store and the row
    re-read by [findById]. *)
Definition GameModel_update (w : World) (id : string) (u : GameUpdate)
  : option Game * World :=
  if empty_set_clause (updateData u) then (findById w id, w)
  else
    let w' := update w id (updateData u) in
    (findById w' id, w').

(** [router.put('/:id', authenticateToken, ...)]. *)
Definition put_game (w : World) (user : AuthUser) (id : string) (body : GameUpdate)
  : Response * World :=
  match findById w id with
  | None => (mkResponse 404 false "Game not found" None, w)
  | Some game =>
      if negb (String.eqb (g_hostId game) (au_id user))
         && negb (String.eqb (au_role user) "admin") then
        (mkResponse 403 false "Only the host can update this game" None, w)
      else if GameStatus_eqb (g_status game) in_progress
              || GameStatus_eqb (g_status game) completed then
        (mkResponse 400 false "Cannot update game that has started or completed" None, w)
      else
        let '(updatedGame, w') := GameModel_update w id body in
        (mkResponse 200 true "Game updated successfully" updatedGame, w')
  end.

(** [router.delete('/:id', authenticateToken, ...)]. *)
Definition delete_game (w : World) (user : AuthUser) (id : string)
  : Response * World :=
  match findById w id with
  | None => (mkResponse 404 false "Game not found" None, w)
  | Some game =>
      if negb (String.eqb (g_hostId game) (au_id user))
         && negb (String.eqb (au_role user) "admin") then
        (mkResponse 403 false "Only the host can cancel this game" None, w)
      else if GameStatus_eqb (g_status game) in_progress
              || GameStatus_eqb (g_status game) completed then
        (mkResponse 400 false "Cannot cancel game that has started or completed" None, w)
      else
        let '(_, w') := GameModel_update w id (set_status cancelled no_updates) in
        (mkResponse 200 true "Game cancelled successfully" None, w')
  end.

(** [router.post('/:id/join', ...)] and [router.post('/:id/leave', ...)]: the
    authenticated caller's id goes to the model unchanged. *)
Definition post_join (w : World) (user : AuthUser) (id : string) : Response * World :=
  let '(result, w') := joinGame w id (au_id user) in
  if success result then (mkResponse 200 true (message result) None, w')
  else (mkResponse 400 false (message result) None, w').

Definition post_leave (w : World) (user : AuthUser) (id : string) : Response * World :=
  let '(result, w') := leaveGame w id (au_id user) in
  if success result then (mkResponse 200 true (message result) None, w')
  else (mkResponse 400 false (message result) None, w').

(** [router.post('/:id/join-requests/:userId', ...)] once [approve] has been
    checked to be a boolean. *)
Definition post_join_request_response (w : World) (user : AuthUser)
    (id userId : string) (approve : bool) : Response * World :=
  let '(result, w') := respondToJoinRequest w id (au_id user) userId approve in
  if success result then (mkResponse 200 true (message result) None, w')
  else (mkResponse 400 false (message result) None, w').

(** ** Bookings ([interface Booking], [interface Turf]) *)

Inductive BookingStatus :=
  bk_pending | bk_confirmed | bk_cancelled | bk_completed.

Inductive PaymentStatus := pay_pending | pay_paid | pay_refunded.

Inductive PaymentMethod := cash | online | wallet.

(** A row of the [bookings] table.  [startTime] and [endTime] are the stored
    wall-clock texts; SQL and JavaScript both compare them as texts. *)
Record Booking := mkBooking {
  b_id : string;
  b_userId : string;
  b_turfId : string;
  b_date : string;
  b_startTime : string;
  b_endTime : string;
  b_totalPlayers : Z;
  b_totalAmount : float;
  b_status : BookingStatus;
  b_notes : option string;
  b_paymentStatus : PaymentStatus;
  b_paymentMethod : option PaymentMethod;
  b_createdAt : string;
  b_updatedAt : string
}.

(** The columns of a turf that the booking handler reads. *)
Record Turf := mkTurf {
  t_id : string;
  t_ownerId : string;
  t_pricePerHour : float;
  t_pricePerHourWeekend : option float;
  t_isActive : bool
}.

(** [status IN ('pending', 'confirmed')]. *)
Definition is_active (b : Booking) : bool :=
  match b_status b with
  | bk_pending | bk_confirmed => true
  | bk_cancelled | bk_completed => false
  end.

(** Comparison of two time texts, as [<], [<=], [>], [>=] of SQL on TEXT
    columns and of JavaScript on strings. *)
Definition time_lt (a b : string) : bool := String.ltb a b.
Definition time_le (a b : string) : bool := String.leb a b.
Definition time_gt (a b : string) : bool := time_lt b a.
Definition time_ge (a b : string) : bool := time_le b a.

(** [if (excludeBookingId)]: an absent or empty id excludes nothing. *)
Definition not_excluded (excludeBookingId : option string) (b : Booking) : bool :=
  match truthy_string excludeBookingId with
  | Some x => negb (String.eqb (b_id b) x)
  | None => true
  end.

(** The [WHERE] clause of [checkAvailability] in [Booking.ts]. *)
Definition sqlite_conflict (turfId date startTime endTime : string)
    (excludeBookingId : option string) (b : Booking) : bool :=
  String.eqb (b_turfId b) turfId
  && String.eqb (b_date b) date
  && is_active b
  && ((time_lt (b_startTime b) endTime && time_gt (b_endTime b) startTime)
      || (time_lt (b_startTime b) startTime && time_gt (b_endTime b) endTime)
      || (time_ge (b_startTime b) startTime && time_lt (b_startTime b) endTime))
  && not_excluded excludeBookingId b.

(** [BookingModel.checkAvailability] of [Booking.ts]:
    [SELECT COUNT( * )] of the conflicting rows is zero. *)
Definition checkAvailability (rows : list Booking)
    (turfId date startTime endTime : string) (excludeBookingId : option string)
  : bool :=
  let count :=
    len (List.filter (sqlite_conflict turfId date startTime endTime excludeBookingId) rows) in
  count =? 0.

(** [BookingModel.findConflictingBookings] of [BookingSupabase.ts]. *)
Definition findConflictingBookings (rows : list Booking)
    (turfId date startTime endTime : string) : list Booking :=
  List.filter
    (fun b =>
       String.eqb (b_turfId b) turfId
       && String.eqb (b_date b) date
       && is_active b
       && ((time_le (b_startTime b) startTime && time_gt (b_endTime b) startTime)
           || (time_lt (b_startTime b) endTime && time_ge (b_endTime b) endTime)
           || (time_ge (b_startTime b) startTime && time_le (b_endTime b) endTime)))
    rows.

(** [BookingModel.checkAvailability] of [BookingSupabase.ts]. *)
Definition checkAvailability_supabase (rows : list Booking)
    (turfId date startTime endTime : string) : bool :=
  len (findConflictingBookings rows turfId date startTime endTime) =? 0.

(** *** Time texts *)

Definition digit_value (c : ascii) : option Z :=
  let n := Z.of_N (N_of_ascii c) in
  if (48 <=? n) && (n <=? 57) then Some (n - 48) else None.

(** [timeToMinutes]: [time.split(':').map(Number)], then [hours * 60 + minutes].
    Defined on the texts the request schema lets through, two digits, a colon
    and two digits; [None] stands for any other text. *)
Definition timeToMinutes (time : string) : option Z :=
  match time with
  | String h1 (String h2 (String ":" (String m1 (String m2 EmptyString)))) =>
      match digit_value h1, digit_value h2, digit_value m1, digit_value m2 with
      | Some a, Some b, Some c, Some d => Some ((10 * a + b) * 60 + (10 * c + d))
      | _, _, _, _ => None
      end
  | _ => None
  end.

(** [s.padStart(2, '0')]. *)
Definition padStart2 (s : string) : string :=
  match String.length s with
  | O => "00"
  | S O => "0" ++ s
  | _ => s
  end.

(** [minutesToTime]: [Math.floor(minutes / 60)] and [minutes % 60], each
    printed in decimal and padded. *)
Definition minutesToTime (minutes : Z) : string :=
  let hours := minutes / 60 in
  let mins := Z.rem minutes 60 in
  padStart2 (pretty hours) ++ ":" ++ padStart2 (pretty mins).

(** The [while (current < end)] loop of [generateTimeSlots]; the fuel bounds
    the number of iterations and [None] is an exhausted fuel. *)
Fixpoint generateTimeSlots_loop (fuel : nat) (current finish durationMinutes : Z)
  : option (list string) :=
  if current <? finish then
    match fuel with
    | O => None
    | S fuel' =>
        let start := minutesToTime current in
        let stop := minutesToTime (current + durationMinutes) in
        match generateTimeSlots_loop fuel' (current + durationMinutes) finish
                durationMinutes with
        | Some slots => Some ((start ++ " - " ++ stop) :: slots)
        | None => None
        end
    end
  else Some [].

(** [generateTimeSlots(startTime, endTime, durationMinutes)]. *)
Definition generateTimeSlots (startTime endTime : string) (durationMinutes : Z)
  : option (list string) :=
  match timeToMinutes startTime, timeToMinutes endTime with
  | Some current, Some finish =>
      generateTimeSlots_loop (Z.to_nat (finish - current)) current finish durationMinutes
  | _, _ => None
  end.

(** [slot.split(' - ')[0]]: the text before the first separator. *)
Fixpoint first_field (sep s : string) : string :=
  match s with
  | EmptyString => EmptyString
  | String c rest =>
      if String.prefix sep s then EmptyString else String c (first_field sep rest)
  end.

(** [ORDER BY start_time ASC]. *)
Fixpoint insert_by_start (b : Booking) (l : list Booking) : list Booking :=
  match l with
  | [] => [b]
  | x :: rest =>
      if time_le (b_startTime b) (b_startTime x) then b :: l
      else x :: insert_by_start b rest
  end.

Definition order_by_start_time (l : list Booking) : list Booking :=
  List.fold_right insert_by_start [] l.

(** The rows both [getAvailableSlots] select. *)
Definition bookings_of_day (rows : list Booking) (turfId date : string) : list Booking :=
  order_by_start_time
    (List.filter
       (fun b => String.eqb (b_turfId b) turfId && String.eqb (b_date b) date && is_active b)
       rows).

(** [BookingModel.getAvailableSlots] of [Booking.ts]. *)
Definition getAvailableSlots (rows : list Booking) (turfId date : string)
  : option (list string) :=
  let bookedSlots := bookings_of_day rows turfId date in
  match generateTimeSlots "06:00" "23:00" 60 with
  | Some allSlots =>
      Some (List.filter
              (fun slot =>
                 let startTime := first_field " - " slot in
                 negb (existsb
                         (fun booking =>
                            time_ge startTime (b_startTime booking)
                            && time_lt startTime (b_endTime booking))
                         bookedSlots))
              allSlots)
  | None => None
  end.

(** [{ startTime, endTime }], a slot of [BookingSupabase.ts]. *)
Record Slot := mkSlot {
  slot_startTime : string;
  slot_endTime : string
}.

(** The [some] test of [getAvailableSlots] in [BookingSupabase.ts]. *)
Definition isBooked (bookedSlots : list Booking) (startTime endTime : string) : bool :=
  existsb
    (fun booked =>
       (time_ge startTime (b_startTime booked) && time_lt startTime (b_endTime booked))
       || (time_gt endTime (b_startTime booked) && time_le endTime (b_endTime booked))
       || (time_le startTime (b_startTime booked) && time_ge endTime (b_endTime booked)))
    bookedSlots.

(** The slot of one iteration of [for (let hour = 6; hour < 23; hour++)]. *)
Definition hour_slot (hour : Z) : Slot :=
  mkSlot (padStart2 (pretty hour) ++ ":00") (padStart2 (pretty (hour + 1)) ++ ":00").

(** [BookingModel.getAvailableSlots] of [BookingSupabase.ts]. *)
Definition getAvailableSlots_supabase (rows : list Booking) (turfId date : string)
  : list Slot :=
  let bookedSlots := bookings_of_day rows turfId date in
  List.filter
    (fun slot => negb (isBooked bookedSlots (slot_startTime slot) (slot_endTime slot)))
    (List.map hour_slot (seqZ 6 17)).

(** ** Booking creation ([router.post('/', ...)] of [src/routes/bookings.ts]) *)

(** [req.body] of a booking request. *)
Record BookingBody := mkBookingBody {
  body_turfId : string;
  body_date : string;
  body_startTime : string;
  body_endTime : string;
  body_totalPlayers : Z;
  body_notes : option string;
  body_paymentMethod : option PaymentMethod
}.

Record BookingResponse := mkBookingResponse {
  br_code : Z;
  br_success : bool;
  br_text : string;
  br_data : option Booking
}.

Definition is_digit (c : ascii) : bool :=
  match digit_value c with Some _ => true | None => false end.

(** The pattern [/^\d{2}:\d{2}$/] of [bookingCreateSchema]. *)
Definition matches_time_pattern (s : string) : bool :=
  match s with
  | String h1 (String h2 (String ":" (String m1 (String m2 EmptyString)))) =>
      is_digit h1 && is_digit h2 && is_digit m1 && is_digit m2
  | _ => false
  end.

(** The pattern [/^\d{4}-\d{2}-\d{2}$/] of [bookingCreateSchema]. *)
Definition matches_date_pattern (s : string) : bool :=
  match s with
  | String y1 (String y2 (String y3 (String y4 (String "-"
      (String m1 (String m2 (String "-" (String d1 (String d2 EmptyString))))))))) =>
      is_digit y1 && is_digit y2 && is_digit y3 && is_digit y4
      && is_digit m1 && is_digit m2 && is_digit d1 && is_digit d2
  | _ => false
  end.

(** [bookingCreateSchema.validate(req.body)] reports no error.  A Joi string
    is non-empty; [paymentMethod] is already one of the three valid texts. *)
Definition bookingCreateSchema (body : BookingBody) : bool :=
  negb (String.eqb (body_turfId body) "")
  && matches_date_pattern (body_date body)
  && matches_time_pattern (body_startTime body)
  && matches_time_pattern (body_endTime body)
  && (1 <=? body_totalPlayers body) && (body_totalPlayers body <=? 50)
  && match body_notes body with
     | Some n => negb (String.eqb n "") && (Z.of_nat (String.length n) <=? 500)
     | None => true
     end.

(** A JavaScript number holding the integer [z] (|z| below 2^63). *)
Definition float_of_Z (z : Z) : float :=
  if z <? 0 then PrimFloat.opp (PrimFloat.of_uint63 (Uint63.of_Z (- z)))
  else PrimFloat.of_uint63 (Uint63.of_Z z).

(** The number [timeToMinutes] returns; [NaN] outside the schema's pattern. *)
Definition minutes_number (time : string) : float :=
  match timeToMinutes time with
  | Some m => float_of_Z m
  | None => PrimFloat.nan
  end.

(** Truthiness of the optional number [turf.pricePerHourWeekend]. *)
Definition truthy_rate (o : option float) : option float :=
  match o with
  | Some r => if PrimFloat.is_zero r || PrimFloat.is_nan r then None else Some r
  | None => None
  end.

Section BookingRoutes.

(** [new Date(date).getDay()] of the JavaScript runtime: 0 is Sunday, 6 is
    Saturday, [None] is [NaN] (an invalid date). *)
Variable getDay : string -> option Z.

Definition isWeekend (date : string) : bool :=
  match getDay date with
  | Some d => (d =? 0) || (d =? 6)
  | None => false
  end.

(** [isWeekend && turf.pricePerHourWeekend ? turf.pricePerHourWeekend
    : turf.pricePerHour]. *)
Definition hourlyRate (turf : Turf) (date : string) : float :=
  if isWeekend date then
    match truthy_rate (t_pricePerHourWeekend turf) with
    | Some weekendRate => weekendRate
    | None => t_pricePerHour turf
    end
  else t_pricePerHour turf.

(** [durationHours * hourlyRate] as the handler computes it. *)
Definition totalAmount (turf : Turf) (date startTime endTime : string) : float :=
  let startMinutes := minutes_number startTime in
  let endMinutes := minutes_number endTime in
  let durationHours := ((endMinutes - startMinutes) / 60)%float in
  (durationHours * hourlyRate turf date)%float.

(** The handler.  [newId] is the id [generateId()] draws, [t] the time at
    which the row is inserted; the second component is the [bookings] table
    afterwards. *)
Definition post_booking (turfs : gmap string Turf) (rows : list Booking)
    (newId t : string) (user : AuthUser) (body : BookingBody)
  : BookingResponse * list Booking :=
  if negb (bookingCreateSchema body) then
    (mkBookingResponse 400 false "Validation error" None, rows)
  else
    match turfs !! body_turfId body with
    | None => (mkBookingResponse 404 false "Turf not found or inactive" None, rows)
    | Some turf =>
        if negb (t_isActive turf) then
          (mkBookingResponse 404 false "Turf not found or inactive" None, rows)
        else if negb (checkAvailability rows (body_turfId body) (body_date body)
                        (body_startTime body) (body_endTime body) None) then
          (mkBookingResponse 409 false "Time slot not available" None, rows)
        else
          let booking :=
            mkBooking newId (au_id user) (body_turfId body) (body_date body)
              (body_startTime body) (body_endTime body) (body_totalPlayers body)
              (totalAmount turf (body_date body) (body_startTime body) (body_endTime body))
              bk_pending (body_notes body) pay_pending (body_paymentMethod body) t t in
          (mkBookingResponse 201 true "Booking created successfully" (Some booking),
           (rows ++ [booking])%list)
    end.

End BookingRoutes.

(** ** Reading, creating and listing games ([src/routes/games.ts], [Game.ts]) *)

(** [game.joinRequests.includes(req.user.id)] of the [GET /:id] handler: every
    stored request, an object, is compared with the id, a string, by strict
    equality, which holds for none of them. *)
Definition requests_include (l : list JoinRequest) (id : string) : bool :=
  existsb (fun _ : JoinRequest => false) l.

(** [router.get('/:id', optionalAuth, ...)]; [user] is [req.user], absent for
    a caller without a valid token. *)
Definition get_game (w : World) (user : option AuthUser) (id : string) : Response :=
  match findById w id with
  | None => mkResponse 404 false "Game not found" None
  | Some game =>
      match user with
      | Some u =>
          if g_isPrivate game then
            let isParticipant :=
              String.eqb (g_hostId game) (au_id u)
              || includes (g_confirmedPlayers game) (au_id u)
              || requests_include (g_joinRequests game) (au_id u) in
            if negb isParticipant then
              mkResponse 403 false "This is a private game" None
            else mkResponse 200 true "" (Some game)
          else mkResponse 200 true "" (Some game)
      | None =>
          if g_isPrivate game then mkResponse 403 false "This is a private game" None
          else mkResponse 200 true "" (Some game)
      end
  end.

(** [req.body] of a game creation. *)
Record GameBody := mkGameBody {
  gb_turfId : string;
  gb_date : string;
  gb_startTime : string;
  gb_endTime : string;
  gb_sport : string;
  gb_format : string;
  gb_skillLevel : SkillLevel;
  gb_maxPlayers : Z;
  gb_costPerPerson : float;
  gb_description : option string;
  gb_notes : option string;
  gb_isPrivate : option bool
}.

(** A Joi string of at most 500 characters, when present. *)
Definition optional_text_500 (o : option string) : bool :=
  match o with
  | Some s => negb (String.eqb s "") && (Z.of_nat (String.length s) <=? 500)
  | None => true
  end.

(** [gameCreateSchema.validate(req.body)] reports no error.  A Joi string is
    non-empty and a Joi number lies within the safe integers. *)
Definition gameCreateSchema (body : GameBody) : bool :=
  negb (String.eqb (gb_turfId body) "")
  && matches_date_pattern (gb_date body)
  && matches_time_pattern (gb_startTime body)
  && matches_time_pattern (gb_endTime body)
  && negb (String.eqb (gb_sport body) "")
  && negb (String.eqb (gb_format body) "")
  && (2 <=? gb_maxPlayers body) && (gb_maxPlayers body <=? 50)
  && PrimFloat.leb 0%float (gb_costPerPerson body)
  && PrimFloat.leb (gb_costPerPerson body) 9007199254740991%float
  && optional_text_500 (gb_description body)
  && optional_text_500 (gb_notes body).

(** [router.post('/', authenticateToken, validate(gameCreateSchema), ...)] with
    [GameModel.create]: [newId] is the id [generateId()] draws; an id that is
    already a primary key makes the [INSERT] fail. *)
Definition post_game (turfs : gmap string Turf) (w : World) (newId : string)
    (user : AuthUser) (body : GameBody) : Response * World :=
  if negb (gameCreateSchema body) then
    (mkResponse 400 false "Validation error" None, w)
  else
    match turfs !! gb_turfId body with
    | None => (mkResponse 404 false "Turf not found or inactive" None, w)
    | Some turf =>
        if negb (t_isActive turf) then
          (mkResponse 404 false "Turf not found or inactive" None, w)
        else
          match games w !! newId with
          | Some _ => (mkResponse 500 false "Internal server error" None, w)
          | None =>
              let game :=
                mkGame newId (au_id user) (gb_turfId body) (gb_date body)
                  (gb_startTime body) (gb_endTime body) (gb_sport body)
                  (gb_format body) (gb_skillLevel body) 1 (gb_maxPlayers body)
                  (gb_costPerPerson body) (truthy_string (gb_description body))
                  (truthy_string (gb_notes body))
                  (default false (gb_isPrivate body)) [] [] open (now w) (now w) in
              (mkResponse 201 true "Game created successfully" (Some game),
               mkWorld (now w) (<[newId := game]> (games w)))
          end
    end.










(** ** Reading and updating bookings ([Booking.ts], [src/routes/bookings.ts]) *)

(** [BookingModel.findById]. *)
Definition findBooking (rows : list Booking) (id : string) : option Booking :=
  List.find (fun b => String.eqb (b_id b) id) rows.

(** [Partial<Omit<Booking, 'id' | 'createdAt' | 'updatedAt'>>]. *)
Record BookingUpdate := mkBookingUpdate {
  bu_date : option string;
  bu_startTime : option string;
  bu_endTime : option string;
  bu_totalPlayers : option Z;
  bu_totalAmount : option float;
  bu_status : option BookingStatus;
  bu_notes : option string;
  bu_paymentStatus : option PaymentStatus;
  bu_paymentMethod : option PaymentMethod
}.

(** The [updateData] that [BookingModel.update] of [Booking.ts] builds. *)
Definition bookingUpdateData (u : BookingUpdate) : BookingUpdate :=
  mkBookingUpdate
    (truthy_string (bu_date u))
    (truthy_string (bu_startTime u))
    (truthy_string (bu_endTime u))
    (truthy_number (bu_totalPlayers u))
    (truthy_rate (bu_totalAmount u))
    (bu_status u)
    (bu_notes u)
    (bu_paymentStatus u)
    (bu_paymentMethod u).

Definition empty_booking_set_clause (u : BookingUpdate) : bool :=
  match u with
  | mkBookingUpdate None None None None None None None None None => true
  | _ => false
  end.

(** A row after [UPDATE bookings SET <the keys of u>], stamped by the
    [updated_at] trigger with the time [t]. *)
Definition write_booking_columns (t : string) (u : BookingUpdate) (b : Booking) : Booking :=
  mkBooking (b_id b) (b_userId b) (b_turfId b)
    (default (b_date b) (bu_date u))
    (default (b_startTime b) (bu_startTime u))
    (default (b_endTime b) (bu_endTime u))
    (default (b_totalPlayers b) (bu_totalPlayers u))
    (default (b_totalAmount b) (bu_totalAmount u))
    (default (b_status b) (bu_status u))
    (match bu_notes u with Some n => Some n | None => b_notes b end)
    (default (b_paymentStatus b) (bu_paymentStatus u))
    (match bu_paymentMethod u with Some m => Some m | None => b_paymentMethod b end)
    (b_createdAt b) t.

(** [BookingModel.update(id, updates)] of [Booking.ts] at time [t]: the row
    read back and the table afterwards. *)
Definition BookingModel_update (rows : list Booking) (t id : string) (u : BookingUpdate)
  : option Booking * list Booking :=
  if empty_booking_set_clause (bookingUpdateData u) then (findBooking rows id, rows)
  else
    let rows' :=
      List.map
        (fun b =>
           if String.eqb (b_id b) id then write_booking_columns t (bookingUpdateData u) b
           else b)
        rows in
    (findBooking rows' id, rows').

(** [validStatuses.includes(status)], with the status it names. *)
Definition valid_status (status : string) : option BookingStatus :=
  if String.eqb status "pending" then Some bk_pending
  else if String.eqb status "confirmed" then Some bk_confirmed
  else if String.eqb status "cancelled" then Some bk_cancelled
  else if String.eqb status "completed" then Some bk_completed
  else None.

(** The caller made the booking, owns its turf, or is an admin. *)
Definition may_access_booking (turfs : gmap string Turf) (user : AuthUser)
    (booking : Booking) : bool :=
  String.eqb (b_userId booking) (au_id user)
  || match turfs !! b_turfId booking with
     | Some turf => String.eqb (t_ownerId turf) (au_id user)
     | None => false
     end
  || String.eqb (au_role user) "admin".

(** [router.get('/:id', authenticateToken, ...)] of the bookings. *)
Definition get_booking (turfs : gmap string Turf) (rows : list Booking)
    (user : AuthUser) (id : string) : BookingResponse :=
  match findBooking rows id with
  | None => mkBookingResponse 404 false "Booking not found" None
  | Some booking =>
      if negb (may_access_booking turfs user booking) then
        mkBookingResponse 403 false "Access denied" None
      else mkBookingResponse 200 true "" (Some booking)
  end.

(** [router.patch('/:id/status', authenticateToken, ...)] at time [t]. *)
Definition patch_booking_status (turfs : gmap string Turf) (rows : list Booking)
    (t : string) (user : AuthUser) (id status : string)
  : BookingResponse * list Booking :=
  match valid_status status with
  | None => (mkBookingResponse 400 false "Invalid status" None, rows)
  | Some st =>
      match findBooking rows id with
      | None => (mkBookingResponse 404 false "Booking not found" None, rows)
      | Some booking =>
          if negb (may_access_booking turfs user booking) then
            (mkBookingResponse 403 false "Access denied" None, rows)
          else
            let '(updatedBooking, rows') :=
              BookingModel_update rows t id
                (mkBookingUpdate None None None None None (Some st) None None None) in
            (mkBookingResponse 200 true "Booking status updated successfully"
               updatedBooking, rows')
      end
  end.

(** ** Predicates of the statements *)

(** The stored count is the confirmed players plus the host. *)
Definition counts_host (g : Game) : Prop :=
  g_currentPlayers g = len (g_confirmedPlayers g) + 1.

(** The confirmed players, with the host, fit the capacity and the cached
    count is right. *)
Definition within_capacity (g : Game) : Prop :=
  counts_host g /\ len (g_confirmedPlayers g) <= g_maxPlayers g - 1.

(** The calls on a game that test the capacity before adding a player, and
    leaving. *)
Inductive GuardedCall :=
| call_joinGame (userId : string)
| call_leaveGame (userId : string)
| call_respondToJoinRequest (hostId userId : string) (approve : bool).

(** One call on game [gameId], made when the clock reads [t]. *)
Definition perform (gameId : string) (w : World) (c : string * GuardedCall) : World :=
  let w_t := mkWorld (fst c) (games w) in
  match snd c with
  | call_joinGame userId => snd (joinGame w_t gameId userId)
  | call_leaveGame userId => snd (leaveGame w_t gameId userId)
  | call_respondToJoinRequest hostId userId approve =>
      snd (respondToJoinRequest w_t gameId hostId userId approve)
  end.

(** A sequence of calls, one after the other. *)
Definition perform_all (gameId : string) (w : World) (calls : list (string * GuardedCall))
  : World :=
  List.fold_left (perform gameId) calls w.

(** A game without [updatedAt]. *)
Definition erase_updatedAt (g : Game) : Game :=
  mkGame (g_id g) (g_hostId g) (g_turfId g) (g_date g) (g_startTime g) (g_endTime g)
    (g_sport g) (g_format g) (g_skillLevel g) (g_currentPlayers g) (g_maxPlayers g)
    (g_costPerPerson g) (g_description g) (g_notes g) (g_isPrivate g)
    (g_joinRequests g) (g_confirmedPlayers g) (g_status g) (g_createdAt g) "".

(** A game without its requests. *)
Definition erase_requests (g : Game) : Game :=
  mkGame (g_id g) (g_hostId g) (g_turfId g) (g_date g) (g_startTime g) (g_endTime g)
    (g_sport g) (g_format g) (g_skillLevel g) (g_currentPlayers g) (g_maxPlayers g)
    (g_costPerPerson g) (g_description g) (g_notes g) (g_isPrivate g)
    [] (g_confirmedPlayers g) (g_status g) (g_createdAt g) (g_updatedAt g).

(** Two outcomes of a model operation are equal but for [updatedAt]: the
    answers are equal, and so are the tables once [updatedAt] is taken from
    every row.  The requests are compared with their [requestedAt]. *)
Definition agree_up_to_updatedAt (x y : Result * World) : Prop :=
  fst x = fst y
  /\ fmap (M := gmap string) erase_updatedAt (games (snd x))
     = fmap (M := gmap string) erase_updatedAt (games (snd y)).

(** Two outcomes of a route handler are equal but for [updatedAt]. *)
Definition responses_agree_up_to_updatedAt (x y : Response * World) : Prop :=
  r_code (fst x) = r_code (fst y)
  /\ r_success (fst x) = r_success (fst y)
  /\ r_text (fst x) = r_text (fst y)
  /\ option_map erase_updatedAt (r_data (fst x))
     = option_map erase_updatedAt (r_data (fst y))
  /\ fmap (M := gmap string) erase_updatedAt (games (snd x))
     = fmap (M := gmap string) erase_updatedAt (games (snd y)).

(** The lists [l1] and [l2] are the same list, or each is [old] followed by
    one pending request of [userId], requested at [t1] in the one and at [t2]
    in the other. *)
Definition equal_but_new_request (old : list JoinRequest) (userId t1 t2 : string)
    (l1 l2 : list JoinRequest) : Prop :=
  l1 = l2
  \/ (l1 = (old ++ [mkJoinRequest userId t1 "pending"])%list
      /\ l2 = (old ++ [mkJoinRequest userId t2 "pending"])%list).

(** The rows [r1] and [r2] that two joins of [userId], made at [t1] and at
    [t2], left of the row [before]: both are absent, or they differ at most in
    [updatedAt] and in the [requestedAt] of the one request that [before] did
    not have. *)
Definition rows_agree_after_join (userId t1 t2 : string)
    (before r1 r2 : option Game) : Prop :=
  match r1, r2 with
  | Some g1, Some g2 =>
      erase_updatedAt (erase_requests g1) = erase_updatedAt (erase_requests g2)
      /\ equal_but_new_request
           (match before with Some b => g_joinRequests b | None => [] end)
           userId t1 t2 (g_joinRequests g1) (g_joinRequests g2)
  | None, None => True
  | _, _ => False
  end.

(** Two outcomes of a join of [userId] on the table [before], made at [t1]
    and at [t2], agree up to the time stamps the join writes. *)
Definition join_agrees_up_to_timestamps (before : gmap string Game)
    (userId t1 t2 : string) (x y : Result * World) : Prop :=
  fst x = fst y
  /\ forall id,
       rows_agree_after_join userId t1 t2 (before !! id)
         (games (snd x) !! id) (games (snd y) !! id).

(** A time of day written [HH:MM]: the pattern of the schema, with the minutes
    below 60. *)
Definition is_clock_time (time : string) : bool :=
  match time with
  | String h1 (String h2 (String ":" (String m1 (String m2 EmptyString)))) =>
      is_digit h1 && is_digit h2 && is_digit m2
      && match digit_value m1 with Some v => v <=? 5 | None => false end
  | _ => false
  end.

(** The overlap test of the specification on half-open intervals [[a,b)] and
    [[c,d)]: [a < d] and [c < b]. *)
Definition overlaps (a b c d : string) : bool := time_lt a d && time_lt c b.

(** The bookings that count against a request: same turf, same date, status
    pending or confirmed, and not the excluded booking. *)
Definition competes (turfId date : string) (excludeBookingId : option string)
    (b : Booking) : Prop :=
  b_turfId b = turfId /\ b_date b = date /\ is_active b = true
  /\ excludeBookingId <> Some (b_id b).

(** Availability in the words of the specification: no competing booking
    overlaps the requested interval. *)
Definition no_overlapping_booking (rows : list Booking)
    (turfId date startTime endTime : string) (excludeBookingId : option string) : Prop :=
  forall b, In b rows -> competes turfId date excludeBookingId b ->
            overlaps startTime endTime (b_startTime b) (b_endTime b) = false.

(** The day of the week is Saturday or Sunday. *)
Definition falls_on_weekend (day : option Z) : bool :=
  match day with
  | Some 0 | Some 6 => true
  | _ => false
  end.

(** The rate in the words of the specification: the weekend rate when the
    date falls on a weekend and a weekend rate is set, else the hourly rate.
    A rate is set when it is present and a non-zero number. *)
Definition rate_by_specification (day : option Z) (turf : Turf) : float :=
  match t_pricePerHourWeekend turf with
  | Some weekendRate =>
      if falls_on_weekend day
         && negb (PrimFloat.is_zero weekendRate || PrimFloat.is_nan weekendRate)
      then weekendRate
      else t_pricePerHour turf
  | None => t_pricePerHour turf
  end.

(** The ids of the users with a request. *)
Definition requesters (g : Game) : list string :=
  List.map jr_userId (g_joinRequests g).

(** No user is listed twice, neither within one list nor across the
    confirmed players and the requesters. *)
Definition members_distinct (g : Game) : Prop :=
  List.NoDup (g_confirmedPlayers g ++ requesters g).

(** A call of one of the six membership methods of [GameModel]. *)
Inductive ModelCall :=
| do_joinGame (userId : string)
| do_leaveGame (userId : string)
| do_createJoinRequest (userId : string)
| do_acceptRequest (userId : string)
| do_rejectRequest (userId : string)
| do_respondToJoinRequest (hostId userId : string) (approve : bool).

Definition model_call (w : World) (gameId : string) (c : ModelCall) : Result * World :=
  match c with
  | do_joinGame userId => joinGame w gameId userId
  | do_leaveGame userId => leaveGame w gameId userId
  | do_createJoinRequest userId => createJoinRequest w gameId userId
  | do_acceptRequest userId => acceptRequest w gameId userId
  | do_rejectRequest userId => rejectRequest w gameId userId
  | do_respondToJoinRequest hostId userId approve =>
      respondToJoinRequest w gameId hostId userId approve
  end.

(** A sequence of calls on one game, each made when the clock reads the time
    paired with it. *)
Definition model_calls (gameId : string) (w : World) (calls : list (string * ModelCall))
  : World :=
  List.fold_left
    (fun w c => snd (model_call (mkWorld (fst c) (games w)) gameId (snd c)))
    calls w.

(** [g'] has the identity, host, turf, schedule, description, capacity,
    privacy and creation time of [g]: everything but the two membership lists,
    the cached count, the status and [updatedAt]. *)
Definition same_fixed_fields (g g' : Game) : Prop :=
  g_id g' = g_id g /\ g_hostId g' = g_hostId g /\ g_turfId g' = g_turfId g
  /\ g_date g' = g_date g /\ g_startTime g' = g_startTime g
  /\ g_endTime g' = g_endTime g /\ g_sport g' = g_sport g
  /\ g_format g' = g_format g /\ g_skillLevel g' = g_skillLevel g
  /\ g_maxPlayers g' = g_maxPlayers g /\ g_costPerPerson g' = g_costPerPerson g
  /\ g_description g' = g_description g /\ g_notes g' = g_notes g
  /\ g_isPrivate g' = g_isPrivate g /\ g_createdAt g' = g_createdAt g.

(** An update object with no key other than [join_requests],
    [confirmed_players], [current_players] and [status]. *)
Definition membership_update (u : GameUpdate) : Prop :=
  u_date u = None /\ u_startTime u = None /\ u_endTime u = None
  /\ u_sport u = None /\ u_format u = None /\ u_skillLevel u = None
  /\ u_maxPlayers u = None /\ u_costPerPerson u = None
  /\ u_description u = None /\ u_notes u = None /\ u_isPrivate u = None.

(** Two bookings do not compete for the same time: unless one of them is
    cancelled or completed, or they are for different turfs or dates, their
    intervals do not overlap. *)
Definition compatible (b1 b2 : Booking) : Prop :=
  is_active b1 = true -> is_active b2 = true ->
  b_turfId b1 = b_turfId b2 -> b_date b1 = b_date b2 ->
  overlaps (b_startTime b1) (b_endTime b1) (b_startTime b2) (b_endTime b2) = false.

(** No two rows of the table compete for the same time. *)
Definition bookings_apart (rows : list Booking) : Prop :=
  ForallOrdPairs compatible rows.

(** Every row starts before it ends. *)
Definition proper_intervals (rows : list Booking) : Prop :=
  forall b, In b rows -> time_lt (b_startTime b) (b_endTime b) = true.

(** The rows that are not the booking [id]. *)
Definition other_bookings (rows : list Booking) (id : string) : list Booking :=
  List.filter (fun b => negb (String.eqb (b_id b) id)) rows.

(** The text of the slot that the [k]-th iteration of the loop of
    [generateTimeSlots] pushes, when the loop started at [current]. *)
Definition nth_slot (current durationMinutes k : Z) : string :=
  minutesToTime (current + k * durationMinutes) ++ " - "
  ++ minutesToTime (current + (k + 1) * durationMinutes).

(** ** Proof automation *)

(** Splits an operation into its branches: every guard is decided, the
    returned pair is taken apart, and failed branches are discarded with the
    hypothesis that the call succeeded. *)
Ltac run_operation Hcall :=
  repeat match type of Hcall with
         | context [if ?c then _ else _] => destruct c eqn:?
         | context [match splice_first ?l ?x with _ => _ end] =>
             destruct (splice_first l x) eqn:?
         end;
  injection Hcall as <- <-; simpl in *; try discriminate.

(** Decides the guards of an operation run on two stores with the same
    [games] table and closes the branches in which nothing is written. *)
Ltac same_guards :=
  repeat match goal with
         | |- context [if ?c then _ else _] => destruct c eqn:?
         | |- context [match splice_first ?l ?x with _ => _ end] =>
             destruct (splice_first l x) eqn:?
         end;
  simpl; try (split; [reflexivity | congruence]).

(** ** Sample data used by the examples below *)

Definition sample_game : Game :=
  mkGame "g1" "host" "turf1" "2024-01-06" "18:00" "19:00" "football" "5v5"
    all_levels 2 3 100%float None None false [] ["ana"] open
    "2024-01-01T09:00:00.000Z" "2024-01-01T09:00:00.000Z".

Definition sample_world : World :=
  mkWorld "2024-01-02T08:00:00.000Z" {[ "g1" := sample_game ]}.

(** A private game of capacity 2 as [router.post('/', ...)] of
    [src/routes/games.ts] stores it: the host is the only player. *)
Definition fresh_private_game : Game :=
  mkGame "g4" "host" "turf1" "2024-01-06" "18:00" "19:00" "football" "5v5"
    all_levels 1 2 100%float None None true [] [] open
    "2024-01-01T09:00:00.000Z" "2024-01-01T09:00:00.000Z".

Definition fresh_private_world : World :=
  mkWorld "2024-01-02T08:00:00.000Z" {[ "g4" := fresh_private_game ]}.

(** A finished game that "ana" had joined. *)
Definition sample_completed_game : Game :=
  mkGame "g3" "host" "turf1" "2023-12-30" "18:00" "19:00" "football" "5v5"
    all_levels 2 3 100%float None None false [] ["ana"] completed
    "2023-12-20T09:00:00.000Z" "2023-12-30T19:00:00.000Z".

(** A cancelled game. *)
Definition sample_cancelled_game : Game :=
  mkGame "g5" "host" "turf1" "2024-01-06" "18:00" "19:00" "football" "5v5"
    all_levels 1 3 100%float None None false [] [] cancelled
    "2024-01-01T09:00:00.000Z" "2024-01-01T12:00:00.000Z".

Definition sample_closed_world : World :=
  mkWorld "2024-01-02T08:00:00.000Z"
    (<[ "g5" := sample_cancelled_game ]> {[ "g3" := sample_completed_game ]}).

Definition sample_host : AuthUser := mkAuthUser "host" "user".

(** A cancelled private game with room, which "bob" had asked to join. *)
Definition sample_cancelled_private_game : Game :=
  mkGame "g6" "host" "turf1" "2024-01-06" "18:00" "19:00" "football" "5v5"
    all_levels 1 3 100%float None None true
    [mkJoinRequest "bob" "2024-01-01T10:00:00.000Z" "pending"] [] cancelled
    "2024-01-01T09:00:00.000Z" "2024-01-01T12:00:00.000Z".

Definition sample_cancelled_private_world : World :=
  mkWorld "2024-01-02T08:00:00.000Z" {[ "g6" := sample_cancelled_private_game ]}.

(** The store of [fresh_private_world] read one hour later. *)
Definition fresh_private_world_later : World :=
  mkWorld "2024-01-02T09:00:00.000Z" (games fresh_private_world).

(** The body [{ "maxPlayers": 10 }] of a [PUT] request. *)
Definition raise_capacity : GameUpdate :=
  mkGameUpdate None None None None None None None (Some 10) None None None None
               None None None.

Definition sample_booking (id startTime endTime : string) (st : BookingStatus) : Booking :=
  mkBooking id "ana" "turf1" "2024-01-06" startTime endTime 10 800%float st None
    pay_pending None "2024-01-01T09:00:00.000Z" "2024-01-01T09:00:00.000Z".

(** Scenario C: one confirmed booking from 14:00 to 15:00. *)
Definition afternoon_rows : list Booking :=
  [sample_booking "b1" "14:00" "15:00" bk_confirmed].

(** One confirmed booking from 06:30 to 07:30. *)
Definition early_rows : list Booking :=
  [sample_booking "b2" "06:30" "07:30" bk_confirmed].

(** Scenario D: 800 an hour, 1000 an hour at weekends. *)
Definition sample_turf : Turf := mkTurf "turf1" "owner" 800%float (Some 1000%float) true.

Definition sample_turfs : gmap string Turf := {[ "turf1" := sample_turf ]}.

(** [getDay] on the first days of 2024: the 6th is a Saturday, the 7th a
    Sunday, the 8th a Monday. *)
Definition sample_calendar (date : string) : option Z :=
  if String.eqb date "2024-01-06" then Some 6
  else if String.eqb date "2024-01-07" then Some 0
  else if String.eqb date "2024-01-08" then Some 1
  else None.

Definition sunday_morning : BookingBody :=
  mkBookingBody "turf1" "2024-01-07" "09:00" "11:00" 10 None None.

(** A request on a Monday whose end precedes its start. *)
Definition inverted_request : BookingBody :=
  mkBookingBody "turf1" "2024-01-08" "11:00" "09:00" 10 None None.

(** A request whose end is its start. *)
Definition empty_request : BookingBody :=
  mkBookingBody "turf1" "2024-01-08" "09:00" "09:00" 10 None None.

Definition sample_user : AuthUser := mkAuthUser "ana" "user".

(** "ana" and "bob" ask to join, "ana" is accepted, "bob" is turned down. *)
Definition sample_calls : list (string * ModelCall) :=
  [("2024-01-02T08:00:00.000Z", do_joinGame "ana");
   ("2024-01-02T08:05:00.000Z", do_createJoinRequest "bob");
   ("2024-01-02T08:10:00.000Z", do_acceptRequest "ana");
   ("2024-01-02T08:15:00.000Z", do_rejectRequest "bob")].

(** A valid request for a private game of ten players on [sample_turf]. *)
Definition sample_game_body : GameBody :=
  mkGameBody "turf1" "2024-01-13" "18:00" "19:00" "football" "5v5" all_levels 10
    50%float None None (Some true).


(** A user who neither made [sample_booking], nor owns [sample_turf], nor is
    an admin. *)
Definition sample_stranger : AuthUser := mkAuthUser "zoe" "user".

(** A pending booking of a slot of [BookingSupabase.ts]. *)
Definition booking_of_slot (s : Slot) : Booking :=
  sample_booking ("b-" ++ slot_startTime s) (slot_startTime s) (slot_endTime s)
    bk_pending.

(** A pending booking that starts with a slot of [Booking.ts] and ends at
    23:30. *)
Definition booking_of_text (slot : string) : Booking :=
  sample_booking ("b-" ++ slot) (first_field " - " slot) "23:30" bk_pending.

(** The slots of [Booking.ts] that [afternoon_rows] leaves free. *)
Definition afternoon_free_slots : list string :=
  ["06:00 - 07:00"; "07:00 - 08:00"; "08:00 - 09:00"; "09:00 - 10:00";
   "10:00 - 11:00"; "11:00 - 12:00"; "12:00 - 13:00"; "13:00 - 14:00";
   "15:00 - 16:00"; "16:00 - 17:00"; "17:00 - 18:00"; "18:00 - 19:00";
   "19:00 - 20:00"; "20:00 - 21:00"; "21:00 - 22:00"; "22:00 - 23:00"].

(** "bob" joins and "ana" leaves. *)
Definition sample_guarded_calls : list (string * GuardedCall) :=
  [("2024-01-02T08:00:00.000Z", call_joinGame "bob");
   ("2024-01-02T08:05:00.000Z", call_leaveGame "ana")].

(** * Properties *)

(** ** Basic facts about the helpers *)

Lemma GameStatus_eqb_eq (a b : GameStatus) : GameStatus_eqb a b = true <-> a = b.
Proof. destruct a, b; simpl; split; intros H; congruence. Qed.

Lemma includes_In (l : list string) (x : string) :
  includes l x = true <-> In x l.
Proof.
  unfold includes. rewrite existsb_exists. split.
  - intros [y [Hy Heq]]. apply String.eqb_eq in Heq. now subst.
  - intros H. exists x. split; [assumption | apply String.eqb_refl].
Qed.

Lemma has_request_In (l : list JoinRequest) (x : string) :
  has_request l x = true <-> In x (List.map jr_userId l).
Proof.
  unfold has_request. rewrite existsb_exists, in_map_iff. split.
  - intros [r [Hr Heq]]. apply String.eqb_eq in Heq. exists r. now split.
  - intros [r [Heq Hr]]. exists r. split; [assumption |].
    rewrite Heq. apply String.eqb_refl.
Qed.

Lemma without_player_absent (l : list string) (x : string) :
  ~ In x l -> without_player l x = l.
Proof.
  induction l as [| y l IH]; simpl; intros Hx; [reflexivity |].
  destruct (String.eqb_spec y x) as [-> | Hne]; simpl.
  - exfalso. apply Hx. now left.
  - f_equal. apply IH. intros Hin. apply Hx. now right.
Qed.

Lemma without_request_absent (l : list JoinRequest) (x : string) :
  ~ In x (List.map jr_userId l) -> without_request l x = l.
Proof.
  induction l as [| r l IH]; simpl; intros Hx; [reflexivity |].
  destruct (String.eqb_spec (jr_userId r) x) as [Heq | Hne]; simpl.
  - exfalso. apply Hx. now left.
  - f_equal. apply IH. intros Hin. apply Hx. now right.
Qed.

Lemma findById_update (w : World) (id : string) (u : GameUpdate) (g : Game) :
  findById w id = Some g ->
  findById (update w id u) id = Some (write_columns (now w) u g).
Proof.
  unfold findById, update. intros ->. simpl. apply lookup_insert_eq.
Qed.

Lemma findById_update_ne (w : World) (id id' : string) (u : GameUpdate) :
  id <> id' -> findById (update w id u) id' = findById w id'.
Proof.
  unfold findById, update. intros Hne.
  destruct (games w !! id); simpl; [| reflexivity].
  now apply lookup_insert_ne.
Qed.

(** ** Leaving a game one is not part of *)

(** C8.  If [userId] is neither a confirmed player nor a requester of a stored
    game, [leaveGame] answers "Not part of this game" and the store is the
    one it was given; a second call on the resulting store does the same. *)
Theorem leaveGame_non_member (w : World) (gameId userId : string) (game : Game) :
  findById w gameId = Some game ->
  ~ In userId (g_confirmedPlayers game) ->
  ~ In userId (List.map jr_userId (g_joinRequests game)) ->
  leaveGame w gameId userId = (failure "Not part of this game", w)
  /\ leaveGame (snd (leaveGame w gameId userId)) gameId userId
     = (failure "Not part of this game", w).
Proof.
  intros Hfind Hplayers Hrequests.
  assert (Hleave : leaveGame w gameId userId = (failure "Not part of this game", w)).
  { unfold leaveGame. rewrite Hfind.
    rewrite (without_player_absent _ _ Hplayers).
    rewrite (without_request_absent _ _ Hrequests).
    now rewrite !Z.eqb_refl. }
  split; [exact Hleave |].
  rewrite Hleave. simpl. exact Hleave.
Qed.

Lemma leaveGame_non_member_witness :
  leaveGame sample_world "g1" "zoe" = (failure "Not part of this game", sample_world)
  /\ leaveGame (snd (leaveGame sample_world "g1" "zoe")) "g1" "zoe"
     = (failure "Not part of this game", sample_world).
Proof.
  apply (leaveGame_non_member sample_world "g1" "zoe" sample_game).
  - reflexivity.
  - simpl. intros [H | []]. discriminate H.
  - simpl. intros [].
Defined.

(** ** The cached player count *)

Lemma joinGame_public_counts_host (w w' : World) (gameId userId : string)
    (game : Game) (r : Result) :
  findById w gameId = Some game ->
  g_isPrivate game = false ->
  joinGame w gameId userId = (r, w') ->
  success r = true ->
  exists game', findById w' gameId = Some game' /\ counts_host game'.
Proof.
  intros Hfind Hpublic Hcall Hok.
  unfold joinGame in Hcall. rewrite Hfind, Hpublic in Hcall.
  run_operation Hcall.
  all: eexists; split; [apply (findById_update _ _ _ _ Hfind) | reflexivity].
Qed.

Lemma joinGame_private_keeps_players (w w' : World) (gameId userId : string)
    (game : Game) (r : Result) :
  findById w gameId = Some game ->
  g_isPrivate game = true ->
  joinGame w gameId userId = (r, w') ->
  success r = true ->
  exists game',
    findById w' gameId = Some game'
    /\ g_currentPlayers game' = g_currentPlayers game
    /\ g_confirmedPlayers game' = g_confirmedPlayers game.
Proof.
  intros Hfind Hprivate Hcall Hok.
  unfold joinGame in Hcall. rewrite Hfind, Hprivate in Hcall.
  run_operation Hcall.
  all: eexists; split; [apply (findById_update _ _ _ _ Hfind) | split; reflexivity].
Qed.

Lemma leaveGame_counts_host (w w' : World) (gameId userId : string)
    (game : Game) (r : Result) :
  findById w gameId = Some game ->
  leaveGame w gameId userId = (r, w') ->
  success r = true ->
  exists game', findById w' gameId = Some game' /\ counts_host game'.
Proof.
  intros Hfind Hcall Hok.
  unfold leaveGame in Hcall. rewrite Hfind in Hcall.
  run_operation Hcall.
  all: eexists; split; [apply (findById_update _ _ _ _ Hfind) | reflexivity].
Qed.

Lemma acceptRequest_counts_host (w w' : World) (gameId userId : string)
    (game : Game) (r : Result) :
  findById w gameId = Some game ->
  acceptRequest w gameId userId = (r, w') ->
  success r = true ->
  exists game', findById w' gameId = Some game' /\ counts_host game'.
Proof.
  intros Hfind Hcall Hok.
  unfold acceptRequest in Hcall. rewrite Hfind in Hcall.
  run_operation Hcall.
  all: eexists; split; [apply (findById_update _ _ _ _ Hfind) | reflexivity].
Qed.

Lemma respondToJoinRequest_approve_counts_host (w w' : World)
    (gameId hostId userId : string) (game : Game) (r : Result) :
  findById w gameId = Some game ->
  respondToJoinRequest w gameId hostId userId true = (r, w') ->
  success r = true ->
  exists game', findById w' gameId = Some game' /\ counts_host game'.
Proof.
  intros Hfind Hcall Hok.
  unfold respondToJoinRequest in Hcall. rewrite Hfind in Hcall.
  run_operation Hcall.
  all: eexists; split; [apply (findById_update _ _ _ _ Hfind) | reflexivity].
Qed.

Lemma respondToJoinRequest_decline_keeps_players (w w' : World)
    (gameId hostId userId : string) (game : Game) (r : Result) :
  findById w gameId = Some game ->
  respondToJoinRequest w gameId hostId userId false = (r, w') ->
  success r = true ->
  exists game',
    findById w' gameId = Some game'
    /\ g_currentPlayers game' = g_currentPlayers game
    /\ g_confirmedPlayers game' = g_confirmedPlayers game.
Proof.
  intros Hfind Hcall Hok.
  unfold respondToJoinRequest in Hcall. rewrite Hfind in Hcall.
  run_operation Hcall.
  all: eexists; split; [apply (findById_update _ _ _ _ Hfind) | split; reflexivity].
Qed.

Lemma rejectRequest_keeps_players (w w' : World) (gameId userId : string)
    (game : Game) (r : Result) :
  findById w gameId = Some game ->
  rejectRequest w gameId userId = (r, w') ->
  success r = true ->
  exists game',
    findById w' gameId = Some game'
    /\ g_currentPlayers game' = g_currentPlayers game
    /\ g_confirmedPlayers game' = g_confirmedPlayers game.
Proof.
  intros Hfind Hcall Hok.
  unfold rejectRequest in Hcall. rewrite Hfind in Hcall.
  run_operation Hcall.
  all: eexists; split; [apply (findById_update _ _ _ _ Hfind) | split; reflexivity].
Qed.

(** C10.  After a successful public [joinGame], [leaveGame], [acceptRequest]
    or approving [respondToJoinRequest], the stored [currentPlayers] is the
    number of confirmed players plus one; a successful private [joinGame], a
    declining [respondToJoinRequest] and [rejectRequest] store the
    [currentPlayers] and [confirmedPlayers] they found. *)
Theorem currentPlayers_after_membership_change (w w' : World)
    (gameId hostId userId : string) (game : Game) (r : Result) :
  findById w gameId = Some game ->
  success r = true ->
  ((joinGame w gameId userId = (r, w') /\ g_isPrivate game = false)
   \/ leaveGame w gameId userId = (r, w')
   \/ acceptRequest w gameId userId = (r, w')
   \/ respondToJoinRequest w gameId hostId userId true = (r, w') ->
   exists game', findById w' gameId = Some game' /\ counts_host game')
  /\ ((joinGame w gameId userId = (r, w') /\ g_isPrivate game = true)
      \/ respondToJoinRequest w gameId hostId userId false = (r, w')
      \/ rejectRequest w gameId userId = (r, w') ->
      exists game',
        findById w' gameId = Some game'
        /\ g_currentPlayers game' = g_currentPlayers game
        /\ g_confirmedPlayers game' = g_confirmedPlayers game).
Proof.
  intros Hfind Hok. split.
  - intros [[Hcall Hpublic] | [Hcall | [Hcall | Hcall]]].
    + exact (joinGame_public_counts_host _ _ _ _ _ _ Hfind Hpublic Hcall Hok).
    + exact (leaveGame_counts_host _ _ _ _ _ _ Hfind Hcall Hok).
    + exact (acceptRequest_counts_host _ _ _ _ _ _ Hfind Hcall Hok).
    + exact (respondToJoinRequest_approve_counts_host _ _ _ _ _ _ _ Hfind Hcall Hok).
  - intros [[Hcall Hprivate] | [Hcall | Hcall]].
    + exact (joinGame_private_keeps_players _ _ _ _ _ _ Hfind Hprivate Hcall Hok).
    + exact (respondToJoinRequest_decline_keeps_players _ _ _ _ _ _ _ Hfind Hcall Hok).
    + exact (rejectRequest_keeps_players _ _ _ _ _ _ Hfind Hcall Hok).
Qed.

Lemma currentPlayers_after_membership_change_witness :
  exists game',
    findById (snd (joinGame sample_world "g1" "zoe")) "g1" = Some game'
    /\ counts_host game'.
Proof.
  apply (proj1 (currentPlayers_after_membership_change
                  sample_world (snd (joinGame sample_world "g1" "zoe"))
                  "g1" "host" "zoe" sample_game
                  (fst (joinGame sample_world "g1" "zoe"))
                  eq_refl eq_refl)).
  left. split; reflexivity.
Defined.

(** ** Capacity *)

Lemma len_app_one {A} (l : list A) (x : A) : len (l ++ [x]) = len l + 1.
Proof. unfold len. rewrite length_app. simpl. lia. Qed.

(** On a game whose cached count is right, [joinGame] and an approving
    [respondToJoinRequest] keep the confirmed players within capacity and keep
    the cached count right. *)
Lemma joinGame_keeps_capacity (w w' : World) (gameId userId : string)
    (game : Game) (r : Result) :
  findById w gameId = Some game ->
  counts_host game ->
  len (g_confirmedPlayers game) <= g_maxPlayers game - 1 ->
  joinGame w gameId userId = (r, w') ->
  exists game',
    findById w' gameId = Some game'
    /\ counts_host game'
    /\ len (g_confirmedPlayers game') <= g_maxPlayers game' - 1.
Proof.
  unfold counts_host. intros Hfind Hcount Hcap Hcall.
  unfold joinGame in Hcall. rewrite Hfind in Hcall.
  repeat match type of Hcall with
         | context [if ?c then _ else _] => destruct c eqn:?
         end;
  injection Hcall as <- <-; try (exists game; now repeat split).
  all: eexists; split; [apply (findById_update _ _ _ _ Hfind) |]; simpl.
  all: rewrite ?len_app_one; split; lia.
Qed.

Lemma respondToJoinRequest_keeps_capacity (w w' : World)
    (gameId hostId userId : string) (approve : bool) (game : Game) (r : Result) :
  findById w gameId = Some game ->
  counts_host game ->
  len (g_confirmedPlayers game) <= g_maxPlayers game - 1 ->
  respondToJoinRequest w gameId hostId userId approve = (r, w') ->
  exists game',
    findById w' gameId = Some game'
    /\ counts_host game'
    /\ len (g_confirmedPlayers game') <= g_maxPlayers game' - 1.
Proof.
  unfold counts_host. intros Hfind Hcount Hcap Hcall.
  unfold respondToJoinRequest in Hcall. rewrite Hfind in Hcall.
  repeat match type of Hcall with
         | context [if ?c then _ else _] => destruct c eqn:?
         end;
  injection Hcall as <- <-; try (exists game; now repeat split).
  all: eexists; split; [apply (findById_update _ _ _ _ Hfind) |]; simpl.
  all: rewrite ?len_app_one; split; lia.
Qed.

Lemma leaveGame_keeps_capacity (w w' : World) (gameId userId : string)
    (game : Game) (r : Result) :
  findById w gameId = Some game ->
  counts_host game ->
  len (g_confirmedPlayers game) <= g_maxPlayers game - 1 ->
  leaveGame w gameId userId = (r, w') ->
  exists game',
    findById w' gameId = Some game'
    /\ counts_host game'
    /\ len (g_confirmedPlayers game') <= g_maxPlayers game' - 1.
Proof.
  unfold counts_host. intros Hfind Hcount Hcap Hcall.
  unfold leaveGame in Hcall. rewrite Hfind in Hcall.
  pose proof (List.filter_length_le
                (fun id => negb (id =? userId)%string) (g_confirmedPlayers game))
    as Hshorter.
  repeat match type of Hcall with
         | context [if ?c then _ else _] => destruct c eqn:?
         end;
  injection Hcall as <- <-; try (exists game; now repeat split).
  all: eexists; split; [apply (findById_update _ _ _ _ Hfind) |]; simpl.
  all: unfold without_player, len in *; split; lia.
Qed.

(** X23.  Whatever sequence of [joinGame], [leaveGame] and
    [respondToJoinRequest] calls is made on a game that is within its capacity,
    at whatever times, the game stays within its capacity: the confirmed
    players and the host are at most [maxPlayers], and [currentPlayers] counts
    them. *)
Lemma perform_all_within_capacity (gameId : string)
    (calls : list (string * GuardedCall)) :
  forall (w : World) (game : Game),
    findById w gameId = Some game ->
    within_capacity game ->
    exists game',
      findById (perform_all gameId w calls) gameId = Some game'
      /\ within_capacity game'.
Proof.
  unfold perform_all, within_capacity.
  induction calls as [| [t c] calls IH]; intros w game Hfind [Hcount Hcap]; simpl.
  - exists game. now repeat split.
  - assert (Hstep : exists game',
               findById (perform gameId w (t, c)) gameId = Some game'
               /\ counts_host game'
               /\ len (g_confirmedPlayers game') <= g_maxPlayers game' - 1).
    { unfold perform. simpl.
      destruct c as [userId | userId | hostId userId approve].
      - eapply (joinGame_keeps_capacity (mkWorld t (games w))); eauto using surjective_pairing.
      - eapply (leaveGame_keeps_capacity (mkWorld t (games w))); eauto using surjective_pairing.
      - eapply (respondToJoinRequest_keeps_capacity (mkWorld t (games w)));
          eauto using surjective_pairing. }
    destruct Hstep as (game' & Hfind' & Hcount' & Hcap').
    now apply (IH _ game').
Qed.

(** C1.  [acceptRequest] performs no capacity test.  From a newly created
    private game of capacity 2, "ana" and "bob" ask to join and "ana" is
    accepted: the game then has one confirmed player, which is the most its
    capacity allows.  Accepting "bob" succeeds all the same and stores two
    confirmed players, while [respondToJoinRequest] refuses the same approval
    on the same store with "Game is full". *)
Theorem acceptRequest_exceeds_capacity :
  let w1 := snd (joinGame fresh_private_world "g4" "ana") in
  let w2 := snd (joinGame w1 "g4" "bob") in
  let w3 := snd (acceptRequest w2 "g4" "ana") in
  (exists game3,
      findById w3 "g4" = Some game3
      /\ len (g_confirmedPlayers game3) <= g_maxPlayers game3 - 1)
  /\ fst (acceptRequest w3 "g4" "bob") = succeeded "Player request accepted"
  /\ (exists game4,
         findById (snd (acceptRequest w3 "g4" "bob")) "g4" = Some game4
         /\ g_confirmedPlayers game4 = ["ana"; "bob"]
         /\ g_maxPlayers game4 = 2
         /\ ~ len (g_confirmedPlayers game4) <= g_maxPlayers game4 - 1)
  /\ respondToJoinRequest w3 "g4" "host" "bob" true = (failure "Game is full", w3).
Proof.
  cbv zeta. split; [| split; [| split]].
  - eexists. split; [vm_compute; reflexivity | vm_compute; discriminate].
  - vm_compute. reflexivity.
  - eexists. split; [vm_compute; reflexivity |].
    repeat split; try reflexivity. vm_compute. intros H. apply H. reflexivity.
  - vm_compute. reflexivity.
Qed.

(** ** The status that a join stores *)

(** On a game whose cached count is right, a successful [joinGame] always
    stores the status [open]: the test that would store [full] compares the
    confirmed players without the host against [maxPlayers], after the guard
    has established that players plus host are below [maxPlayers]. *)
Lemma joinGame_stores_open (w w' : World) (gameId userId : string)
    (game : Game) (r : Result) :
  findById w gameId = Some game ->
  counts_host game ->
  joinGame w gameId userId = (r, w') ->
  success r = true ->
  exists game', findById w' gameId = Some game' /\ g_status game' = open.
Proof.
  unfold counts_host. intros Hfind Hcount Hcall Hok.
  unfold joinGame in Hcall. rewrite Hfind in Hcall.
  destruct (negb (GameStatus_eqb (g_status game) open)) eqn:Hopen;
    [injection Hcall as <- <-; discriminate |].
  apply negb_false_iff, GameStatus_eqb_eq in Hopen.
  destruct (g_currentPlayers game >=? g_maxPlayers game) eqn:Hfull;
    [injection Hcall as <- <-; discriminate |].
  run_operation Hcall.
  all: eexists; split; [apply (findById_update _ _ _ _ Hfind) |]; simpl.
  all: try assumption; try reflexivity.
  rewrite len_app_one in *. lia.
Qed.

(** C2.  A game with [maxPlayers = 3] and one confirmed player is joined by
    "ben".  The stored game then counts three players, which is its capacity,
    and its status is still [open]; the next join is refused with "Game is
    full", not with "Game is not open for joining".  The same off-by-one sits
    in [respondToJoinRequest]. *)
Theorem join_at_capacity_leaves_status_open :
  let w1 := snd (joinGame sample_world "g1" "ben") in
  fst (joinGame sample_world "g1" "ben") = succeeded "Successfully joined the game"
  /\ (exists game1,
         findById w1 "g1" = Some game1
         /\ g_confirmedPlayers game1 = ["ana"; "ben"]
         /\ len (g_confirmedPlayers game1) + 1 = g_maxPlayers game1
         /\ g_currentPlayers game1 = g_maxPlayers game1
         /\ g_status game1 = open)
  /\ joinGame w1 "g1" "cat" = (failure "Game is full", w1).
Proof.
  cbv zeta. split; [| split].
  - vm_compute. reflexivity.
  - eexists. split; [vm_compute; reflexivity |].
    repeat split; reflexivity.
  - vm_compute. reflexivity.
Qed.

(** ** The host as a joiner *)

(** [createJoinRequest] turns the host away and writes nothing. *)
Lemma createJoinRequest_rejects_host (w : World) (gameId : string) (game : Game) :
  findById w gameId = Some game ->
  createJoinRequest w gameId (g_hostId game)
  = (failure "You cannot join your own game", w).
Proof.
  intros Hfind. unfold createJoinRequest. rewrite Hfind.
  now rewrite String.eqb_refl.
Qed.

(** C7.  [joinGame] has no such test: the host of a public game joins it and
    is stored among the confirmed players, through the route as well; the
    host of a private game is stored among the requesters. *)
Theorem joinGame_admits_host :
  g_hostId sample_game = "host"
  /\ fst (joinGame sample_world "g1" "host") = succeeded "Successfully joined the game"
  /\ r_code (fst (post_join sample_world sample_host "g1")) = 200
  /\ (exists game1,
         findById (snd (joinGame sample_world "g1" "host")) "g1" = Some game1
         /\ g_hostId game1 = "host"
         /\ g_confirmedPlayers game1 = ["ana"; "host"])
  /\ fst (joinGame fresh_private_world "g4" "host")
     = succeeded "Join request sent to game host"
  /\ (exists game4,
         findById (snd (joinGame fresh_private_world "g4" "host")) "g4" = Some game4
         /\ g_hostId game4 = "host"
         /\ List.map jr_userId (g_joinRequests game4) = ["host"]).
Proof.
  repeat split; try (vm_compute; reflexivity).
  - eexists. split; [vm_compute; reflexivity |]. split; reflexivity.
  - eexists. split; [vm_compute; reflexivity |]. split; reflexivity.
Qed.

(** ** Games that are no longer open *)

(** A completed game is left by one of its players, which succeeds and stores
    the status [open]; a cancelled game is cancelled again and is updated; on
    a cancelled game the host approves a pending request, which succeeds and
    stores the player and the status [open]. *)
Lemma closed_game_operations_counterexample :
  g_status sample_completed_game = completed
  /\ findById sample_closed_world "g3" = Some sample_completed_game
  /\ fst (leaveGame sample_closed_world "g3" "ana")
     = succeeded "Successfully left the game"
  /\ (exists game3,
         findById (snd (leaveGame sample_closed_world "g3" "ana")) "g3" = Some game3
         /\ g_confirmedPlayers game3 = []
         /\ g_status game3 = open)
  /\ g_status sample_cancelled_game = cancelled
  /\ findById sample_closed_world "g5" = Some sample_cancelled_game
  /\ r_success (fst (delete_game sample_closed_world sample_host "g5")) = true
  /\ r_success (fst (put_game sample_closed_world sample_host "g5" raise_capacity)) = true
  /\ (exists game5,
         findById (snd (put_game sample_closed_world sample_host "g5" raise_capacity)) "g5"
         = Some game5
         /\ g_maxPlayers game5 = 10)
  /\ g_status sample_cancelled_private_game = cancelled
  /\ findById sample_cancelled_private_world "g6" = Some sample_cancelled_private_game
  /\ fst (respondToJoinRequest sample_cancelled_private_world "g6" "host" "bob" true)
     = succeeded "Player approved and added to the game"
  /\ (exists game6,
         findById
           (snd (respondToJoinRequest sample_cancelled_private_world "g6" "host" "bob"
                   true)) "g6"
         = Some game6
         /\ g_confirmedPlayers game6 = ["bob"]
         /\ g_joinRequests game6 = []
         /\ g_status game6 = open).
Proof.
  repeat split; try (vm_compute; reflexivity).
  - eexists. split; [vm_compute; reflexivity |]. split; reflexivity.
  - eexists. split; [vm_compute; reflexivity |]. reflexivity.
  - eexists. split; [vm_compute; reflexivity |]. repeat split.
Qed.

(** C3, as the code has it.  A game that is not [open] refuses every join with
    "Game is not open for joining" and the store is untouched; a game that is
    [in_progress] or [completed] refuses [PUT] and [DELETE] and the store is
    untouched: the host and every admin get 400, "Cannot update game that has
    started or completed" and "Cannot cancel game that has started or
    completed", and everyone else gets 403, "Only the host can update this
    game" and "Only the host can cancel this game"; a join that succeeds found
    the game [open] with [currentPlayers < maxPlayers], and an approval that
    succeeds found [currentPlayers < maxPlayers]. *)
Theorem closed_game_guards (w : World) (gameId : string) (game : Game) :
  findById w gameId = Some game ->
  (g_status game <> open ->
   forall userId,
     joinGame w gameId userId = (failure "Game is not open for joining", w))
  /\ (g_status game = in_progress \/ g_status game = completed ->
      forall user body,
        (au_id user = g_hostId game \/ au_role user = "admin" ->
         put_game w user gameId body
         = (mkResponse 400 false "Cannot update game that has started or completed"
              None, w)
         /\ delete_game w user gameId
            = (mkResponse 400 false "Cannot cancel game that has started or completed"
                 None, w))
        /\ (au_id user <> g_hostId game -> au_role user <> "admin" ->
            put_game w user gameId body
            = (mkResponse 403 false "Only the host can update this game" None, w)
            /\ delete_game w user gameId
               = (mkResponse 403 false "Only the host can cancel this game" None, w)))
  /\ (forall userId r w',
         joinGame w gameId userId = (r, w') -> success r = true ->
         g_status game = open /\ g_currentPlayers game < g_maxPlayers game)
  /\ (forall hostId userId r w',
         respondToJoinRequest w gameId hostId userId true = (r, w') ->
         success r = true ->
         g_currentPlayers game < g_maxPlayers game).
Proof.
  intros Hfind.
  split; [| split; [| split]].
  - intros Hclosed userId. unfold joinGame. rewrite Hfind.
    destruct (GameStatus_eqb (g_status game) open) eqn:Hopen; [| reflexivity].
    apply GameStatus_eqb_eq in Hopen. contradiction.
  - intros Hstatus user body.
    assert (Hclosed : GameStatus_eqb (g_status game) in_progress
                      || GameStatus_eqb (g_status game) completed = true)
      by (destruct Hstatus as [-> | ->]; reflexivity).
    unfold put_game, delete_game. rewrite Hfind, Hclosed. split.
    + intros Hmay.
      assert (Hguard : negb (g_hostId game =? au_id user)%string
                       && negb (au_role user =? "admin")%string = false).
      { destruct Hmay as [Hhost | Hadmin].
        - now rewrite Hhost, String.eqb_refl.
        - rewrite Hadmin, String.eqb_refl. apply andb_false_r. }
      rewrite Hguard. now split.
    + intros Hhost Hadmin.
      assert (Hguard : negb (g_hostId game =? au_id user)%string
                       && negb (au_role user =? "admin")%string = true).
      { apply andb_true_intro. split; apply negb_true_iff, String.eqb_neq; congruence. }
      rewrite Hguard. now split.
  - intros userId r w' Hcall Hok.
    unfold joinGame in Hcall. rewrite Hfind in Hcall.
    destruct (GameStatus_eqb (g_status game) open) eqn:Hopen; simpl in Hcall;
      [| injection Hcall as <- <-; discriminate].
    apply GameStatus_eqb_eq in Hopen. split; [assumption |].
    destruct (g_currentPlayers game >=? g_maxPlayers game) eqn:Hfull;
      [injection Hcall as <- <-; discriminate | lia].
  - intros hostId userId r w' Hcall Hok.
    unfold respondToJoinRequest in Hcall. rewrite Hfind in Hcall.
    destruct (negb (g_hostId game =? hostId)%string);
      [injection Hcall as <- <-; discriminate |].
    destruct (negb (has_request (g_joinRequests game) userId));
      [injection Hcall as <- <-; discriminate |].
    destruct (g_currentPlayers game >=? g_maxPlayers game) eqn:Hfull;
      [injection Hcall as <- <-; discriminate | lia].
Qed.

Lemma closed_game_guards_witness :
  joinGame sample_closed_world "g3" "zoe"
  = (failure "Game is not open for joining", sample_closed_world).
Proof.
  apply (proj1 (closed_game_guards sample_closed_world "g3" sample_completed_game
                  eq_refl)).
  discriminate.
Defined.

(** ** Dependence on the clock *)

Lemma timeless_update (w1 w2 : World) (id : string) (u : GameUpdate) :
  games w1 = games w2 ->
  fmap (M := gmap string) erase_updatedAt (games (update w1 id u))
  = fmap (M := gmap string) erase_updatedAt (games (update w2 id u)).
Proof.
  intros Hgames. unfold update. rewrite Hgames.
  destruct (games w2 !! id) as [g |]; simpl.
  - rewrite !fmap_insert. reflexivity.
  - now rewrite Hgames.
Qed.

Lemma rows_agree_unwritten (userId t1 t2 : string) (before row : option Game) :
  rows_agree_after_join userId t1 t2 before row row.
Proof.
  unfold rows_agree_after_join. destruct row; [| exact I].
  split; [reflexivity | now left].
Qed.

Lemma rows_agree_written (m : gmap string Game) (gameId userId t1 t2 : string)
    (g1 g2 : Game) :
  erase_updatedAt (erase_requests g1) = erase_updatedAt (erase_requests g2) ->
  equal_but_new_request
    (match m !! gameId with Some b => g_joinRequests b | None => [] end)
    userId t1 t2 (g_joinRequests g1) (g_joinRequests g2) ->
  forall id,
    rows_agree_after_join userId t1 t2 (m !! id)
      (<[gameId := g1]> m !! id) (<[gameId := g2]> m !! id).
Proof.
  intros Hrow Hrequests id. destruct (decide (id = gameId)) as [-> | Hne].
  - rewrite !lookup_insert_eq. simpl. now split.
  - rewrite !lookup_insert_ne by congruence. apply rows_agree_unwritten.
Qed.

Lemma joinGame_up_to_timestamps (w1 w2 : World) (gameId userId : string) :
  games w1 = games w2 ->
  join_agrees_up_to_timestamps (games w1) userId (now w1) (now w2)
    (joinGame w1 gameId userId) (joinGame w2 gameId userId).
Proof.
  destruct w1 as [t1 m], w2 as [t2 m2]. simpl. intros <-.
  unfold join_agrees_up_to_timestamps, joinGame, findById, update. simpl.
  destruct (m !! gameId) as [game |] eqn:Hfind; simpl;
    [| split; [reflexivity | intros id; apply rows_agree_unwritten]].
  repeat match goal with
         | |- context [if ?c then _ else _] => destruct c eqn:?
         end;
    simpl; try (split; [reflexivity | intros id; apply rows_agree_unwritten]).
  all: split; [reflexivity |]; apply rows_agree_written; [reflexivity |].
  all: rewrite Hfind; simpl.
  all: first [now left | right; now split].
Qed.

Lemma leaveGame_up_to_timestamps (w1 w2 : World) (gameId userId : string) :
  games w1 = games w2 ->
  agree_up_to_updatedAt (leaveGame w1 gameId userId) (leaveGame w2 gameId userId).
Proof.
  intros Hgames. unfold agree_up_to_updatedAt, leaveGame, findById.
  rewrite Hgames. destruct (games w2 !! gameId) as [game |]; simpl;
    [| split; [reflexivity | congruence]].
  same_guards.
  all: split; [reflexivity |]; now apply timeless_update.
Qed.

Lemma respondToJoinRequest_up_to_timestamps (w1 w2 : World)
    (gameId hostId userId : string) (approve : bool) :
  games w1 = games w2 ->
  agree_up_to_updatedAt (respondToJoinRequest w1 gameId hostId userId approve)
                        (respondToJoinRequest w2 gameId hostId userId approve).
Proof.
  intros Hgames. unfold agree_up_to_updatedAt, respondToJoinRequest, findById.
  rewrite Hgames. destruct (games w2 !! gameId) as [game |]; simpl;
    [| split; [reflexivity | congruence]].
  same_guards.
  all: split; [reflexivity |]; now apply timeless_update.
Qed.

Lemma GameModel_update_up_to_timestamps (w1 w2 : World) (id : string)
    (u : GameUpdate) :
  games w1 = games w2 ->
  option_map erase_updatedAt (fst (GameModel_update w1 id u))
  = option_map erase_updatedAt (fst (GameModel_update w2 id u))
  /\ fmap (M := gmap string) erase_updatedAt (games (snd (GameModel_update w1 id u)))
     = fmap (M := gmap string) erase_updatedAt
         (games (snd (GameModel_update w2 id u))).
Proof.
  intros Hgames. unfold GameModel_update.
  destruct (empty_set_clause (updateData u)); simpl.
  - unfold findById. rewrite Hgames. split; [reflexivity | congruence].
  - assert (Htable : fmap (M := gmap string) erase_updatedAt
                       (games (update w1 id (updateData u)))
                     = fmap (M := gmap string) erase_updatedAt
                         (games (update w2 id (updateData u))))
      by now apply timeless_update.
    split; [| exact Htable].
    unfold findById.
    apply (f_equal (fun m : gmap string Game => m !! id)) in Htable.
    rewrite !lookup_fmap in Htable.
    destruct (games (update w1 id (updateData u)) !! id),
             (games (update w2 id (updateData u)) !! id);
      simpl in *; congruence.
Qed.

Lemma put_game_up_to_timestamps (w1 w2 : World) (user : AuthUser) (id : string)
    (body : GameUpdate) :
  games w1 = games w2 ->
  responses_agree_up_to_updatedAt (put_game w1 user id body)
                                  (put_game w2 user id body).
Proof.
  intros Hgames. unfold responses_agree_up_to_updatedAt, put_game, findById.
  rewrite Hgames. destruct (games w2 !! id) as [game |]; simpl;
    [| repeat split; congruence].
  destruct (negb (g_hostId game =? au_id user)%string
            && negb (au_role user =? "admin")%string); simpl;
    [repeat split; congruence |].
  destruct (GameStatus_eqb (g_status game) in_progress
            || GameStatus_eqb (g_status game) completed); simpl;
    [repeat split; congruence |].
  destruct (GameModel_update_up_to_timestamps w1 w2 id body Hgames) as [Hrow Htable].
  destruct (GameModel_update w1 id body), (GameModel_update w2 id body).
  simpl in *. repeat split; assumption.
Qed.

Lemma delete_game_up_to_timestamps (w1 w2 : World) (user : AuthUser) (id : string) :
  games w1 = games w2 ->
  responses_agree_up_to_updatedAt (delete_game w1 user id) (delete_game w2 user id).
Proof.
  intros Hgames. unfold responses_agree_up_to_updatedAt, delete_game, findById.
  remember (set_status cancelled no_updates) as u eqn:Hu. clear Hu.
  rewrite Hgames. destruct (games w2 !! id) as [game |]; simpl;
    [| repeat split; congruence].
  destruct (negb (g_hostId game =? au_id user)%string
            && negb (au_role user =? "admin")%string); simpl;
    [repeat split; congruence |].
  destruct (GameStatus_eqb (g_status game) in_progress
            || GameStatus_eqb (g_status game) completed); simpl;
    [repeat split; congruence |].
  destruct (GameModel_update_up_to_timestamps w1 w2 id u Hgames) as [_ Htable].
  destruct (GameModel_update w1 id u), (GameModel_update w2 id u).
  simpl in *. repeat split; assumption.
Qed.

(** The same private game, joined by the same user at two different times,
    ends with two different lists of requests. *)
Lemma private_join_depends_on_clock :
  games fresh_private_world = games fresh_private_world_later
  /\ g_isPrivate fresh_private_game = true
  /\ option_map g_joinRequests
       (findById (snd (joinGame fresh_private_world "g4" "ana")) "g4")
     = Some [mkJoinRequest "ana" "2024-01-02T08:00:00.000Z" "pending"]
  /\ option_map g_joinRequests
       (findById (snd (joinGame fresh_private_world_later "g4" "ana")) "g4")
     = Some [mkJoinRequest "ana" "2024-01-02T09:00:00.000Z" "pending"]
  /\ games (snd (joinGame fresh_private_world "g4" "ana"))
     <> games (snd (joinGame fresh_private_world_later "g4" "ana")).
Proof.
  split; [reflexivity |]. split; [reflexivity |].
  split; [vm_compute; reflexivity |]. split; [vm_compute; reflexivity |].
  intros Heq.
  apply (f_equal (fun m : gmap string Game => option_map g_joinRequests (m !! "g4")))
    in Heq.
  vm_compute in Heq. discriminate Heq.
Qed.

(** C9, as the code has it.  Run on two stores that hold the same games, with
    the same arguments, each of join, leave, respond, update and cancel gives
    the same answer.  After leave, respond, update and cancel the two tables
    are equal but for [updatedAt], the requests with their [requestedAt]
    included.  After a join every row is equal in the two tables but for
    [updatedAt] and, when the join added a request, for the [requestedAt] of
    that one request: the lists of requests are then the stored list followed
    by the new request, stamped by the one clock and by the other.  When the
    two clocks read the same, the outcomes are equal. *)
Theorem operations_deterministic_up_to_timestamps (w1 w2 : World) :
  games w1 = games w2 ->
  forall (gameId hostId userId : string) (approve : bool) (user : AuthUser)
         (body : GameUpdate),
    (join_agrees_up_to_timestamps (games w1) userId (now w1) (now w2)
       (joinGame w1 gameId userId) (joinGame w2 gameId userId)
     /\ agree_up_to_updatedAt (leaveGame w1 gameId userId) (leaveGame w2 gameId userId)
     /\ agree_up_to_updatedAt
          (respondToJoinRequest w1 gameId hostId userId approve)
          (respondToJoinRequest w2 gameId hostId userId approve)
     /\ responses_agree_up_to_updatedAt (put_game w1 user gameId body)
                                        (put_game w2 user gameId body)
     /\ responses_agree_up_to_updatedAt (delete_game w1 user gameId)
                                        (delete_game w2 user gameId))
    /\ (now w1 = now w2 ->
        joinGame w1 gameId userId = joinGame w2 gameId userId
        /\ leaveGame w1 gameId userId = leaveGame w2 gameId userId
        /\ respondToJoinRequest w1 gameId hostId userId approve
           = respondToJoinRequest w2 gameId hostId userId approve
        /\ put_game w1 user gameId body = put_game w2 user gameId body
        /\ delete_game w1 user gameId = delete_game w2 user gameId).
Proof.
  intros Hgames gameId hostId userId approve user body. split.
  - split; [now apply joinGame_up_to_timestamps |].
    split; [now apply leaveGame_up_to_timestamps |].
    split; [now apply respondToJoinRequest_up_to_timestamps |].
    split; [now apply put_game_up_to_timestamps |].
    now apply delete_game_up_to_timestamps.
  - intros Hnow. destruct w1 as [t1 m1], w2 as [t2 m2]. simpl in *. subst.
    repeat split.
Qed.

Lemma operations_deterministic_up_to_timestamps_witness :
  join_agrees_up_to_timestamps (games fresh_private_world) "ana"
    "2024-01-02T08:00:00.000Z" "2024-01-02T09:00:00.000Z"
    (joinGame fresh_private_world "g4" "ana")
    (joinGame fresh_private_world_later "g4" "ana").
Proof.
  exact (proj1 (proj1 (operations_deterministic_up_to_timestamps
                         fresh_private_world fresh_private_world_later eq_refl
                         "g4" "host" "ana" true sample_host no_updates))).
Defined.

(** ** The order on time texts *)

Lemma ascii_compare_lt_trans (a b c : ascii) :
  Ascii.compare a b = Lt -> Ascii.compare b c = Lt -> Ascii.compare a c = Lt.
Proof.
  unfold Ascii.compare. rewrite !N.compare_lt_iff. apply N.lt_trans.
Qed.

Lemma string_compare_lt_trans (s1 s2 s3 : string) :
  String.compare s1 s2 = Lt -> String.compare s2 s3 = Lt -> String.compare s1 s3 = Lt.
Proof.
  revert s2 s3. induction s1 as [| a s1 IH]; intros [| b s2] [| c s3]; simpl;
    try discriminate; try reflexivity.
  destruct (Ascii.compare a b) eqn:Hab; try discriminate;
    destruct (Ascii.compare b c) eqn:Hbc; try discriminate; intros H12 H23.
  - apply Ascii.compare_eq_iff in Hab, Hbc. subst.
    replace (Ascii.compare c c) with Eq
      by (symmetry; unfold Ascii.compare; apply N.compare_refl).
    now apply (IH s2).
  - apply Ascii.compare_eq_iff in Hab. subst. now rewrite Hbc.
  - apply Ascii.compare_eq_iff in Hbc. subst. now rewrite Hab.
  - now rewrite (ascii_compare_lt_trans _ _ _ Hab Hbc).
Qed.

Lemma string_compare_refl (s : string) : String.compare s s = Eq.
Proof.
  induction s as [| a s IH]; simpl; [reflexivity |].
  replace (Ascii.compare a a) with Eq
    by (symmetry; unfold Ascii.compare; apply N.compare_refl).
  exact IH.
Qed.

Lemma time_lt_compare (a b : string) : time_lt a b = true <-> String.compare a b = Lt.
Proof.
  unfold time_lt, String.ltb. destruct (String.compare a b); split; congruence.
Qed.

Lemma time_le_compare (a b : string) : time_le a b = true <-> String.compare a b <> Gt.
Proof.
  unfold time_le, String.leb. destruct (String.compare a b); split; congruence.
Qed.

Lemma time_lt_trans (a b c : string) :
  time_lt a b = true -> time_lt b c = true -> time_lt a c = true.
Proof. rewrite !time_lt_compare. apply string_compare_lt_trans. Qed.

Lemma time_le_lt_trans (a b c : string) :
  time_le a b = true -> time_lt b c = true -> time_lt a c = true.
Proof.
  rewrite time_le_compare, !time_lt_compare. intros Hab Hbc.
  destruct (String.compare a b) eqn:Hc; [| | contradiction].
  - apply String.compare_eq_iff in Hc. now subst.
  - now apply (string_compare_lt_trans a b c).
Qed.

Lemma time_lt_le_trans (a b c : string) :
  time_lt a b = true -> time_le b c = true -> time_lt a c = true.
Proof.
  rewrite time_le_compare, !time_lt_compare. intros Hab Hbc.
  destruct (String.compare b c) eqn:Hc; [| | contradiction].
  - apply String.compare_eq_iff in Hc. now subst.
  - now apply (string_compare_lt_trans a b c).
Qed.

Lemma time_lt_le (a b : string) : time_lt a b = true -> time_le a b = true.
Proof. rewrite time_lt_compare, time_le_compare. congruence. Qed.

Lemma time_lt_irrefl (a : string) : time_lt a a = false.
Proof. unfold time_lt, String.ltb. now rewrite string_compare_refl. Qed.

Lemma time_le_false_lt (a b : string) : time_le a b = false -> time_lt b a = true.
Proof.
  unfold time_le, time_lt, String.leb, String.ltb.
  rewrite (String.compare_antisym a b).
  destruct (String.compare b a); simpl; congruence.
Qed.

Lemma time_lt_false_le (a b : string) : time_lt a b = false -> time_le b a = true.
Proof.
  unfold time_le, time_lt, String.leb, String.ltb.
  rewrite (String.compare_antisym a b).
  destruct (String.compare b a); simpl; congruence.
Qed.

(** Turns negative comparisons of time texts into positive ones and closes
    the goal when the comparisons in the context form a strict cycle. *)
Ltac time_positive :=
  repeat match goal with
         | H : time_le ?a ?b = false |- _ => apply time_le_false_lt in H
         | H : time_lt ?a ?b = false |- _ => apply time_lt_false_le in H
         end.

Ltac time_new_lt a c proof :=
  lazymatch goal with
  | _ : time_lt a c = true |- _ => fail
  | _ => pose proof proof
  end.

Ltac time_cycle :=
  time_positive;
  repeat match goal with
         | H1 : time_lt ?a ?b = true, H2 : time_lt ?b ?c = true |- _ =>
             time_new_lt a c (time_lt_trans a b c H1 H2)
         | H1 : time_le ?a ?b = true, H2 : time_lt ?b ?c = true |- _ =>
             time_new_lt a c (time_le_lt_trans a b c H1 H2)
         | H1 : time_lt ?a ?b = true, H2 : time_le ?b ?c = true |- _ =>
             time_new_lt a c (time_lt_le_trans a b c H1 H2)
         end;
  match goal with
  | H : time_lt ?a ?a = true |- _ => rewrite time_lt_irrefl in H; discriminate H
  end.

(** The three disjuncts of the [WHERE] clause of [Booking.ts] amount to the
    overlap test when both intervals are non-empty. *)
Lemma sqlite_clause_overlaps (a b c d : string) :
  time_lt a b = true -> time_lt c d = true ->
  (time_lt c b && time_gt d a) || (time_lt c a && time_gt d b)
  || (time_ge c a && time_lt c b)
  = overlaps a b c d.
Proof.
  intros Hab Hcd. unfold overlaps, time_gt, time_ge.
  destruct (time_lt a d) eqn:Had, (time_lt c b) eqn:Hcb,
           (time_lt c a) eqn:Hca, (time_lt b d) eqn:Hbd,
           (time_le a c) eqn:Hac;
    simpl; try reflexivity; exfalso; time_cycle.
Qed.

(** So do the three conjunctions of [findConflictingBookings]. *)
Lemma supabase_clause_overlaps (a b c d : string) :
  time_lt a b = true -> time_lt c d = true ->
  (time_le c a && time_gt d a) || (time_lt c b && time_ge d b)
  || (time_ge c a && time_le d b)
  = overlaps a b c d.
Proof.
  intros Hab Hcd. unfold overlaps, time_gt, time_ge.
  destruct (time_lt a d) eqn:Had, (time_lt c b) eqn:Hcb,
           (time_le c a) eqn:Hca, (time_le b d) eqn:Hbd,
           (time_le a c) eqn:Hac, (time_le d b) eqn:Hdb;
    simpl; try reflexivity; exfalso; time_cycle.
Qed.

(** *** Text order and chronological order *)

Lemma digit_value_spec (c : ascii) (v : Z) :
  digit_value c = Some v -> Z.of_N (N_of_ascii c) = 48 + v /\ 0 <= v <= 9.
Proof.
  unfold digit_value.
  destruct ((48 <=? Z.of_N (N_of_ascii c)) && (Z.of_N (N_of_ascii c) <=? 57)) eqn:H;
    [| discriminate].
  intros [= <-]. apply andb_prop in H. lia.
Qed.

Lemma ascii_compare_digits (c1 c2 : ascii) (v1 v2 : Z) :
  digit_value c1 = Some v1 -> digit_value c2 = Some v2 ->
  Ascii.compare c1 c2 = Z.compare v1 v2.
Proof.
  intros H1 H2.
  apply digit_value_spec in H1, H2. destruct H1 as [H1 _], H2 as [H2 _].
  unfold Ascii.compare. rewrite <- N2Z.inj_compare, H1, H2.
  apply Z.add_compare_mono_l.
Qed.

Lemma is_clock_time_digits (time : string) :
  is_clock_time time = true ->
  exists h1 h2 m1 m2 a b c d,
    time = String h1 (String h2 (String ":" (String m1 (String m2 EmptyString))))
    /\ digit_value h1 = Some a /\ digit_value h2 = Some b
    /\ digit_value m1 = Some c /\ digit_value m2 = Some d
    /\ 0 <= a <= 9 /\ 0 <= b <= 9 /\ 0 <= c <= 5 /\ 0 <= d <= 9.
Proof.
  destruct time as [| h1 time]; [discriminate |].
  destruct time as [| h2 time]; [discriminate |].
  destruct time as [| x time]; [discriminate |].
  destruct time as [| m1 time]; [now destruct x as [[] [] [] [] [] [] [] []] |].
  destruct time as [| m2 time]; [now destruct x as [[] [] [] [] [] [] [] []] |].
  destruct time as [| y time]; [| now destruct x as [[] [] [] [] [] [] [] []]].
  unfold is_clock_time, is_digit.
  destruct x as [[] [] [] [] [] [] [] []]; try discriminate.
  destruct (digit_value h1) as [a |] eqn:Ha; [| discriminate].
  destruct (digit_value h2) as [b |] eqn:Hb; [| discriminate].
  destruct (digit_value m2) as [d |] eqn:Hd; [| discriminate].
  destruct (digit_value m1) as [c |] eqn:Hc; [| discriminate].
  simpl. intros Hfive.
  exists h1, h2, m1, m2, a, b, c, d.
  pose proof (digit_value_spec _ _ Ha). pose proof (digit_value_spec _ _ Hb).
  pose proof (digit_value_spec _ _ Hc). pose proof (digit_value_spec _ _ Hd).
  repeat split; try assumption; lia.
Qed.

(** On times of day, the order of the texts is the order of the minutes that
    [timeToMinutes] computes. *)
Lemma clock_time_order (t1 t2 : string) :
  is_clock_time t1 = true -> is_clock_time t2 = true ->
  exists n1 n2,
    timeToMinutes t1 = Some n1 /\ timeToMinutes t2 = Some n2
    /\ time_lt t1 t2 = (n1 <? n2) /\ time_le t1 t2 = (n1 <=? n2).
Proof.
  intros H1 H2.
  destruct (is_clock_time_digits _ H1)
    as (h1 & h2 & m1 & m2 & a & b & c & d & -> & Ha & Hb & Hc & Hd & ? & ? & ? & ?).
  destruct (is_clock_time_digits _ H2)
    as (h1' & h2' & m1' & m2' & a' & b' & c' & d' & -> & Ha' & Hb' & Hc' & Hd'
        & ? & ? & ? & ?).
  unfold timeToMinutes. rewrite Ha, Hb, Hc, Hd, Ha', Hb', Hc', Hd'.
  eexists. eexists. split; [reflexivity |]. split; [reflexivity |].
  unfold time_lt, time_le, String.ltb, String.leb. simpl String.compare.
  rewrite (ascii_compare_digits _ _ _ _ Ha Ha'), (ascii_compare_digits _ _ _ _ Hb Hb'),
    (ascii_compare_digits _ _ _ _ Hc Hc'), (ascii_compare_digits _ _ _ _ Hd Hd').
  change (Ascii.compare ":" ":") with Eq.
  destruct (Z.compare_spec a a'), (Z.compare_spec b b'),
           (Z.compare_spec c c'), (Z.compare_spec d d');
    split; symmetry;
    first [apply Z.ltb_lt | apply Z.ltb_ge | apply Z.leb_le | apply Z.leb_gt]; lia.
Qed.

(** ** Availability *)

Lemma count_zero_iff {A} (f : A -> bool) (l : list A) :
  (len (List.filter f l) =? 0) = true <-> forall x, In x l -> f x = false.
Proof.
  unfold len. rewrite Z.eqb_eq. induction l as [| y l IH]; simpl.
  - split; [intros _ x [] | reflexivity].
  - destruct (f y) eqn:Hy; simpl.
    + split; [lia |]. intros H. specialize (H y (or_introl eq_refl)). congruence.
    + rewrite IH. split.
      * intros H x [<- | Hx]; [assumption | now apply H].
      * intros H x Hx. apply H. now right.
Qed.

Lemma not_excluded_iff (excludeBookingId : option string) (b : Booking) :
  excludeBookingId <> Some "" ->
  not_excluded excludeBookingId b = true <-> excludeBookingId <> Some (b_id b).
Proof.
  intros Hgiven. unfold not_excluded, truthy_string.
  destruct excludeBookingId as [x |]; [| split; [discriminate | reflexivity]].
  destruct (String.eqb_spec x "") as [-> | Hne]; [contradiction |].
  rewrite negb_true_iff. destruct (String.eqb_spec (b_id b) x) as [-> | Hid].
  - split; [discriminate | intros H; now contradiction H].
  - split; [| reflexivity]. intros _ Heq. injection Heq as ->. now apply Hid.
Qed.

(** C4.  For a request with [startTime < endTime], on a table whose pending and
    confirmed bookings of that turf and date all have [start_time < end_time],
    [checkAvailability] of [Booking.ts] answers [true] exactly when no pending
    or confirmed booking of that turf and date, other than the excluded one,
    satisfies [startTime < d] and [c < endTime]; [checkAvailability] of
    [BookingSupabase.ts], which excludes nothing, does the same.  In
    particular, if each of these bookings ends when the request starts or
    starts when the request ends, both answer [true]. *)
Theorem checkAvailability_iff_no_overlap (rows : list Booking)
    (turfId date startTime endTime : string) (excludeBookingId : option string) :
  time_lt startTime endTime = true ->
  (forall b, In b rows -> competes turfId date None b ->
             time_lt (b_startTime b) (b_endTime b) = true) ->
  excludeBookingId <> Some "" ->
  (checkAvailability rows turfId date startTime endTime excludeBookingId = true
   <-> no_overlapping_booking rows turfId date startTime endTime excludeBookingId)
  /\ (checkAvailability_supabase rows turfId date startTime endTime = true
      <-> no_overlapping_booking rows turfId date startTime endTime None)
  /\ ((forall b, In b rows -> competes turfId date None b ->
                  b_endTime b = startTime \/ b_startTime b = endTime) ->
      checkAvailability rows turfId date startTime endTime excludeBookingId = true
      /\ checkAvailability_supabase rows turfId date startTime endTime = true).
Proof.
  intros Hrequest Hrows Hgiven.
  assert (Hday : forall b, In b rows -> b_turfId b = turfId -> b_date b = date ->
                           is_active b = true ->
                           time_lt (b_startTime b) (b_endTime b) = true).
  { intros b Hb Hturf Hdate Hactive. apply (Hrows b Hb).
    repeat split; try assumption. discriminate. }
  assert (Hsqlite :
            checkAvailability rows turfId date startTime endTime excludeBookingId = true
            <-> no_overlapping_booking rows turfId date startTime endTime
                  excludeBookingId).
  { unfold checkAvailability, no_overlapping_booking. rewrite count_zero_iff.
    split; intros H b Hb.
    - intros (Hturf & Hdate & Hactive & Hother).
      specialize (H b Hb). unfold sqlite_conflict in H.
      rewrite (sqlite_clause_overlaps _ _ _ _ Hrequest
                 (Hday b Hb Hturf Hdate Hactive)) in H.
      apply (not_excluded_iff _ _ Hgiven) in Hother.
      apply String.eqb_eq in Hturf, Hdate.
      rewrite Hturf, Hdate, Hactive, Hother in H. simpl in H.
      now rewrite andb_true_r in H.
    - unfold sqlite_conflict.
      destruct (String.eqb_spec (b_turfId b) turfId) as [Hturf | ?]; [| reflexivity].
      destruct (String.eqb_spec (b_date b) date) as [Hdate | ?]; [| reflexivity].
      destruct (is_active b) eqn:Hactive; [| reflexivity].
      rewrite (sqlite_clause_overlaps _ _ _ _ Hrequest
                 (Hday b Hb Hturf Hdate Hactive)).
      destruct (not_excluded excludeBookingId b) eqn:Hother;
        [| now rewrite andb_false_r].
      apply (not_excluded_iff _ _ Hgiven) in Hother.
      rewrite (H b Hb); [reflexivity | now repeat split]. }
  assert (Hsupabase :
            checkAvailability_supabase rows turfId date startTime endTime = true
            <-> no_overlapping_booking rows turfId date startTime endTime None).
  { unfold checkAvailability_supabase, findConflictingBookings,
      no_overlapping_booking.
    rewrite count_zero_iff. split; intros H b Hb.
    - intros (Hturf & Hdate & Hactive & _).
      specialize (H b Hb). simpl in H.
      rewrite (supabase_clause_overlaps _ _ _ _ Hrequest
                 (Hday b Hb Hturf Hdate Hactive)) in H.
      apply String.eqb_eq in Hturf, Hdate.
      now rewrite Hturf, Hdate, Hactive in H.
    - simpl.
      destruct (String.eqb_spec (b_turfId b) turfId) as [Hturf | ?]; [| reflexivity].
      destruct (String.eqb_spec (b_date b) date) as [Hdate | ?]; [| reflexivity].
      destruct (is_active b) eqn:Hactive; [| reflexivity].
      rewrite (supabase_clause_overlaps _ _ _ _ Hrequest
                 (Hday b Hb Hturf Hdate Hactive)).
      rewrite (H b Hb); [reflexivity | now repeat split]. }
  split; [exact Hsqlite |]. split; [exact Hsupabase |].
  intros Hadjacent.
  assert (Hnone : forall b, In b rows -> competes turfId date None b ->
                            overlaps startTime endTime (b_startTime b) (b_endTime b)
                            = false).
  { intros b Hb Hcompetes. unfold overlaps.
    destruct (Hadjacent b Hb Hcompetes) as [-> | ->].
    - now rewrite time_lt_irrefl.
    - now rewrite time_lt_irrefl, andb_false_r. }
  split.
  - apply Hsqlite. intros b Hb (Hturf & Hdate & Hactive & _).
    apply (Hnone b Hb). repeat split; try assumption. discriminate.
  - apply Hsupabase. exact Hnone.
Qed.

(** Scenario C, and a booking that ends when the request starts or starts when
    the request ends. *)
Example scenario_C :
  checkAvailability afternoon_rows "turf1" "2024-01-06" "13:30" "14:30" None = false
  /\ checkAvailability afternoon_rows "turf1" "2024-01-06" "15:00" "16:00" None = true
  /\ checkAvailability afternoon_rows "turf1" "2024-01-06" "13:00" "14:00" None = true
  /\ checkAvailability_supabase afternoon_rows "turf1" "2024-01-06" "13:30" "14:30" = false
  /\ checkAvailability_supabase afternoon_rows "turf1" "2024-01-06" "15:00" "16:00" = true
  /\ checkAvailability_supabase afternoon_rows "turf1" "2024-01-06" "13:00" "14:00" = true.
Proof. repeat split; reflexivity. Qed.

Lemma checkAvailability_iff_no_overlap_witness :
  checkAvailability afternoon_rows "turf1" "2024-01-06" "15:00" "16:00" None = true
  /\ checkAvailability_supabase afternoon_rows "turf1" "2024-01-06" "15:00" "16:00"
     = true.
Proof.
  apply (checkAvailability_iff_no_overlap afternoon_rows "turf1" "2024-01-06"
           "15:00" "16:00" None).
  - reflexivity.
  - intros b [<- | []] _. reflexivity.
  - discriminate.
  - intros b [<- | []] _. left. reflexivity.
Defined.

(** Outside these hypotheses the two sides part: an inverted request, or a
    stored booking whose end precedes its start, is reported as a conflict by
    [Booking.ts] although the overlap test finds none. *)
Example checkAvailability_inverted_intervals :
  checkAvailability [sample_booking "b3" "14:20" "14:40" bk_confirmed]
    "turf1" "2024-01-06" "15:00" "14:00" None = false
  /\ overlaps "15:00" "14:00" "14:20" "14:40" = false
  /\ checkAvailability [sample_booking "b4" "10:00" "09:00" bk_confirmed]
       "turf1" "2024-01-06" "09:30" "10:30" None = false
  /\ overlaps "09:30" "10:30" "10:00" "09:00" = false.
Proof. repeat split; reflexivity. Qed.

(** ** Free slots *)

(** C5.  With one confirmed booking from 06:30 to 07:30, [getAvailableSlots]
    of [Booking.ts] still offers the slot from 06:00 to 07:00: it only asks
    whether the start of a slot lies inside a booking.  That slot overlaps the
    booking, [checkAvailability] of the same class refuses it, and
    [getAvailableSlots] of [BookingSupabase.ts] does not offer it. *)
Theorem getAvailableSlots_offers_overlapping_slot :
  (exists slots,
      getAvailableSlots early_rows "turf1" "2024-01-06" = Some slots
      /\ In "06:00 - 07:00" slots)
  /\ overlaps "06:00" "07:00" "06:30" "07:30" = true
  /\ checkAvailability early_rows "turf1" "2024-01-06" "06:00" "07:00" None = false
  /\ ~ In (mkSlot "06:00" "07:00")
         (getAvailableSlots_supabase early_rows "turf1" "2024-01-06").
Proof.
  split; [| split; [| split]].
  - eexists. split; [vm_compute; reflexivity |]. now left.
  - reflexivity.
  - reflexivity.
  - vm_compute. intros H.
    repeat (destruct H as [H | H]; [discriminate H |]). exact H.
Qed.

(** *** What the two [getAvailableSlots] do guarantee *)

Lemma In_insert_by_start (b x : Booking) (l : list Booking) :
  In x (insert_by_start b l) <-> x = b \/ In x l.
Proof.
  induction l as [| y l IH]; simpl.
  - intuition.
  - destruct (time_le (b_startTime b) (b_startTime y)); simpl; [intuition |].
    rewrite IH. intuition.
Qed.

Lemma In_order_by_start_time (x : Booking) (l : list Booking) :
  In x (order_by_start_time l) <-> In x l.
Proof.
  unfold order_by_start_time. induction l as [| y l IH]; simpl; [reflexivity |].
  rewrite In_insert_by_start, IH. intuition.
Qed.

Lemma In_bookings_of_day (b : Booking) (rows : list Booking) (turfId date : string) :
  In b (bookings_of_day rows turfId date)
  <-> In b rows /\ b_turfId b = turfId /\ b_date b = date /\ is_active b = true.
Proof.
  unfold bookings_of_day. rewrite In_order_by_start_time, filter_In.
  rewrite !andb_true_iff, !String.eqb_eq. intuition.
Qed.

Lemma filter_nil_iff {A} (f : A -> bool) (l : list A) :
  List.filter f l = [] <-> forall x, In x l -> f x = false.
Proof.
  induction l as [| y l IH]; simpl.
  - split; [intros _ x [] | reflexivity].
  - destruct (f y) eqn:Hy.
    + split; [discriminate |]. intros H.
      specialize (H y (or_introl eq_refl)). congruence.
    + rewrite IH. split.
      * intros H x [<- | Hx]; [assumption | now apply H].
      * intros H x Hx. apply H. now right.
Qed.

Lemma time_le_refl (a : string) : time_le a a = true.
Proof. apply time_le_compare. now rewrite string_compare_refl. Qed.

(** The three disjuncts of [isBooked] amount to the overlap test when the slot
    and the booking are non-empty. *)
Lemma isBooked_clause_overlaps (s e c d : string) :
  time_lt s e = true -> time_lt c d = true ->
  (time_ge s c && time_lt s d) || (time_gt e c && time_le e d)
  || (time_le s c && time_ge e d)
  = overlaps s e c d.
Proof.
  intros Hse Hcd. unfold overlaps, time_gt, time_ge.
  destruct (time_lt s d) eqn:Hsd, (time_lt c e) eqn:Hce,
           (time_le c s) eqn:Hcs, (time_le e d) eqn:Hed,
           (time_le s c) eqn:Hsc, (time_le d e) eqn:Hde;
    simpl; try reflexivity; exfalso; time_cycle.
Qed.

(** The slots of [BookingSupabase.ts] are the seventeen hours from 06:00 to
    23:00, each of them non-empty. *)
Lemma hour_slots_window :
  List.map hour_slot (seqZ 6 17)
  = [mkSlot "06:00" "07:00"; mkSlot "07:00" "08:00"; mkSlot "08:00" "09:00";
     mkSlot "09:00" "10:00"; mkSlot "10:00" "11:00"; mkSlot "11:00" "12:00";
     mkSlot "12:00" "13:00"; mkSlot "13:00" "14:00"; mkSlot "14:00" "15:00";
     mkSlot "15:00" "16:00"; mkSlot "16:00" "17:00"; mkSlot "17:00" "18:00";
     mkSlot "18:00" "19:00"; mkSlot "19:00" "20:00"; mkSlot "20:00" "21:00";
     mkSlot "21:00" "22:00"; mkSlot "22:00" "23:00"].
Proof. vm_compute. reflexivity. Qed.

Lemma hour_slots_nonempty (s : Slot) :
  In s (List.map hour_slot (seqZ 6 17)) ->
  time_lt (slot_startTime s) (slot_endTime s) = true.
Proof.
  rewrite hour_slots_window. simpl.
  intros H. repeat (destruct H as [<- | H]; [reflexivity |]). destruct H.
Qed.

(** X24.  When every stored booking starts before it ends, start and end
    compared as texts and an empty booking excluded, [getAvailableSlots] of
    [BookingSupabase.ts] returns exactly the hour slots from 06:00 to 23:00
    that overlap, in the order of the texts, no pending or confirmed booking
    of the turf and date. *)
Lemma getAvailableSlots_supabase_exact (rows : list Booking) (turfId date : string)
    (s : Slot) :
  (forall b, In b rows -> time_lt (b_startTime b) (b_endTime b) = true) ->
  In s (getAvailableSlots_supabase rows turfId date)
  <-> In s (List.map hour_slot (seqZ 6 17))
      /\ forall b, In b rows -> competes turfId date None b ->
                   overlaps (slot_startTime s) (slot_endTime s)
                     (b_startTime b) (b_endTime b) = false.
Proof.
  intros Hrows. unfold getAvailableSlots_supabase. rewrite filter_In.
  split; intros [Hslot Hfree]; (split; [exact Hslot |]).
  - intros b Hb (Hturf & Hdate & Hactive & _).
    apply negb_true_iff in Hfree. unfold isBooked in Hfree.
    rewrite <- (isBooked_clause_overlaps _ _ _ _ (hour_slots_nonempty s Hslot)
                  (Hrows b Hb)).
    destruct (_ || _ || _) eqn:Hclause; [| reflexivity].
    assert (Hex : existsb
              (fun booked =>
                 (time_ge (slot_startTime s) (b_startTime booked)
                  && time_lt (slot_startTime s) (b_endTime booked))
                 || (time_gt (slot_endTime s) (b_startTime booked)
                     && time_le (slot_endTime s) (b_endTime booked))
                 || (time_le (slot_startTime s) (b_startTime booked)
                     && time_ge (slot_endTime s) (b_endTime booked)))
              (bookings_of_day rows turfId date) = true).
    { apply existsb_exists. exists b. split; [| exact Hclause].
      apply In_bookings_of_day. now repeat split. }
    congruence.
  - apply negb_true_iff. unfold isBooked.
    destruct (existsb _ _) eqn:Hex; [| reflexivity].
    apply existsb_exists in Hex. destruct Hex as (b & Hb & Hclause).
    apply In_bookings_of_day in Hb. destruct Hb as (Hb & Hturf & Hdate & Hactive).
    rewrite (isBooked_clause_overlaps _ _ _ _ (hour_slots_nonempty s Hslot)
               (Hrows b Hb)) in Hclause.
    rewrite (Hfree b Hb) in Hclause; [discriminate |].
    repeat split; try assumption. discriminate.
Qed.

(** X25.  Once every slot that [getAvailableSlots] of [BookingSupabase.ts]
    returned has been booked, the next call returns no slot. *)
Lemma getAvailableSlots_supabase_round_trip (rows added : list Booking)
    (turfId date : string) :
  (forall s, In s (getAvailableSlots_supabase rows turfId date) ->
             exists b, In b added
                       /\ b_turfId b = turfId /\ b_date b = date /\ is_active b = true
                       /\ b_startTime b = slot_startTime s
                       /\ b_endTime b = slot_endTime s) ->
  getAvailableSlots_supabase (rows ++ added) turfId date = [].
Proof.
  intros Hbooked. unfold getAvailableSlots_supabase. apply filter_nil_iff.
  intros s Hslot. apply negb_false_iff. unfold isBooked. apply existsb_exists.
  destruct (isBooked (bookings_of_day rows turfId date)
              (slot_startTime s) (slot_endTime s)) eqn:Hbefore.
  - unfold isBooked in Hbefore. apply existsb_exists in Hbefore.
    destruct Hbefore as (b & Hb & Hclause). exists b. split; [| exact Hclause].
    apply In_bookings_of_day in Hb. apply In_bookings_of_day.
    rewrite in_app_iff. intuition.
  - assert (Hreturned : In s (getAvailableSlots_supabase rows turfId date)).
    { unfold getAvailableSlots_supabase. apply filter_In.
      split; [exact Hslot | now rewrite Hbefore]. }
    destruct (Hbooked s Hreturned)
      as (b & Hb & Hturf & Hdate & Hactive & Hstart & Hend).
    exists b. split.
    + apply In_bookings_of_day. rewrite in_app_iff. intuition.
    + rewrite Hstart, Hend. unfold time_ge.
      now rewrite time_le_refl, (hour_slots_nonempty s Hslot).
Qed.

(** X26.  Once every slot that [getAvailableSlots] of [Booking.ts] returned
    has been booked, by a pending or confirmed booking of the turf and date
    that starts at the slot's start and is non-empty, the next call returns no
    slot. *)
Lemma getAvailableSlots_round_trip (rows added : list Booking)
    (turfId date : string) (slots : list string) :
  getAvailableSlots rows turfId date = Some slots ->
  (forall slot, In slot slots ->
                exists b, In b added
                          /\ b_turfId b = turfId /\ b_date b = date
                          /\ is_active b = true
                          /\ b_startTime b = first_field " - " slot
                          /\ time_lt (b_startTime b) (b_endTime b) = true) ->
  getAvailableSlots (rows ++ added) turfId date = Some [].
Proof.
  unfold getAvailableSlots.
  destruct (generateTimeSlots "06:00" "23:00" 60) as [allSlots |]; [| discriminate].
  intros [= <-] Hbooked. f_equal. apply filter_nil_iff.
  intros slot Hslot. apply negb_false_iff. apply existsb_exists.
  destruct (existsb
              (fun booking =>
                 time_ge (first_field " - " slot) (b_startTime booking)
                 && time_lt (first_field " - " slot) (b_endTime booking))
              (bookings_of_day rows turfId date)) eqn:Hbefore.
  - apply existsb_exists in Hbefore.
    destruct Hbefore as (b & Hb & Hclause). exists b. split; [| exact Hclause].
    apply In_bookings_of_day in Hb. apply In_bookings_of_day.
    rewrite in_app_iff. intuition.
  - assert (Hreturned :
              In slot
                (List.filter
                   (fun slot =>
                      negb (existsb
                              (fun booking =>
                                 time_ge (first_field " - " slot) (b_startTime booking)
                                 && time_lt (first_field " - " slot) (b_endTime booking))
                              (bookings_of_day rows turfId date)))
                   allSlots)).
    { apply filter_In. split; [exact Hslot | now rewrite Hbefore]. }
    destruct (Hbooked slot Hreturned)
      as (b & Hb & Hturf & Hdate & Hactive & Hstart & Hnonempty).
    exists b. split.
    + apply In_bookings_of_day. rewrite in_app_iff. intuition.
    + rewrite <- Hstart. unfold time_ge. now rewrite time_le_refl, Hnonempty.
Qed.

(** The slots of [Booking.ts] are the same seventeen hours, and the loop that
    generates them ends. *)
Lemma generateTimeSlots_window :
  generateTimeSlots "06:00" "23:00" 60
  = Some ["06:00 - 07:00"; "07:00 - 08:00"; "08:00 - 09:00"; "09:00 - 10:00";
          "10:00 - 11:00"; "11:00 - 12:00"; "12:00 - 13:00"; "13:00 - 14:00";
          "14:00 - 15:00"; "15:00 - 16:00"; "16:00 - 17:00"; "17:00 - 18:00";
          "18:00 - 19:00"; "19:00 - 20:00"; "20:00 - 21:00"; "21:00 - 22:00";
          "22:00 - 23:00"].
Proof. vm_compute. reflexivity. Qed.

(** [getAvailableSlots] of [Booking.ts] returns on every table. *)
Lemma getAvailableSlots_returns (rows : list Booking) (turfId date : string) :
  exists slots, getAvailableSlots rows turfId date = Some slots.
Proof.
  unfold getAvailableSlots. rewrite generateTimeSlots_window. eexists. reflexivity.
Qed.

(** ** The price of a booking *)

(** A request from 11:00 to 09:00 at 800 an hour is booked for -1600, and a
    request from 09:00 to 09:00 for 0. *)
Lemma post_booking_accepts_inverted_interval :
  bookingCreateSchema inverted_request = true
  /\ (exists booking,
         post_booking sample_calendar sample_turfs [] "b9" "2024-01-02T08:00:00.000Z"
           sample_user inverted_request
         = (mkBookingResponse 201 true "Booking created successfully" (Some booking),
            [booking])
         /\ b_startTime booking = "11:00" /\ b_endTime booking = "09:00"
         /\ b_totalAmount booking = (-1600)%float)
  /\ (exists booking,
         post_booking sample_calendar sample_turfs [] "b9" "2024-01-02T08:00:00.000Z"
           sample_user empty_request
         = (mkBookingResponse 201 true "Booking created successfully" (Some booking),
            [booking])
         /\ b_totalAmount booking = 0%float).
Proof.
  split; [reflexivity |]. split.
  - eexists. split; [vm_compute; reflexivity |]. repeat split; reflexivity.
  - eexists. split; [vm_compute; reflexivity |]. reflexivity.
Qed.

Lemma hourlyRate_by_specification (getDay : string -> option Z) (turf : Turf)
    (date : string) :
  hourlyRate getDay turf date = rate_by_specification (getDay date) turf.
Proof.
  unfold hourlyRate, isWeekend, rate_by_specification, truthy_rate, falls_on_weekend.
  destruct (getDay date) as [day |]; [| now destruct (t_pricePerHourWeekend turf)].
  destruct (t_pricePerHourWeekend turf) as [weekendRate |].
  - destruct (PrimFloat.is_zero weekendRate || PrimFloat.is_nan weekendRate);
      destruct day as [| [p | p |] | p]; simpl; try reflexivity;
      try (destruct p as [[p | p |] | [p | p |] |]; reflexivity).
  - destruct day as [| [p | p |] | p]; simpl; try reflexivity;
      try (destruct p as [[p | p |] | [p | p |] |]; reflexivity).
Qed.

Lemma matches_time_pattern_minutes (time : string) :
  matches_time_pattern time = true -> exists m, timeToMinutes time = Some m.
Proof.
  destruct time as [| h1 time]; [discriminate |].
  destruct time as [| h2 time]; [discriminate |].
  destruct time as [| c time]; [discriminate |].
  destruct time as [| m1 time]; [now destruct c as [[] [] [] [] [] [] [] []] |].
  destruct time as [| m2 time]; [now destruct c as [[] [] [] [] [] [] [] []] |].
  destruct time as [| x time]; [| now destruct c as [[] [] [] [] [] [] [] []]].
  unfold matches_time_pattern, timeToMinutes, is_digit.
  destruct c as [[] [] [] [] [] [] [] []]; try discriminate.
  destruct (digit_value h1), (digit_value h2), (digit_value m1), (digit_value m2);
    try discriminate.
  intros _. eexists. reflexivity.
Qed.

(** C6, as the code has it.  For a request that the schema accepts, on an
    active turf, for a free interval, the handler creates the booking, whether
    or not the end comes after the start, and its total amount is
    [(endMinutes - startMinutes) / 60] times the weekend rate when the day of
    the date is Saturday or Sunday and a weekend rate is set, else times the
    hourly rate. *)
Theorem post_booking_total_amount (getDay : string -> option Z)
    (turfs : gmap string Turf) (rows : list Booking) (newId t : string)
    (user : AuthUser) (body : BookingBody) (turf : Turf) :
  bookingCreateSchema body = true ->
  turfs !! body_turfId body = Some turf ->
  t_isActive turf = true ->
  checkAvailability rows (body_turfId body) (body_date body)
    (body_startTime body) (body_endTime body) None = true ->
  exists booking startMinutes endMinutes,
    post_booking getDay turfs rows newId t user body
    = (mkBookingResponse 201 true "Booking created successfully" (Some booking),
       (rows ++ [booking])%list)
    /\ timeToMinutes (body_startTime body) = Some startMinutes
    /\ timeToMinutes (body_endTime body) = Some endMinutes
    /\ b_totalAmount booking
       = ((float_of_Z endMinutes - float_of_Z startMinutes) / 60
          * rate_by_specification (getDay (body_date body)) turf)%float.
Proof.
  intros Hschema Hturf Hactive Hfree.
  assert (Hstart : matches_time_pattern (body_startTime body) = true).
  { unfold bookingCreateSchema in Hschema.
    repeat (apply andb_prop in Hschema; destruct Hschema as [Hschema ?]).
    assumption. }
  assert (Hend : matches_time_pattern (body_endTime body) = true).
  { unfold bookingCreateSchema in Hschema.
    repeat (apply andb_prop in Hschema; destruct Hschema as [Hschema ?]).
    assumption. }
  destruct (matches_time_pattern_minutes _ Hstart) as [startMinutes HstartMinutes].
  destruct (matches_time_pattern_minutes _ Hend) as [endMinutes HendMinutes].
  eexists. exists startMinutes, endMinutes.
  split; [| split; [exact HstartMinutes | split; [exact HendMinutes |]]].
  - unfold post_booking. rewrite Hschema, Hturf, Hactive, Hfree. simpl. reflexivity.
  - simpl. unfold totalAmount, minutes_number.
    rewrite HstartMinutes, HendMinutes, hourlyRate_by_specification. reflexivity.
Qed.

(** Scenario D: 09:00 to 11:00 at 800 an hour, 1000 at weekends, on a Sunday. *)
Lemma post_booking_total_amount_witness :
  exists booking,
    post_booking sample_calendar sample_turfs [] "b9" "2024-01-02T08:00:00.000Z"
      sample_user sunday_morning
    = (mkBookingResponse 201 true "Booking created successfully" (Some booking),
       [booking])
    /\ b_totalAmount booking = 2000%float.
Proof.
  destruct (post_booking_total_amount sample_calendar sample_turfs [] "b9"
              "2024-01-02T08:00:00.000Z" sample_user sunday_morning sample_turf
              eq_refl eq_refl eq_refl eq_refl)
    as (booking & startMinutes & endMinutes & Hpost & Hstart & Hend & Hamount).
  exists booking. split; [exact Hpost |].
  vm_compute in Hstart, Hend. injection Hstart as <-. injection Hend as <-.
  rewrite Hamount. vm_compute. reflexivity.
Defined.

Example scenario_D :
  totalAmount sample_calendar sample_turf "2024-01-07" "09:00" "11:00" = 2000%float
  /\ totalAmount sample_calendar sample_turf "2024-01-08" "09:00" "11:00" = 1600%float.
Proof. split; vm_compute; reflexivity. Qed.

(** * Further properties of the game model *)

(** ** Membership lists *)

Lemma not_includes (l : list string) (x : string) : includes l x = false -> ~ In x l.
Proof. intros H Hin. apply includes_In in Hin. congruence. Qed.

Lemma not_has_request (l : list JoinRequest) (x : string) :
  has_request l x = false -> ~ In x (List.map jr_userId l).
Proof. intros H Hin. apply has_request_In in Hin. congruence. Qed.

Lemma requesters_without_request (l : list JoinRequest) (x : string) :
  List.map jr_userId (without_request l x)
  = List.filter (fun id => negb (id =? x)%string) (List.map jr_userId l).
Proof.
  unfold without_request. induction l as [| r l IH]; simpl; [reflexivity |].
  destruct (negb (jr_userId r =? x)%string); simpl; now rewrite IH.
Qed.

Lemma splice_first_split (l l' : list JoinRequest) (x : string) :
  splice_first l x = Some l' ->
  exists pre r post,
    l = (pre ++ r :: post)%list /\ jr_userId r = x /\ l' = (pre ++ post)%list.
Proof.
  revert l'. induction l as [| r l IH]; simpl; intros l'; [discriminate |].
  destruct (String.eqb_spec (jr_userId r) x) as [Heq | Hne].
  - intros [= <-]. now exists [], r, l.
  - destruct (splice_first l x) as [rest |]; [| discriminate].
    intros [= <-]. destruct (IH rest eq_refl) as (pre & r' & post & -> & Hr & ->).
    now exists (r :: pre), r', post.
Qed.

Lemma splice_first_none (l : list JoinRequest) (x : string) :
  splice_first l x = None <-> ~ In x (List.map jr_userId l).
Proof.
  induction l as [| r l IH]; simpl; [intuition |].
  destruct (String.eqb_spec (jr_userId r) x) as [Heq | Hne].
  - split; [discriminate | intros H; exfalso; apply H; now left].
  - destruct (splice_first l x); split; intros H; try discriminate.
    + exfalso. apply H. right. destruct IH as [_ IH].
      destruct (List.in_dec string_dec x (List.map jr_userId l)) as [Hin | Hout];
        [exact Hin | specialize (IH Hout); discriminate].
    + intros [Heq | Hin]; [contradiction | now apply IH].
    + reflexivity.
Qed.

Lemma ListNoDup_app_iff {A} (l k : list A) :
  List.NoDup (l ++ k)
  <-> List.NoDup l /\ List.NoDup k /\ forall a, In a l -> ~ In a k.
Proof.
  split.
  - intros H. split; [exact (List.NoDup_app_remove_r _ _ H) |].
    split; [exact (List.NoDup_app_remove_l _ _ H) |].
    induction l as [| x l IH]; simpl; [intros a [] |].
    simpl in H. apply List.NoDup_cons_iff in H. destruct H as [Hx H].
    intros a [<- | Ha].
    + intros Hk. apply Hx. apply in_or_app. now right.
    + now apply IH.
  - intros (Hl & Hk & Hdisjoint). now apply List.NoDup_app.
Qed.

Lemma ListNoDup_snoc {A} (l : list A) (x : A) :
  List.NoDup (l ++ [x]) <-> List.NoDup l /\ ~ In x l.
Proof.
  rewrite ListNoDup_app_iff. split.
  - intros (Hl & _ & Hdisjoint). split; [exact Hl |].
    intros Hx. apply (Hdisjoint x Hx). now left.
  - intros [Hl Hx]. split; [exact Hl |]. split.
    + constructor; [intros [] | constructor].
    + intros a Ha [<- | []]. contradiction.
Qed.

Lemma members_distinct_add_player (c : list string) (r : list string) (u : string) :
  List.NoDup (c ++ r) -> ~ In u c -> ~ In u r -> List.NoDup ((c ++ [u]) ++ r).
Proof.
  intros H Huc Hur. apply ListNoDup_app_iff in H. destruct H as (Hc & Hr & Hdisjoint).
  apply ListNoDup_app_iff. split; [now apply ListNoDup_snoc |]. split; [exact Hr |].
  intros a Ha. apply in_app_or in Ha. destruct Ha as [Ha | [<- | []]];
    [now apply Hdisjoint | assumption].
Qed.

Lemma members_distinct_add_request (c : list string) (r : list string) (u : string) :
  List.NoDup (c ++ r) -> ~ In u c -> ~ In u r -> List.NoDup (c ++ r ++ [u]).
Proof.
  intros H Huc Hur. apply ListNoDup_app_iff in H. destruct H as (Hc & Hr & Hdisjoint).
  apply ListNoDup_app_iff. split; [exact Hc |]. split; [now apply ListNoDup_snoc |].
  intros a Ha Hin. apply in_app_or in Hin. destruct Hin as [Hin | [<- | []]];
    [now apply (Hdisjoint a) | contradiction].
Qed.

Lemma members_distinct_filter (c : list string) (r : list string) (f g : string -> bool) :
  List.NoDup (c ++ r) -> List.NoDup (List.filter f c ++ List.filter g r).
Proof.
  rewrite !ListNoDup_app_iff. intros (Hc & Hr & Hdisjoint).
  split; [now apply List.NoDup_filter |]. split; [now apply List.NoDup_filter |].
  intros a Ha Hin. apply filter_In in Ha, Hin. apply (Hdisjoint a); tauto.
Qed.

Lemma members_distinct_drop_request (c pre post : list string) (u : string) :
  List.NoDup (c ++ pre ++ u :: post) -> List.NoDup (c ++ pre ++ post).
Proof.
  rewrite app_assoc, (app_assoc c pre post). apply List.NoDup_remove_1.
Qed.

Lemma members_distinct_move_request (c pre post : list string) (u : string) :
  List.NoDup (c ++ pre ++ u :: post) -> List.NoDup ((c ++ [u]) ++ pre ++ post).
Proof.
  intros H.
  assert (Hrest : List.NoDup (c ++ pre ++ post))
    by exact (members_distinct_drop_request _ _ _ _ H).
  rewrite app_assoc in H. apply List.NoDup_remove_2 in H.
  rewrite <- app_assoc in H.
  apply members_distinct_add_player; [exact Hrest | |];
    intros Hin; apply H; apply in_or_app; [now left | now right].
Qed.

(** One call keeps the members distinct. *)
Lemma model_call_members_distinct (w : World) (gameId : string) (c : ModelCall)
    (game : Game) :
  findById w gameId = Some game ->
  members_distinct game ->
  exists game',
    findById (snd (model_call w gameId c)) gameId = Some game'
    /\ members_distinct game'.
Proof.
  unfold members_distinct, requesters. intros Hfind Hdistinct.
  destruct c as [userId | userId | userId | userId | userId | hostId userId approve];
    simpl.
  - (* joinGame *)
    unfold joinGame. rewrite Hfind.
    destruct (negb (GameStatus_eqb (g_status game) open)); [now exists game |].
    destruct (g_currentPlayers game >=? g_maxPlayers game); [now exists game |].
    destruct (includes (g_confirmedPlayers game) userId) eqn:Hplayer;
      [now exists game |].
    destruct (has_request (g_joinRequests game) userId) eqn:Hrequest;
      [now exists game |].
    apply not_includes in Hplayer. apply not_has_request in Hrequest.
    destruct (negb (g_isPrivate game)); simpl;
      (eexists; split; [apply (findById_update _ _ _ _ Hfind) |]); simpl.
    + now apply members_distinct_add_player.
    + rewrite List.map_app. now apply members_distinct_add_request.
  - (* leaveGame *)
    unfold leaveGame. rewrite Hfind.
    destruct (_ && _); [now exists game |]. simpl.
    eexists. split; [apply (findById_update _ _ _ _ Hfind) |]. simpl.
    rewrite requesters_without_request. unfold without_player.
    now apply members_distinct_filter.
  - (* createJoinRequest *)
    unfold createJoinRequest. rewrite Hfind.
    destruct (g_hostId game =? userId)%string; [now exists game |].
    destruct (includes (g_confirmedPlayers game) userId) eqn:Hplayer;
      [now exists game |].
    destruct (has_request (g_joinRequests game) userId) eqn:Hrequest;
      [now exists game |].
    apply not_includes in Hplayer. apply not_has_request in Hrequest. simpl.
    eexists. split; [apply (findById_update _ _ _ _ Hfind) |]. simpl.
    rewrite List.map_app. now apply members_distinct_add_request.
  - (* acceptRequest *)
    unfold acceptRequest. rewrite Hfind.
    destruct (splice_first (g_joinRequests game) userId) as [rest |] eqn:Hsplice;
      [| now exists game].
    destruct (splice_first_split _ _ _ Hsplice) as (pre & r & post & Hl & Hr & ->).
    rewrite Hl, List.map_app in Hdistinct. simpl in Hdistinct. rewrite Hr in Hdistinct.
    simpl. eexists. split; [apply (findById_update _ _ _ _ Hfind) |]. simpl.
    rewrite List.map_app. now apply members_distinct_move_request.
  - (* rejectRequest *)
    unfold rejectRequest. rewrite Hfind.
    destruct (splice_first (g_joinRequests game) userId) as [rest |] eqn:Hsplice;
      [| now exists game].
    destruct (splice_first_split _ _ _ Hsplice) as (pre & r & post & Hl & Hr & ->).
    rewrite Hl, List.map_app in Hdistinct. simpl in Hdistinct.
    simpl. eexists. split; [apply (findById_update _ _ _ _ Hfind) |]. simpl.
    rewrite List.map_app. now apply (members_distinct_drop_request _ _ _ (jr_userId r)).
  - (* respondToJoinRequest *)
    unfold respondToJoinRequest. rewrite Hfind.
    destruct (negb (g_hostId game =? hostId)%string); [now exists game |].
    destruct (has_request (g_joinRequests game) userId) eqn:Hrequest; simpl;
      [| now exists game].
    apply has_request_In in Hrequest.
    assert (Hkept : List.NoDup
              (g_confirmedPlayers game
               ++ List.map jr_userId (without_request (g_joinRequests game) userId))).
    { rewrite requesters_without_request.
      rewrite <- (List.filter_true (g_confirmedPlayers game)) at 1.
      now apply members_distinct_filter. }
    destruct approve.
    + destruct (g_currentPlayers game >=? g_maxPlayers game); [now exists game |].
      simpl. eexists. split; [apply (findById_update _ _ _ _ Hfind) |]. simpl.
      apply members_distinct_add_player; [exact Hkept | |].
      * apply ListNoDup_app_iff in Hdistinct. destruct Hdistinct as (_ & _ & Hdisjoint).
        intros Hin. now apply (Hdisjoint userId).
      * rewrite requesters_without_request. intros Hin. apply filter_In in Hin.
        destruct Hin as [_ Hne]. now rewrite String.eqb_refl in Hne.
    + simpl. eexists. split; [apply (findById_update _ _ _ _ Hfind) |]. exact Hkept.
Qed.

(** X1.  Whatever sequence of [joinGame], [leaveGame], [createJoinRequest],
    [acceptRequest], [rejectRequest] and [respondToJoinRequest] calls is made
    on a stored game in which no user is listed twice, at whatever times, the
    game is still stored afterwards and still lists no user twice: nobody is
    confirmed twice, requests twice, or is both confirmed and requesting. *)
Theorem model_calls_members_distinct (gameId : string)
    (calls : list (string * ModelCall)) (w : World) (game : Game) :
  findById w gameId = Some game ->
  members_distinct game ->
  exists game',
    findById (model_calls gameId w calls) gameId = Some game'
    /\ members_distinct game'.
Proof.
  unfold model_calls. revert w game.
  induction calls as [| [t c] calls IH]; intros w game Hfind Hdistinct; simpl.
  - now exists game.
  - destruct (model_call_members_distinct (mkWorld t (games w)) gameId c game
                Hfind Hdistinct) as (game' & Hfind' & Hdistinct').
    now apply (IH _ game').
Qed.

Lemma model_calls_members_distinct_witness :
  exists game',
    findById (model_calls "g4" fresh_private_world sample_calls) "g4" = Some game'
    /\ members_distinct game'.
Proof.
  apply (model_calls_members_distinct "g4" sample_calls fresh_private_world
           fresh_private_game).
  - reflexivity.
  - constructor.
Defined.

(** ** What a membership call leaves alone *)

Lemma membership_update_fixed_fields (t : string) (u : GameUpdate) (g : Game) :
  membership_update u -> same_fixed_fields g (write_columns t u g).
Proof.
  intros (H1 & H2 & H3 & H4 & H5 & H6 & H7 & H8 & H9 & H10 & H11).
  unfold same_fixed_fields, write_columns. simpl.
  rewrite H1, H2, H3, H4, H5, H6, H7, H8, H9, H10, H11. simpl.
  repeat split.
Qed.

Lemma model_call_writes (w : World) (gameId : string) (c : ModelCall) :
  snd (model_call w gameId c) = w
  \/ exists u, membership_update u /\ snd (model_call w gameId c) = update w gameId u.
Proof.
  destruct c as [userId | userId | userId | userId | userId | hostId userId approve];
    simpl;
    unfold joinGame, leaveGame, createJoinRequest, acceptRequest, rejectRequest,
      respondToJoinRequest;
    destruct (findById w gameId) as [game |]; try (now left);
    repeat match goal with
           | |- context [if ?c then _ else _] => destruct c
           | |- context [match splice_first ?l ?x with _ => _ end] =>
               destruct (splice_first l x)
           end;
    simpl; try (now left);
    right; eexists; (split; [| reflexivity]); repeat split.
Qed.

(** X2.  A call of a membership method on game [gameId] leaves every other
    game of the table as it was, creates and deletes no row, and keeps the
    id, host, turf, schedule, sport, format, skill level, capacity, cost,
    description, notes, privacy and creation time of the game it addresses. *)
Theorem model_call_frame (w : World) (gameId : string) (c : ModelCall) :
  (forall other, other <> gameId ->
                 findById (snd (model_call w gameId c)) other = findById w other)
  /\ (findById w gameId = None -> snd (model_call w gameId c) = w)
  /\ (forall game, findById w gameId = Some game ->
                   exists game',
                     findById (snd (model_call w gameId c)) gameId = Some game'
                     /\ same_fixed_fields game game').
Proof.
  destruct (model_call_writes w gameId c) as [-> | (u & Hu & ->)].
  - split; [reflexivity |]. split; [reflexivity |].
    intros game Hfind. exists game. split; [exact Hfind |].
    unfold same_fixed_fields. repeat split.
  - split; [| split].
    + intros other Hother. apply findById_update_ne. congruence.
    + unfold findById, update. now intros ->.
    + intros game Hfind. eexists. split; [apply (findById_update _ _ _ _ Hfind) |].
      now apply membership_update_fixed_fields.
Qed.

(** ** Leaving *)

Lemma filter_length_all {A} (f : A -> bool) (l : list A) :
  List.length (List.filter f l) = List.length l -> List.filter f l = l.
Proof.
  induction l as [| x l IH]; simpl; [reflexivity |].
  destruct (f x); simpl; intros H.
  - f_equal. apply IH. lia.
  - pose proof (List.filter_length_le f l). lia.
Qed.

Lemma without_player_all (l : list string) (x : string) :
  without_player l x = l -> ~ In x l.
Proof.
  unfold without_player. intros H Hin.
  rewrite <- H in Hin. apply filter_In in Hin. destruct Hin as [_ Hne].
  now rewrite String.eqb_refl in Hne.
Qed.

Lemma without_request_all (l : list JoinRequest) (x : string) :
  without_request l x = l -> ~ In x (List.map jr_userId l).
Proof.
  intros H Hin. rewrite <- H, requesters_without_request in Hin.
  apply filter_In in Hin. destruct Hin as [_ Hne].
  now rewrite String.eqb_refl in Hne.
Qed.

Lemma In_without_player (l : list string) (x v : string) :
  In v (without_player l x) <-> In v l /\ v <> x.
Proof.
  unfold without_player. rewrite filter_In, negb_true_iff, String.eqb_neq. tauto.
Qed.

Lemma In_requesters_without_request (l : list JoinRequest) (x v : string) :
  In v (List.map jr_userId (without_request l x))
  <-> In v (List.map jr_userId l) /\ v <> x.
Proof.
  rewrite requesters_without_request, filter_In, negb_true_iff, String.eqb_neq. tauto.
Qed.

(** X3.  On a stored game, [leaveGame] succeeds exactly when the user is a
    confirmed player or has a request; after a successful call the user is in
    neither list, and every other user is in the lists he was in. *)
Theorem leaveGame_removes_member (w : World) (gameId userId : string) (game : Game) :
  findById w gameId = Some game ->
  (success (fst (leaveGame w gameId userId)) = true
   <-> In userId (g_confirmedPlayers game) \/ In userId (requesters game))
  /\ (success (fst (leaveGame w gameId userId)) = true ->
      exists game',
        findById (snd (leaveGame w gameId userId)) gameId = Some game'
        /\ ~ In userId (g_confirmedPlayers game')
        /\ ~ In userId (requesters game')
        /\ forall other, other <> userId ->
             (In other (g_confirmedPlayers game') <-> In other (g_confirmedPlayers game))
             /\ (In other (requesters game') <-> In other (requesters game))).
Proof.
  intros Hfind. unfold leaveGame, requesters. rewrite Hfind.
  destruct ((len (without_player (g_confirmedPlayers game) userId)
             =? len (g_confirmedPlayers game))
            && (len (without_request (g_joinRequests game) userId)
                =? len (g_joinRequests game))) eqn:Hsame; simpl.
  - split; [| discriminate]. split; [discriminate |].
    apply andb_prop in Hsame. destruct Hsame as [Hplayers Hrequests].
    apply Z.eqb_eq in Hplayers, Hrequests. unfold len in Hplayers, Hrequests.
    apply Nat2Z.inj in Hplayers, Hrequests.
    apply filter_length_all in Hplayers, Hrequests.
    apply without_player_all in Hplayers. apply without_request_all in Hrequests.
    tauto.
  - split.
    + split; [| reflexivity]. intros _.
      destruct (List.in_dec string_dec userId (g_confirmedPlayers game)) as [? | Hp];
        [now left |].
      destruct (List.in_dec string_dec userId (List.map jr_userId (g_joinRequests game)))
        as [? | Hr]; [now right |].
      rewrite (without_player_absent _ _ Hp), (without_request_absent _ _ Hr),
        !Z.eqb_refl in Hsame. discriminate.
    + intros _. eexists. split; [apply (findById_update _ _ _ _ Hfind) |]. simpl.
      split; [rewrite In_without_player; tauto |].
      split; [rewrite In_requesters_without_request; tauto |].
      intros other Hother. rewrite In_without_player, In_requesters_without_request.
      tauto.
Qed.

Lemma leaveGame_removes_member_witness :
  success (fst (leaveGame sample_world "g1" "ana")) = true
  <-> In "ana" (g_confirmedPlayers sample_game) \/ In "ana" (requesters sample_game).
Proof.
  exact (proj1 (leaveGame_removes_member sample_world "g1" "ana" sample_game eq_refl)).
Defined.

(** ** Calls that undo or complete one another *)

Lemma without_player_appended (l : list string) (x : string) :
  ~ In x l -> without_player (l ++ [x]) x = l.
Proof.
  intros Hx. unfold without_player. rewrite List.filter_app. simpl.
  rewrite String.eqb_refl. simpl. rewrite app_nil_r.
  now apply without_player_absent.
Qed.

Lemma without_request_appended (l : list JoinRequest) (x t st : string) :
  ~ In x (List.map jr_userId l) ->
  without_request (l ++ [mkJoinRequest x t st]) x = l.
Proof.
  intros Hx. unfold without_request. rewrite List.filter_app. simpl.
  rewrite String.eqb_refl. simpl. rewrite app_nil_r.
  now apply without_request_absent.
Qed.

Lemma joinGame_new_member (w : World) (gameId userId : string) (game : Game) :
  findById w gameId = Some game ->
  g_status game = open ->
  g_currentPlayers game < g_maxPlayers game ->
  ~ In userId (g_confirmedPlayers game) ->
  ~ In userId (requesters game) ->
  exists game1,
    findById (snd (joinGame w gameId userId)) gameId = Some game1
    /\ success (fst (joinGame w gameId userId)) = true
    /\ same_fixed_fields game game1
    /\ (if g_isPrivate game
        then g_confirmedPlayers game1 = g_confirmedPlayers game
             /\ g_joinRequests game1
                = (g_joinRequests game ++ [mkJoinRequest userId (now w) "pending"])%list
             /\ g_currentPlayers game1 = g_currentPlayers game
             /\ g_status game1 = open
        else g_confirmedPlayers game1 = (g_confirmedPlayers game ++ [userId])%list
             /\ g_joinRequests game1 = g_joinRequests game
             /\ g_currentPlayers game1 = len (g_confirmedPlayers game) + 2).
Proof.
  intros Hfind Hopen Hroom Hplayer Hrequest. unfold joinGame. rewrite Hfind, Hopen.
  simpl. destruct (g_currentPlayers game >=? g_maxPlayers game) eqn:Hfull; [lia |].
  destruct (includes (g_confirmedPlayers game) userId) eqn:Hin;
    [apply includes_In in Hin; contradiction |].
  destruct (has_request (g_joinRequests game) userId) eqn:Hreq;
    [apply has_request_In in Hreq; contradiction |].
  destruct (g_isPrivate game) eqn:Hprivate; simpl;
    (eexists; split; [apply (findById_update _ _ _ _ Hfind) |]);
    (split; [reflexivity |]);
    (split; [unfold same_fixed_fields; simpl; rewrite ?Hprivate; repeat split |]);
    simpl.
  - now rewrite Hopen.
  - rewrite len_app_one. repeat split. lia.
Qed.

(** X4.  A user who is in neither list joins an open game that has room, and
    then leaves it: both calls succeed, and the game again has the confirmed
    players and the requests it had before, a count of these players plus
    one, and its fixed fields.  This holds for a public and for a private
    game. *)
Theorem join_then_leave_restores (w : World) (gameId userId : string) (game : Game) :
  findById w gameId = Some game ->
  g_status game = open ->
  g_currentPlayers game < g_maxPlayers game ->
  ~ In userId (g_confirmedPlayers game) ->
  ~ In userId (requesters game) ->
  success (fst (joinGame w gameId userId)) = true
  /\ success (fst (leaveGame (snd (joinGame w gameId userId)) gameId userId)) = true
  /\ exists game2,
       findById (snd (leaveGame (snd (joinGame w gameId userId)) gameId userId)) gameId
       = Some game2
       /\ g_confirmedPlayers game2 = g_confirmedPlayers game
       /\ g_joinRequests game2 = g_joinRequests game
       /\ g_currentPlayers game2 = len (g_confirmedPlayers game) + 1
       /\ same_fixed_fields game game2.
Proof.
  intros Hfind Hopen Hroom Hplayer Hrequest.
  destruct (joinGame_new_member w gameId userId game Hfind Hopen Hroom Hplayer Hrequest)
    as (game1 & Hfind1 & Hok & Hfixed & Hlists).
  split; [exact Hok |].
  set (w1 := snd (joinGame w gameId userId)) in *.
  assert (Hleave :
            without_player (g_confirmedPlayers game1) userId = g_confirmedPlayers game
            /\ without_request (g_joinRequests game1) userId = g_joinRequests game
            /\ (len (g_confirmedPlayers game) =? len (g_confirmedPlayers game1))
               && (len (g_joinRequests game) =? len (g_joinRequests game1)) = false).
  { destruct (g_isPrivate game).
    - destruct Hlists as (-> & -> & _ & _).
      rewrite (without_player_absent _ _ Hplayer), without_request_appended
        by exact Hrequest.
      repeat split. rewrite len_app_one, Z.eqb_refl. simpl. apply Z.eqb_neq. lia.
    - destruct Hlists as (-> & -> & _).
      rewrite (without_request_absent _ _ Hrequest), without_player_appended
        by exact Hplayer.
      repeat split. rewrite len_app_one.
      replace (len (g_confirmedPlayers game) =? len (g_confirmedPlayers game) + 1)
        with false by (symmetry; apply Z.eqb_neq; lia).
      reflexivity. }
  destruct Hleave as (Hplayers & Hrequests & Hchanged).
  unfold leaveGame. rewrite Hfind1, Hplayers, Hrequests, Hchanged. simpl.
  split; [reflexivity |].
  eexists. split; [apply (findById_update _ _ _ _ Hfind1) |]. simpl.
  repeat split; try reflexivity; apply Hfixed.
Qed.

Lemma join_then_leave_restores_witness :
  success (fst (joinGame sample_world "g1" "zoe")) = true
  /\ success (fst (leaveGame (snd (joinGame sample_world "g1" "zoe")) "g1" "zoe")) = true
  /\ exists game2,
       findById (snd (leaveGame (snd (joinGame sample_world "g1" "zoe")) "g1" "zoe")) "g1"
       = Some game2
       /\ g_confirmedPlayers game2 = g_confirmedPlayers sample_game
       /\ g_joinRequests game2 = g_joinRequests sample_game
       /\ g_currentPlayers game2 = len (g_confirmedPlayers sample_game) + 1
       /\ same_fixed_fields sample_game game2.
Proof.
  apply (join_then_leave_restores sample_world "g1" "zoe" sample_game).
  - reflexivity.
  - reflexivity.
  - reflexivity.
  - simpl. intros [H | []]. discriminate H.
  - simpl. intros [].
Defined.

(** X5.  A user who is in neither list asks to join an open private game that
    has room, and the host answers.  If the host approves, the user becomes
    the last confirmed player, the requests are those from before, and the
    count is the confirmed players plus one; if the host declines, both lists
    are those from before. *)
Theorem private_join_then_answer (w : World) (gameId userId : string) (game : Game)
    (approve : bool) :
  findById w gameId = Some game ->
  g_isPrivate game = true ->
  g_status game = open ->
  g_currentPlayers game < g_maxPlayers game ->
  ~ In userId (g_confirmedPlayers game) ->
  ~ In userId (requesters game) ->
  let w1 := snd (joinGame w gameId userId) in
  success (fst (joinGame w gameId userId)) = true
  /\ success (fst (respondToJoinRequest w1 gameId (g_hostId game) userId approve)) = true
  /\ exists game2,
       findById (snd (respondToJoinRequest w1 gameId (g_hostId game) userId approve))
         gameId = Some game2
       /\ g_joinRequests game2 = g_joinRequests game
       /\ (if approve
           then g_confirmedPlayers game2 = (g_confirmedPlayers game ++ [userId])%list
                /\ g_currentPlayers game2 = len (g_confirmedPlayers game2) + 1
           else g_confirmedPlayers game2 = g_confirmedPlayers game
                /\ g_currentPlayers game2 = g_currentPlayers game).
Proof.
  intros Hfind Hprivate Hopen Hroom Hplayer Hrequest w1.
  destruct (joinGame_new_member w gameId userId game Hfind Hopen Hroom Hplayer Hrequest)
    as (game1 & Hfind1 & Hok & Hfixed & Hlists).
  rewrite Hprivate in Hlists. destruct Hlists as (Hplayers & Hrequests & Hcount & _).
  split; [exact Hok |]. fold w1 in Hfind1.
  assert (Hhost : g_hostId game1 = g_hostId game) by apply Hfixed.
  assert (Hmax : g_maxPlayers game1 = g_maxPlayers game) by apply Hfixed.
  unfold respondToJoinRequest. rewrite Hfind1, Hhost, String.eqb_refl. simpl.
  assert (Hasked : has_request (g_joinRequests game1) userId = true).
  { apply has_request_In. rewrite Hrequests, List.map_app. apply in_or_app.
    right. now left. }
  rewrite Hasked. simpl.
  rewrite Hrequests, (without_request_appended _ _ _ _ Hrequest).
  destruct approve.
  - rewrite Hcount, Hmax.
    destruct (g_currentPlayers game >=? g_maxPlayers game) eqn:Hfull; [lia |].
    simpl. split; [reflexivity |].
    eexists. split; [apply (findById_update _ _ _ _ Hfind1) |]. simpl.
    rewrite Hplayers. repeat split.
  - simpl. split; [reflexivity |].
    eexists. split; [apply (findById_update _ _ _ _ Hfind1) |]. simpl.
    rewrite Hplayers, Hcount. repeat split.
Qed.

Lemma private_join_then_answer_witness :
  let w1 := snd (joinGame fresh_private_world "g4" "ana") in
  success (fst (joinGame fresh_private_world "g4" "ana")) = true
  /\ success (fst (respondToJoinRequest w1 "g4" "host" "ana" true)) = true
  /\ exists game2,
       findById (snd (respondToJoinRequest w1 "g4" "host" "ana" true)) "g4" = Some game2
       /\ g_joinRequests game2 = []
       /\ g_confirmedPlayers game2 = ["ana"]
       /\ g_currentPlayers game2 = len (g_confirmedPlayers game2) + 1.
Proof.
  apply (private_join_then_answer fresh_private_world "g4" "ana" fresh_private_game true).
  - reflexivity.
  - reflexivity.
  - reflexivity.
  - reflexivity.
  - simpl. intros [].
  - simpl. intros [].
Defined.

(** ** Who may manage a game *)

(** X6.  A caller who is not the host of a stored game cannot answer its join
    requests, admin or not, and unless he is an admin can neither update nor
    cancel it: the model answers "Only the host can approve join requests",
    the routes answer 403, and the store stays as it was. *)
Theorem only_host_manages_game (w : World) (gameId : string) (game : Game)
    (user : AuthUser) :
  findById w gameId = Some game ->
  au_id user <> g_hostId game ->
  (forall userId approve,
      respondToJoinRequest w gameId (au_id user) userId approve
      = (failure "Only the host can approve join requests", w)
      /\ post_join_request_response w user gameId userId approve
         = (mkResponse 400 false "Only the host can approve join requests" None, w))
  /\ (au_role user <> "admin" ->
      (forall body,
          put_game w user gameId body
          = (mkResponse 403 false "Only the host can update this game" None, w))
      /\ delete_game w user gameId
         = (mkResponse 403 false "Only the host can cancel this game" None, w)).
Proof.
  intros Hfind Hstranger.
  assert (Hid : (g_hostId game =? au_id user)%string = false)
    by (apply String.eqb_neq; congruence).
  split.
  - intros userId approve.
    assert (Hrespond : respondToJoinRequest w gameId (au_id user) userId approve
                       = (failure "Only the host can approve join requests", w)).
    { unfold respondToJoinRequest. now rewrite Hfind, Hid. }
    split; [exact Hrespond |].
    unfold post_join_request_response. now rewrite Hrespond.
  - intros Hrole.
    assert (Hadmin : (au_role user =? "admin")%string = false)
      by now apply String.eqb_neq.
    split; [intros body; unfold put_game | unfold delete_game];
      now rewrite Hfind, Hid, Hadmin.
Qed.

Lemma only_host_manages_game_witness :
  delete_game sample_world sample_user "g1"
  = (mkResponse 403 false "Only the host can cancel this game" None, sample_world).
Proof.
  apply (only_host_manages_game sample_world "g1" sample_game sample_user eq_refl).
  - discriminate.
  - discriminate.
Defined.

(** ** Cancelling and updating through the routes *)

(** X7.  When the host or an admin cancels a stored game that is neither in
    progress nor completed, the route answers 200 and the game is stored with
    status [cancelled] and with the players and requests it had.  On the
    store that the cancellation leaves, every [joinGame] on the game is
    refused with "Game is not open for joining" and writes nothing, so that
    any number of joins made one after the other leave that store as it is.
    Nothing is said of the store once another operation has written the
    game. *)
Theorem cancelled_game_refuses_joins (w : World) (gameId : string) (game : Game)
    (user : AuthUser) :
  findById w gameId = Some game ->
  au_id user = g_hostId game \/ au_role user = "admin" ->
  g_status game <> in_progress ->
  g_status game <> completed ->
  fst (delete_game w user gameId)
  = mkResponse 200 true "Game cancelled successfully" None
  /\ exists game',
       findById (snd (delete_game w user gameId)) gameId = Some game'
       /\ g_status game' = cancelled
       /\ g_confirmedPlayers game' = g_confirmedPlayers game
       /\ g_joinRequests game' = g_joinRequests game
       /\ (forall userId,
              joinGame (snd (delete_game w user gameId)) gameId userId
              = (failure "Game is not open for joining",
                 snd (delete_game w user gameId)))
       /\ forall userIds,
            List.fold_left (fun w' userId => snd (joinGame w' gameId userId)) userIds
              (snd (delete_game w user gameId))
            = snd (delete_game w user gameId).
Proof.
  intros Hfind Hallowed Hrunning Hdone.
  assert (Hguard : negb (g_hostId game =? au_id user)%string
                   && negb (au_role user =? "admin")%string = false).
  { destruct Hallowed as [-> | ->].
    - now rewrite String.eqb_refl.
    - rewrite String.eqb_refl. apply andb_false_r. }
  assert (Hstatus : GameStatus_eqb (g_status game) in_progress
                    || GameStatus_eqb (g_status game) completed = false).
  { destruct (g_status game); try reflexivity; contradiction. }
  unfold delete_game. rewrite Hfind, Hguard, Hstatus.
  unfold GameModel_update. simpl.
  split; [reflexivity |].
  eexists. split; [apply (findById_update _ _ _ _ Hfind) |]. simpl.
  assert (Hrefused : forall userId,
             joinGame (update w gameId (updateData (set_status cancelled no_updates)))
               gameId userId
             = (failure "Game is not open for joining",
                update w gameId (updateData (set_status cancelled no_updates)))).
  { intros userId. unfold joinGame.
    now rewrite (findById_update _ _ _ _ Hfind). }
  repeat split; [exact Hrefused |].
  intros userIds. induction userIds as [| userId userIds IH]; simpl; [reflexivity |].
  now rewrite Hrefused.
Qed.

Lemma cancelled_game_refuses_joins_witness :
  fst (delete_game sample_world sample_host "g1")
  = mkResponse 200 true "Game cancelled successfully" None
  /\ exists game',
       findById (snd (delete_game sample_world sample_host "g1")) "g1" = Some game'
       /\ g_status game' = cancelled
       /\ g_confirmedPlayers game' = g_confirmedPlayers sample_game
       /\ g_joinRequests game' = g_joinRequests sample_game
       /\ (forall userId,
              joinGame (snd (delete_game sample_world sample_host "g1")) "g1" userId
              = (failure "Game is not open for joining",
                 snd (delete_game sample_world sample_host "g1")))
       /\ forall userIds,
            List.fold_left (fun w' userId => snd (joinGame w' "g1" userId)) userIds
              (snd (delete_game sample_world sample_host "g1"))
            = snd (delete_game sample_world sample_host "g1").
Proof.
  apply (cancelled_game_refuses_joins sample_world "g1" sample_game sample_host).
  - reflexivity.
  - left. reflexivity.
  - discriminate.
  - discriminate.
Defined.

Lemma truthy_string_default (old : string) (o : option string) :
  old <> "" -> default old (truthy_string o) <> "".
Proof.
  intros Hold. unfold truthy_string. destruct o as [s |]; [| exact Hold].
  destruct (String.eqb_spec s "") as [? | Hs]; simpl; assumption.
Qed.

Lemma truthy_number_default (old : Z) (o : option Z) :
  old <> 0 -> default old (truthy_number o) <> 0.
Proof.
  intros Hold. unfold truthy_number. destruct o as [n |]; [| exact Hold].
  destruct (Z.eqb_spec n 0) as [? | Hn]; simpl; assumption.
Qed.

(** X8.  For bodies whose fields have the types that [update] declares for
    them ([Partial<Game>]: texts for the date, the times, the sport and the
    format, an integer for [maxPlayers], and so on; the route does not check
    this, and a body with a field of another type is outside this statement):
    whoever calls [PUT /:id] on a stored game with such a body, the game is
    still stored afterwards with the id, host, turf and creation time it had,
    and a date, a start time, an end time, a sport or a format that was not
    empty is not empty afterwards, and a capacity that was not zero is not
    zero afterwards.  Nothing else protects the capacity: the host of a game
    that is neither in progress nor completed stores any non-zero integer
    [maxPlayers] he sends, whatever the number of confirmed players. *)
Theorem put_game_required_columns (w : World) (user : AuthUser) (gameId : string)
    (body : GameUpdate) (game : Game) :
  findById w gameId = Some game ->
  (exists game',
      findById (snd (put_game w user gameId body)) gameId = Some game'
      /\ g_id game' = g_id game /\ g_hostId game' = g_hostId game
      /\ g_turfId game' = g_turfId game /\ g_createdAt game' = g_createdAt game
      /\ (g_date game <> "" -> g_date game' <> "")
      /\ (g_startTime game <> "" -> g_startTime game' <> "")
      /\ (g_endTime game <> "" -> g_endTime game' <> "")
      /\ (g_sport game <> "" -> g_sport game' <> "")
      /\ (g_format game <> "" -> g_format game' <> "")
      /\ (g_maxPlayers game <> 0 -> g_maxPlayers game' <> 0))
  /\ (forall n,
         au_id user = g_hostId game ->
         g_status game <> in_progress -> g_status game <> completed ->
         u_maxPlayers body = Some n -> n <> 0 ->
         exists game',
           findById (snd (put_game w user gameId body)) gameId = Some game'
           /\ g_maxPlayers game' = n
           /\ (u_confirmedPlayers body = None ->
               g_confirmedPlayers game' = g_confirmedPlayers game)).
Proof.
  intros Hfind. split.
  - assert (Hsame : exists game',
               findById w gameId = Some game'
               /\ g_id game' = g_id game /\ g_hostId game' = g_hostId game
               /\ g_turfId game' = g_turfId game /\ g_createdAt game' = g_createdAt game
               /\ (g_date game <> "" -> g_date game' <> "")
               /\ (g_startTime game <> "" -> g_startTime game' <> "")
               /\ (g_endTime game <> "" -> g_endTime game' <> "")
               /\ (g_sport game <> "" -> g_sport game' <> "")
               /\ (g_format game <> "" -> g_format game' <> "")
               /\ (g_maxPlayers game <> 0 -> g_maxPlayers game' <> 0))
      by (exists game; repeat split; trivial).
    unfold put_game. rewrite Hfind.
    destruct (_ && _); [exact Hsame |].
    destruct (_ || _); [exact Hsame |].
    unfold GameModel_update.
    destruct (empty_set_clause (updateData body)); [exact Hsame |]. simpl.
    eexists. split; [apply (findById_update _ _ _ _ Hfind) |]. simpl.
    repeat split; try apply truthy_string_default. apply truthy_number_default.
  - intros n Hhost Hrunning Hdone Hmax Hn.
    unfold put_game. rewrite Hfind, Hhost, String.eqb_refl. simpl.
    assert (Hstatus : GameStatus_eqb (g_status game) in_progress
                      || GameStatus_eqb (g_status game) completed = false).
    { destruct (g_status game); try reflexivity; contradiction. }
    rewrite Hstatus. unfold GameModel_update.
    assert (Hset : empty_set_clause (updateData body) = false).
    { unfold updateData, empty_set_clause. rewrite Hmax. unfold truthy_number.
      destruct (Z.eqb_spec n 0) as [? | _]; [contradiction |].
      repeat match goal with
             | |- context [match ?o with Some _ => _ | None => _ end] => destruct o
             end; reflexivity. }
    rewrite Hset. simpl.
    eexists. split; [apply (findById_update _ _ _ _ Hfind) |]. simpl.
    rewrite Hmax. unfold truthy_number.
    destruct (Z.eqb_spec n 0) as [? | _]; [contradiction |]. simpl.
    split; [reflexivity |]. now intros ->.
Qed.

Lemma put_game_required_columns_witness :
  exists game',
    findById (snd (put_game sample_world sample_host "g1" raise_capacity)) "g1"
    = Some game'
    /\ g_maxPlayers game' = 10
    /\ (u_confirmedPlayers raise_capacity = None ->
        g_confirmedPlayers game' = g_confirmedPlayers sample_game).
Proof.
  apply (proj2 (put_game_required_columns sample_world sample_host "g1" raise_capacity
                  sample_game eq_refl) 10);
    try reflexivity; discriminate.
Defined.

(** ** Reading a game *)

Lemma requests_include_never (l : list JoinRequest) (id : string) :
  requests_include l id = false.
Proof. unfold requests_include. induction l; simpl; auto. Qed.

(** X9.  [GET /:id] shows a public game to every caller, with or without a
    token.  It shows a private game to its host and to its confirmed players,
    and answers 403 to a caller without a token and to every user, an admin
    too, who is neither the host nor a confirmed player and has no pending
    request. *)
Theorem get_game_visibility (w : World) (id : string) (game : Game) :
  findById w id = Some game ->
  (g_isPrivate game = false ->
   forall user, get_game w user id = mkResponse 200 true "" (Some game))
  /\ (g_isPrivate game = true ->
      get_game w None id = mkResponse 403 false "This is a private game" None
      /\ forall u,
           (au_id u = g_hostId game \/ In (au_id u) (g_confirmedPlayers game) ->
            get_game w (Some u) id = mkResponse 200 true "" (Some game))
           /\ (au_id u <> g_hostId game -> ~ In (au_id u) (g_confirmedPlayers game) ->
               ~ In (au_id u) (requesters game) ->
               get_game w (Some u) id
               = mkResponse 403 false "This is a private game" None)).
Proof.
  intros Hfind. unfold get_game. rewrite Hfind. split.
  - intros ->. now intros [u |].
  - intros ->. split; [reflexivity |]. intros u.
    rewrite requests_include_never, orb_false_r. split.
    + intros [Hhost | Hplayer].
      * now rewrite Hhost, String.eqb_refl.
      * apply includes_In in Hplayer. now rewrite Hplayer, orb_true_r.
    + intros Hhost Hplayer _.
      assert (Hid : (g_hostId game =? au_id u)%string = false)
        by (apply String.eqb_neq; congruence).
      destruct (includes (g_confirmedPlayers game) (au_id u)) eqn:Hin;
        [apply includes_In in Hin; contradiction |].
      now rewrite Hid.
Qed.

Lemma get_game_visibility_witness :
  get_game fresh_private_world None "g4"
  = mkResponse 403 false "This is a private game" None.
Proof.
  apply (proj2 (get_game_visibility fresh_private_world "g4" fresh_private_game
                  eq_refl) eq_refl).
Defined.

(** ** Creating a game *)

(** X10.  When the creation route answers 201, the table had no row with the
    new id and has one now: an open game hosted by the caller on an active
    turf, with no confirmed player and no request, a count of one and a
    capacity between 2 and 50, so that it is within its capacity; the other
    rows are as they were.  When it answers anything else the table is as it
    was. *)
Theorem post_game_creates_open_game (turfs : gmap string Turf) (w w' : World)
    (newId : string) (user : AuthUser) (body : GameBody) (resp : Response) :
  post_game turfs w newId user body = (resp, w') ->
  (r_code resp <> 201 -> w' = w)
  /\ (r_code resp = 201 ->
      exists game turf,
        r_data resp = Some game
        /\ findById w newId = None
        /\ findById w' newId = Some game
        /\ (forall other, other <> newId -> findById w' other = findById w other)
        /\ g_id game = newId /\ g_hostId game = au_id user
        /\ g_status game = open
        /\ g_confirmedPlayers game = [] /\ g_joinRequests game = []
        /\ g_currentPlayers game = 1
        /\ 2 <= g_maxPlayers game <= 50
        /\ within_capacity game
        /\ turfs !! g_turfId game = Some turf /\ t_isActive turf = true).
Proof.
  unfold post_game. intros Hcall.
  destruct (gameCreateSchema body) eqn:Hschema; simpl in Hcall;
    [| injection Hcall as <- <-; split; [reflexivity | discriminate]].
  destruct (turfs !! gb_turfId body) as [turf |] eqn:Hturf;
    [| injection Hcall as <- <-; split; [reflexivity | discriminate]].
  destruct (t_isActive turf) eqn:Hactive; simpl in Hcall;
    [| injection Hcall as <- <-; split; [reflexivity | discriminate]].
  destruct (games w !! newId) eqn:Hfresh;
    [injection Hcall as <- <-; split; [reflexivity | discriminate] |].
  injection Hcall as <- <-. split; [intros H; now contradiction H |]. intros _.
  assert (Hmax : 2 <= gb_maxPlayers body <= 50).
  { unfold gameCreateSchema in Hschema.
    repeat (apply andb_prop in Hschema; destruct Hschema as [Hschema ?]).
    repeat match goal with
           | H : (_ <=? _) = true |- _ => apply Z.leb_le in H
           end.
    split; assumption. }
  eexists. exists turf. split; [reflexivity |]. split; [exact Hfresh |].
  split; [unfold findById; simpl; apply lookup_insert_eq |].
  split; [intros other Hother; unfold findById; simpl;
          apply lookup_insert_ne; congruence |].
  simpl. unfold within_capacity, counts_host, len. simpl.
  repeat split; try assumption; try reflexivity; lia.
Qed.

Lemma post_game_creates_open_game_witness :
  exists game turf,
    r_data (fst (post_game sample_turfs sample_world "g9" sample_host sample_game_body))
    = Some game
    /\ findById sample_world "g9" = None
    /\ findById (snd (post_game sample_turfs sample_world "g9" sample_host
                        sample_game_body)) "g9" = Some game
    /\ (forall other, other <> "g9" ->
          findById (snd (post_game sample_turfs sample_world "g9" sample_host
                           sample_game_body)) other
          = findById sample_world other)
    /\ g_id game = "g9" /\ g_hostId game = au_id sample_host
    /\ g_status game = open
    /\ g_confirmedPlayers game = [] /\ g_joinRequests game = []
    /\ g_currentPlayers game = 1
    /\ 2 <= g_maxPlayers game <= 50
    /\ within_capacity game
    /\ sample_turfs !! g_turfId game = Some turf /\ t_isActive turf = true.
Proof.
  apply (proj2 (post_game_creates_open_game sample_turfs sample_world
                  (snd (post_game sample_turfs sample_world "g9" sample_host
                          sample_game_body))
                  "g9" sample_host sample_game_body
                  (fst (post_game sample_turfs sample_world "g9" sample_host
                          sample_game_body))
                  eq_refl)).
  reflexivity.
Defined.

(** ** Listing the games one can join *)








(** * Further properties of the booking model *)

(** ** What [checkAvailability] looks at *)

Lemma checkAvailability_filter (rows : list Booking)
    (turfId date startTime endTime : string) (excludeBookingId : option string) :
  checkAvailability rows turfId date startTime endTime excludeBookingId = true
  <-> forall b, In b rows ->
        sqlite_conflict turfId date startTime endTime excludeBookingId b = false.
Proof. unfold checkAvailability. apply count_zero_iff. Qed.

Lemma bool_eq_iff (a b : bool) : (a = true <-> b = true) -> a = b.
Proof. destruct a, b; intuition. Qed.

(** X12.  [checkAvailability] with a non-empty [excludeBookingId] answers what
    it answers, without exclusion, on the table from which the rows of that id
    have been removed; an empty [excludeBookingId] excludes nothing. *)
Theorem checkAvailability_excluding (rows : list Booking)
    (turfId date startTime endTime id : string) :
  (id <> "" ->
   checkAvailability rows turfId date startTime endTime (Some id)
   = checkAvailability (other_bookings rows id) turfId date startTime endTime None)
  /\ checkAvailability rows turfId date startTime endTime (Some "")
     = checkAvailability rows turfId date startTime endTime None.
Proof.
  split.
  - intros Hid. apply bool_eq_iff. rewrite !checkAvailability_filter.
    assert (Hrow : forall b,
               sqlite_conflict turfId date startTime endTime (Some id) b
               = negb (b_id b =? id)%string
                 && sqlite_conflict turfId date startTime endTime None b).
    { intros b. unfold sqlite_conflict, not_excluded, truthy_string.
      destruct (String.eqb_spec id "") as [? | _]; [contradiction |]. simpl.
      rewrite andb_true_r. apply andb_comm. }
    unfold other_bookings. split; intros H b Hb.
    + apply filter_In in Hb. destruct Hb as [Hb Hother].
      specialize (H b Hb). rewrite Hrow, Hother in H. exact H.
    + rewrite Hrow. destruct (negb (b_id b =? id)%string) eqn:Hother; [| reflexivity].
      apply H. apply filter_In. now split.
  - reflexivity.
Qed.

Lemma checkAvailability_excluding_witness :
  checkAvailability afternoon_rows "turf1" "2024-01-06" "14:00" "15:00" (Some "b1")
  = checkAvailability (other_bookings afternoon_rows "b1") "turf1" "2024-01-06"
      "14:00" "15:00" None.
Proof.
  apply (proj1 (checkAvailability_excluding afternoon_rows "turf1" "2024-01-06"
                  "14:00" "15:00" "b1")).
  discriminate.
Defined.

(** X13.  [checkAvailability] looks only at the pending and confirmed bookings
    of the turf and date it is asked about: it answers the same on the whole
    table and on these rows alone, and on two tables put together it answers
    [true] exactly when it does on each. *)
Theorem checkAvailability_only_active_of_day (rows more : list Booking)
    (turfId date startTime endTime : string) (excludeBookingId : option string) :
  checkAvailability rows turfId date startTime endTime excludeBookingId
  = checkAvailability
      (List.filter
         (fun b => String.eqb (b_turfId b) turfId && String.eqb (b_date b) date
                   && is_active b)
         rows)
      turfId date startTime endTime excludeBookingId
  /\ checkAvailability (rows ++ more) turfId date startTime endTime excludeBookingId
     = checkAvailability rows turfId date startTime endTime excludeBookingId
       && checkAvailability more turfId date startTime endTime excludeBookingId.
Proof.
  split.
  - apply bool_eq_iff. rewrite !checkAvailability_filter. split; intros H b Hb.
    + apply filter_In in Hb. now apply H.
    + unfold sqlite_conflict.
      destruct ((b_turfId b =? turfId)%string && (b_date b =? date)%string
                && is_active b) eqn:Hday; [| reflexivity].
      assert (Hconflict : sqlite_conflict turfId date startTime endTime
                            excludeBookingId b = false)
        by (apply H; apply filter_In; now split).
      unfold sqlite_conflict in Hconflict. now rewrite Hday in Hconflict.
  - apply bool_eq_iff. rewrite andb_true_iff, !checkAvailability_filter. split.
    + intros H. split; intros b Hb; apply H; apply in_or_app; [now left | now right].
    + intros [Hrows Hmore] b Hb. apply in_app_or in Hb.
      destruct Hb; [now apply Hrows | now apply Hmore].
Qed.

(** ** Booking through the route *)

Lemma ForallOrdPairs_snoc {A} (R : A -> A -> Prop) (l : list A) (x : A) :
  ForallOrdPairs R l -> (forall y, In y l -> R y x) ->
  ForallOrdPairs R (l ++ [x]).
Proof.
  induction 1 as [| a l Hall Hpairs IH]; simpl; intros Hnew.
  - constructor; constructor.
  - constructor.
    + apply Forall_app. split; [exact Hall |].
      constructor; [| constructor]. apply Hnew. now left.
    + apply IH. intros y Hy. apply Hnew. now right.
Qed.

Lemma overlaps_sym (a b c d : string) : overlaps a b c d = overlaps c d a b.
Proof. unfold overlaps. apply andb_comm. Qed.

Lemma post_booking_outcome (getDay : string -> option Z) (turfs : gmap string Turf)
    (rows : list Booking) (newId t : string) (user : AuthUser) (body : BookingBody) :
  (snd (post_booking getDay turfs rows newId t user body) = rows
   /\ br_code (fst (post_booking getDay turfs rows newId t user body)) <> 201)
  \/ (exists turf booking,
         post_booking getDay turfs rows newId t user body
         = (mkBookingResponse 201 true "Booking created successfully" (Some booking),
            (rows ++ [booking])%list)
         /\ bookingCreateSchema body = true
         /\ turfs !! body_turfId body = Some turf /\ t_isActive turf = true
         /\ checkAvailability rows (body_turfId body) (body_date body)
              (body_startTime body) (body_endTime body) None = true
         /\ b_id booking = newId /\ b_userId booking = au_id user
         /\ b_turfId booking = body_turfId body /\ b_date booking = body_date body
         /\ b_startTime booking = body_startTime body
         /\ b_endTime booking = body_endTime body
         /\ b_status booking = bk_pending /\ b_paymentStatus booking = pay_pending).
Proof.
  unfold post_booking.
  destruct (bookingCreateSchema body) eqn:Hschema; simpl;
    [| left; split; [reflexivity | discriminate]].
  destruct (turfs !! body_turfId body) as [turf |] eqn:Hturf;
    [| left; split; [reflexivity | discriminate]].
  destruct (t_isActive turf) eqn:Hactive; simpl;
    [| left; split; [reflexivity | discriminate]].
  destruct (checkAvailability rows (body_turfId body) (body_date body)
              (body_startTime body) (body_endTime body) None) eqn:Hfree; simpl;
    [| left; split; [reflexivity | discriminate]].
  right. exists turf. eexists. split; [reflexivity |]. simpl.
  repeat split; assumption.
Qed.

(** X14.  On a table in which no two pending or confirmed bookings of one
    turf and date overlap and every booking starts before it ends, the booking
    route keeps both properties for every request that starts before it ends,
    whatever it answers. *)
Theorem post_booking_keeps_bookings_apart (getDay : string -> option Z)
    (turfs : gmap string Turf) (rows : list Booking) (newId t : string)
    (user : AuthUser) (body : BookingBody) :
  bookings_apart rows ->
  proper_intervals rows ->
  time_lt (body_startTime body) (body_endTime body) = true ->
  bookings_apart (snd (post_booking getDay turfs rows newId t user body))
  /\ proper_intervals (snd (post_booking getDay turfs rows newId t user body)).
Proof.
  intros Hapart Hproper Hrequest.
  destruct (post_booking_outcome getDay turfs rows newId t user body)
    as [[-> _] | (turf & booking & -> & _ & _ & _ & Hfree & _ & _ & Hturf & Hdate
                  & Hstart & Hend & Hstatus & _)];
    [now split |].
  simpl. split.
  - apply ForallOrdPairs_snoc; [exact Hapart |].
    intros y Hy Hactive _ Hsameturf Hsamedate.
    rewrite overlaps_sym, Hstart, Hend.
    rewrite <- (sqlite_clause_overlaps _ _ _ _ Hrequest (Hproper y Hy)).
    apply checkAvailability_filter with (b := y) in Hfree; [| exact Hy].
    unfold sqlite_conflict in Hfree.
    rewrite Hsameturf, Hsamedate, Hturf, Hdate, !String.eqb_refl, Hactive in Hfree.
    simpl in Hfree. now rewrite andb_true_r in Hfree.
  - intros b Hb. apply in_app_or in Hb. destruct Hb as [Hb | [<- | []]].
    + now apply Hproper.
    + now rewrite Hstart, Hend.
Qed.

Lemma post_booking_keeps_bookings_apart_witness :
  bookings_apart
    (snd (post_booking sample_calendar sample_turfs afternoon_rows "b9"
            "2024-01-02T08:00:00.000Z" sample_user sunday_morning))
  /\ proper_intervals
       (snd (post_booking sample_calendar sample_turfs afternoon_rows "b9"
               "2024-01-02T08:00:00.000Z" sample_user sunday_morning)).
Proof.
  apply (post_booking_keeps_bookings_apart sample_calendar sample_turfs afternoon_rows
           "b9" "2024-01-02T08:00:00.000Z" sample_user sunday_morning).
  - constructor; constructor.
  - intros b [<- | []]. reflexivity.
  - reflexivity.
Defined.



(** ** Reading a booking and changing its status *)

Lemma findBooking_id (rows : list Booking) (id : string) (booking : Booking) :
  findBooking rows id = Some booking -> In booking rows /\ b_id booking = id.
Proof.
  unfold findBooking. intros H. apply List.find_some in H.
  now rewrite String.eqb_eq in H.
Qed.

Lemma findBooking_rewritten (rows : list Booking) (id other : string)
    (f : Booking -> Booking) :
  (forall b, b_id (f b) = b_id b) ->
  findBooking (List.map (fun b => if (b_id b =? id)%string then f b else b) rows) other
  = if (other =? id)%string then option_map f (findBooking rows other)
    else findBooking rows other.
Proof.
  intros Hid. unfold findBooking. induction rows as [| b rows IH]; simpl.
  - now destruct (other =? id)%string.
  - destruct (String.eqb_spec (b_id b) id) as [Hb | Hb].
    + rewrite Hid. destruct (String.eqb_spec (b_id b) other) as [Hother | Hother].
      * rewrite <- Hother, Hb, String.eqb_refl. reflexivity.
      * exact IH.
    + destruct (String.eqb_spec (b_id b) other) as [Hother | Hother]; [| exact IH].
      destruct (String.eqb_spec other id) as [Heq | _]; [congruence | reflexivity].
Qed.

(** X16.  A caller who neither made a stored booking, nor owns its turf, nor
    is an admin gets 403 "Access denied" from [GET /:id] and from
    [PATCH /:id/status], and the table is as it was; the three others are
    shown the booking. *)
Theorem booking_strangers_refused (turfs : gmap string Turf) (rows : list Booking)
    (t : string) (user : AuthUser) (id status : string) (booking : Booking) :
  findBooking rows id = Some booking ->
  (may_access_booking turfs user booking = true
   <-> au_id user = b_userId booking
       \/ (exists turf, turfs !! b_turfId booking = Some turf
                        /\ t_ownerId turf = au_id user)
       \/ au_role user = "admin")
  /\ (may_access_booking turfs user booking = true ->
      get_booking turfs rows user id = mkBookingResponse 200 true "" (Some booking))
  /\ (may_access_booking turfs user booking = false ->
      get_booking turfs rows user id = mkBookingResponse 403 false "Access denied" None
      /\ snd (patch_booking_status turfs rows t user id status) = rows
      /\ br_success (fst (patch_booking_status turfs rows t user id status)) = false).
Proof.
  intros Hfind. split; [| split].
  - unfold may_access_booking. rewrite !orb_true_iff, !String.eqb_eq. split.
    + intros [[Huser | Howner] | Hadmin]; [left; congruence | | now right; right].
      destruct (turfs !! b_turfId booking) as [turf |]; [| discriminate].
      apply String.eqb_eq in Howner. right. left. now exists turf.
    + intros [Huser | [(turf & Hturf & Howner) | Hadmin]];
        [left; left; congruence | | now right].
      left. right. rewrite Hturf. now apply String.eqb_eq.
  - intros Hmay. unfold get_booking. now rewrite Hfind, Hmay.
  - intros Hmay. split; [unfold get_booking; now rewrite Hfind, Hmay |].
    unfold patch_booking_status.
    destruct (valid_status status); [| now split].
    now rewrite Hfind, Hmay.
Qed.

Lemma booking_strangers_refused_witness :
  get_booking sample_turfs afternoon_rows sample_stranger "b1"
  = mkBookingResponse 403 false "Access denied" None
  /\ snd (patch_booking_status sample_turfs afternoon_rows "2024-01-02T08:00:00.000Z"
            sample_stranger "b1" "cancelled") = afternoon_rows
  /\ br_success
       (fst (patch_booking_status sample_turfs afternoon_rows
               "2024-01-02T08:00:00.000Z" sample_stranger "b1" "cancelled")) = false.
Proof.
  apply (proj2 (proj2 (booking_strangers_refused sample_turfs afternoon_rows
                         "2024-01-02T08:00:00.000Z" sample_stranger "b1" "cancelled"
                         (sample_booking "b1" "14:00" "15:00" bk_confirmed) eq_refl))).
  reflexivity.
Defined.

Lemma patch_booking_status_rows (turfs : gmap string Turf) (rows : list Booking)
    (t : string) (user : AuthUser) (id status : string) (booking : Booking)
    (st : BookingStatus) :
  findBooking rows id = Some booking ->
  valid_status status = Some st ->
  may_access_booking turfs user booking = true ->
  patch_booking_status turfs rows t user id status
  = (mkBookingResponse 200 true "Booking status updated successfully"
       (findBooking
          (List.map
             (fun b =>
                if (b_id b =? id)%string
                then write_booking_columns t
                       (mkBookingUpdate None None None None None (Some st) None None None)
                       b
                else b)
             rows) id),
     List.map
       (fun b =>
          if (b_id b =? id)%string
          then write_booking_columns t
                 (mkBookingUpdate None None None None None (Some st) None None None) b
          else b)
       rows).
Proof.
  intros Hfind Hvalid Hmay. unfold patch_booking_status.
  now rewrite Hvalid, Hfind, Hmay.
Qed.

(** X17.  When the maker of a stored booking, the owner of its turf or an
    admin sends a valid status to [PATCH /:id/status], the route answers 200
    with the booking, which is stored with that status, whatever its status
    was, and with the user, turf, date, times, players and amount it had;
    every other booking is as it was and the table has as many rows. *)
Theorem patch_booking_status_stores (turfs : gmap string Turf) (rows : list Booking)
    (t : string) (user : AuthUser) (id status : string) (booking : Booking)
    (st : BookingStatus) :
  findBooking rows id = Some booking ->
  valid_status status = Some st ->
  may_access_booking turfs user booking = true ->
  exists booking' rows',
    patch_booking_status turfs rows t user id status
    = (mkBookingResponse 200 true "Booking status updated successfully"
         (Some booking'), rows')
    /\ findBooking rows' id = Some booking'
    /\ b_status booking' = st
    /\ b_id booking' = id /\ b_userId booking' = b_userId booking
    /\ b_turfId booking' = b_turfId booking /\ b_date booking' = b_date booking
    /\ b_startTime booking' = b_startTime booking
    /\ b_endTime booking' = b_endTime booking
    /\ b_totalPlayers booking' = b_totalPlayers booking
    /\ b_totalAmount booking' = b_totalAmount booking
    /\ (forall other, other <> id -> findBooking rows' other = findBooking rows other)
    /\ List.length rows' = List.length rows.
Proof.
  intros Hfind Hvalid Hmay.
  rewrite (patch_booking_status_rows _ _ t _ _ _ _ _ Hfind Hvalid Hmay).
  pose proof (findBooking_id _ _ _ Hfind) as [_ Hid].
  assert (Hlookup : forall other,
             findBooking
               (List.map
                  (fun b =>
                     if (b_id b =? id)%string
                     then write_booking_columns t
                            (mkBookingUpdate None None None None None (Some st)
                               None None None) b
                     else b)
                  rows) other
             = if (other =? id)%string
               then option_map
                      (write_booking_columns t
                         (mkBookingUpdate None None None None None (Some st)
                            None None None))
                      (findBooking rows other)
               else findBooking rows other)
    by (intros other; now apply findBooking_rewritten).
  eexists. eexists. split.
  - rewrite (Hlookup id), String.eqb_refl, Hfind. reflexivity.
  - split; [rewrite (Hlookup id), String.eqb_refl, Hfind; reflexivity |]. simpl.
    repeat split; try assumption.
    + intros other Hother. rewrite (Hlookup other).
      now destruct (String.eqb_spec other id).
    + apply List.length_map.
Qed.

Lemma patch_booking_status_stores_witness :
  exists booking' rows',
    patch_booking_status sample_turfs afternoon_rows "2024-01-02T08:00:00.000Z"
      sample_user "b1" "cancelled"
    = (mkBookingResponse 200 true "Booking status updated successfully"
         (Some booking'), rows')
    /\ findBooking rows' "b1" = Some booking'
    /\ b_status booking' = bk_cancelled.
Proof.
  destruct (patch_booking_status_stores sample_turfs afternoon_rows
              "2024-01-02T08:00:00.000Z" sample_user "b1" "cancelled"
              (sample_booking "b1" "14:00" "15:00" bk_confirmed) bk_cancelled
              eq_refl eq_refl eq_refl)
    as (booking' & rows' & Hpatch & Hfind & Hstatus & _).
  exists booking', rows'. now repeat split.
Defined.

(** X18.  Once a booking has been set to cancelled or completed through
    [PATCH /:id/status], [checkAvailability] answers for every request what it
    answers on the table without that booking: the interval is free again
    unless another booking holds it. *)
Theorem cancelled_booking_frees_interval (turfs : gmap string Turf)
    (rows : list Booking) (t : string) (user : AuthUser) (id status : string)
    (booking : Booking) :
  findBooking rows id = Some booking ->
  may_access_booking turfs user booking = true ->
  status = "cancelled" \/ status = "completed" ->
  forall turfId date startTime endTime,
    checkAvailability (snd (patch_booking_status turfs rows t user id status))
      turfId date startTime endTime None
    = checkAvailability (other_bookings rows id) turfId date startTime endTime None.
Proof.
  intros Hfind Hmay Hstatus turfId date startTime endTime.
  assert (Hvalid : exists st, valid_status status = Some st
                              /\ (st = bk_cancelled \/ st = bk_completed)).
  { destruct Hstatus as [-> | ->]; eexists; (split; [reflexivity |]); tauto. }
  destruct Hvalid as (st & Hvalid & Hst).
  rewrite (patch_booking_status_rows _ _ t _ _ _ _ _ Hfind Hvalid Hmay). simpl.
  apply bool_eq_iff. rewrite !checkAvailability_filter. unfold other_bookings.
  split; intros H b Hb.
  - apply filter_In in Hb. destruct Hb as [Hb Hother].
    apply (H b). apply in_map_iff. exists b. split; [| exact Hb].
    apply negb_true_iff in Hother. now rewrite Hother.
  - apply in_map_iff in Hb. destruct Hb as (b0 & <- & Hb0).
    destruct (String.eqb_spec (b_id b0) id) as [Hid | Hid].
    + unfold sqlite_conflict, is_active. simpl.
      destruct Hst as [-> | ->]; now rewrite !andb_false_r.
    + apply H. apply filter_In. split; [exact Hb0 |].
      apply negb_true_iff. now apply String.eqb_neq.
Qed.

Lemma cancelled_booking_frees_interval_witness :
  checkAvailability
    (snd (patch_booking_status sample_turfs afternoon_rows "2024-01-02T08:00:00.000Z"
            sample_user "b1" "cancelled"))
    "turf1" "2024-01-06" "14:00" "15:00" None
  = checkAvailability (other_bookings afternoon_rows "b1") "turf1" "2024-01-06"
      "14:00" "15:00" None.
Proof.
  apply (cancelled_booking_frees_interval sample_turfs afternoon_rows
           "2024-01-02T08:00:00.000Z" sample_user "b1" "cancelled"
           (sample_booking "b1" "14:00" "15:00" bk_confirmed)).
  - reflexivity.
  - reflexivity.
  - left. reflexivity.
Defined.

(** ** The time helpers of [Booking.ts] *)

Lemma clock_time_injective (t1 t2 : string) (n : Z) :
  is_clock_time t1 = true -> is_clock_time t2 = true ->
  timeToMinutes t1 = Some n -> timeToMinutes t2 = Some n -> t1 = t2.
Proof.
  intros H1 H2 Hn1 Hn2.
  destruct (clock_time_order t1 t2 H1 H2) as (n1 & n2 & Hm1 & Hm2 & _ & Hle).
  destruct (clock_time_order t2 t1 H2 H1) as (n2' & n1' & Hm2' & Hm1' & _ & Hge).
  assert (n1 = n) by congruence. assert (n2 = n) by congruence.
  assert (n1' = n) by congruence. assert (n2' = n) by congruence. subst.
  rewrite Z.leb_refl in Hle, Hge.
  apply time_le_compare in Hle, Hge.
  rewrite (String.compare_antisym t2 t1) in Hge.
  destruct (String.compare t1 t2) eqn:Hc; simpl in Hge; try congruence.
  now apply String.compare_eq_iff.
Qed.

(** X19.  On times of day, two digits of hours and minutes up to 59, the
    comparisons of the texts, which the availability queries make, are the
    comparisons of the minutes that [timeToMinutes] computes, which the price
    is made from; two such texts of the same minutes are the same text. *)
Theorem time_order_is_minute_order (t1 t2 : string) (n1 n2 : Z) :
  is_clock_time t1 = true -> is_clock_time t2 = true ->
  timeToMinutes t1 = Some n1 -> timeToMinutes t2 = Some n2 ->
  (time_lt t1 t2 = true <-> n1 < n2)
  /\ (time_le t1 t2 = true <-> n1 <= n2)
  /\ (t1 = t2 <-> n1 = n2).
Proof.
  intros H1 H2 Hn1 Hn2.
  destruct (clock_time_order t1 t2 H1 H2) as (m1 & m2 & Hm1 & Hm2 & Hlt & Hle).
  assert (m1 = n1) by congruence. assert (m2 = n2) by congruence. subst.
  rewrite Hlt, Hle, Z.ltb_lt, Z.leb_le.
  split; [tauto |]. split; [tauto |]. split.
  - intros ->. congruence.
  - intros ->. now apply (clock_time_injective t1 t2 n2).
Qed.

Lemma time_order_is_minute_order_witness :
  (time_lt "09:30" "10:15" = true <-> 570 < 615)
  /\ (time_le "09:30" "10:15" = true <-> 570 <= 615)
  /\ ("09:30" = "10:15" <-> 570 = 615).
Proof.
  apply (time_order_is_minute_order "09:30" "10:15" 570 615); reflexivity.
Defined.

Lemma minutes_round_trip_table :
  forallb
    (fun m =>
       is_clock_time (minutesToTime m)
       && match timeToMinutes (minutesToTime m) with
          | Some m' => m' =? m
          | None => false
          end)
    (seqZ 0 6000) = true.
Proof. vm_compute. reflexivity. Qed.

Lemma minutesToTime_parses (m : Z) :
  0 <= m < 6000 ->
  is_clock_time (minutesToTime m) = true /\ timeToMinutes (minutesToTime m) = Some m.
Proof.
  intros Hm. pose proof minutes_round_trip_table as Htable.
  rewrite forallb_forall in Htable. specialize (Htable m).
  assert (Hin : In m (seqZ 0 6000)).
  { apply list_elem_of_In. apply elem_of_seqZ. lia. }
  apply Htable in Hin. apply andb_prop in Hin. destruct Hin as [Hclock Hback].
  split; [exact Hclock |].
  destruct (timeToMinutes (minutesToTime m)) as [m' |]; [| discriminate].
  apply Z.eqb_eq in Hback. now subst.
Qed.

(** X20.  [minutesToTime] and [timeToMinutes] are inverse to each other
    between the minutes from 0 to 5999 and the times of day: a time of day
    parses to [m] exactly when [m] prints as that text. *)
Theorem timeToMinutes_inverts_minutesToTime (t : string) (m : Z) :
  is_clock_time t = true -> 0 <= m < 6000 ->
  (timeToMinutes t = Some m <-> minutesToTime m = t).
Proof.
  intros Hclock Hm. destruct (minutesToTime_parses m Hm) as [Hclock' Hback]. split.
  - intros Hparse. now apply (clock_time_injective _ _ m).
  - intros <-. exact Hback.
Qed.

Lemma timeToMinutes_inverts_minutesToTime_witness :
  timeToMinutes "09:30" = Some 570 <-> minutesToTime 570 = "09:30".
Proof.
  apply (timeToMinutes_inverts_minutesToTime "09:30" 570); [reflexivity | lia].
Defined.

Lemma slot_count_step (x d : Z) : 1 <= d -> (x + d - 1) / d = (x - 1) / d + 1.
Proof.
  intros Hd. replace (x + d - 1) with (x - 1 + 1 * d) by lia.
  apply Z.div_add. lia.
Qed.

Lemma slot_count_none (x d : Z) : 1 <= d -> x <= 0 -> (x + d - 1) / d <= 0.
Proof.
  intros Hd Hx. rewrite slot_count_step by exact Hd.
  assert ((x - 1) / d < 0) by (apply Z.div_lt_upper_bound; lia). lia.
Qed.

Lemma generateTimeSlots_loop_enough (base finish d : Z) :
  1 <= d ->
  forall (fuel : nat) (k : Z),
    (Z.to_nat (finish - (base + k * d)) <= fuel)%nat ->
    generateTimeSlots_loop fuel (base + k * d) finish d
    = Some (List.map (nth_slot base d)
              (seqZ k ((finish - (base + k * d) + d - 1) / d))).
Proof.
  intros Hd. induction fuel as [| fuel IH]; intros k Hfuel; simpl.
  - destruct (Z.ltb_spec (base + k * d) finish) as [Hlt | Hge]; [lia |].
    rewrite seqZ_nil; [reflexivity |]. apply slot_count_none; lia.
  - destruct (Z.ltb_spec (base + k * d) finish) as [Hlt | Hge].
    + replace (base + k * d + d) with (base + Z.succ k * d) by lia.
      rewrite IH by lia.
      rewrite (slot_count_step (finish - (base + k * d)) d Hd).
      assert (Hq : 0 <= (finish - (base + k * d) - 1) / d)
        by (apply Z.div_pos; lia).
      rewrite (seqZ_cons k) by lia. simpl. unfold nth_slot at 3.
      replace ((finish - (base + Z.succ k * d) + d - 1) / d)
        with (Z.pred ((finish - (base + k * d) - 1) / d + 1)).
      * replace (base + (k + 1) * d) with (base + Z.succ k * d) by lia.
        reflexivity.
      * f_equal. replace (finish - (base + Z.succ k * d) + d - 1)
          with (finish - (base + k * d) - 1) by lia. lia.
    + rewrite seqZ_nil; [reflexivity |]. apply slot_count_none; lia.
Qed.

Lemma generateTimeSlots_loop_endless (finish d : Z) :
  d <= 0 ->
  forall (fuel : nat) (current : Z),
    current < finish -> generateTimeSlots_loop fuel current finish d = None.
Proof.
  intros Hd. induction fuel as [| fuel IH]; intros current Hlt; simpl.
  - now destruct (Z.ltb_spec current finish); [| lia].
  - destruct (Z.ltb_spec current finish); [| lia].
    rewrite IH by lia. reflexivity.
Qed.

(** X21.  With a duration of at least one minute, [generateTimeSlots] returns
    the slots that start every [durationMinutes] from the start time while the
    start of the slot is before the end time: the quotient of the window by the
    duration, rounded up, in number, and none when the window is empty.  With
    a duration of zero or less and a non-empty window, its loop never ends:
    no number of iterations is enough. *)
Theorem generateTimeSlots_slots (startTime endTime : string)
    (durationMinutes current finish : Z) :
  timeToMinutes startTime = Some current ->
  timeToMinutes endTime = Some finish ->
  (1 <= durationMinutes ->
   generateTimeSlots startTime endTime durationMinutes
   = Some (List.map (nth_slot current durationMinutes)
             (seqZ 0 ((finish - current + durationMinutes - 1) / durationMinutes))))
  /\ (durationMinutes <= 0 -> current < finish ->
      forall fuel,
        generateTimeSlots_loop fuel current finish durationMinutes = None).
Proof.
  intros Hstart Hend. split.
  - intros Hd. unfold generateTimeSlots. rewrite Hstart, Hend.
    pose proof (generateTimeSlots_loop_enough current finish durationMinutes Hd
                  (Z.to_nat (finish - current)) 0) as Hloop.
    rewrite Z.mul_0_l, Z.add_0_r in Hloop. apply Hloop. lia.
  - intros Hd Hlt fuel. now apply generateTimeSlots_loop_endless.
Qed.

Lemma generateTimeSlots_slots_witness :
  generateTimeSlots "06:00" "07:30" 45
  = Some (List.map (nth_slot 360 45) (seqZ 0 ((450 - 360 + 45 - 1) / 45)))
  /\ forall fuel, generateTimeSlots_loop fuel 360 450 0 = None.
Proof.
  destruct (generateTimeSlots_slots "06:00" "07:30" 45 360 450 eq_refl eq_refl)
    as [Hslots _].
  destruct (generateTimeSlots_slots "06:00" "07:30" 0 360 450 eq_refl eq_refl)
    as [_ Hloop].
  split; [apply Hslots; lia | apply Hloop; lia].
Defined.

(** ** The two lists of available slots *)

Lemma isBooked_start_clause (l : list Booking) (s e : string) :
  isBooked l s e = false ->
  existsb
    (fun booking => time_ge s (b_startTime booking) && time_lt s (b_endTime booking))
    l = false.
Proof.
  unfold isBooked. induction l as [| b l IH]; simpl; [reflexivity |].
  intros H. apply orb_false_iff in H. destruct H as [Hb Hl].
  apply orb_false_iff in Hb. destruct Hb as [Hb _].
  apply orb_false_iff in Hb. destruct Hb as [Hb _].
  rewrite Hb. now apply IH.
Qed.

(** X22.  Every slot that [getAvailableSlots] of [BookingSupabase.ts] returns
    for a table, turf and date is, as the text "start - end", among the slots
    that [getAvailableSlots] of [Booking.ts] returns for them. *)
Theorem supabase_slots_among_sqlite_slots (rows : list Booking)
    (turfId date : string) (s : Slot) :
  In s (getAvailableSlots_supabase rows turfId date) ->
  exists slots,
    getAvailableSlots rows turfId date = Some slots
    /\ In (slot_startTime s ++ " - " ++ slot_endTime s) slots.
Proof.
  unfold getAvailableSlots_supabase, getAvailableSlots.
  rewrite generateTimeSlots_window. intros H.
  apply filter_In in H. destruct H as [Hs Hfree].
  eexists. split; [reflexivity |].
  apply negb_true_iff in Hfree. apply isBooked_start_clause in Hfree.
  rewrite hour_slots_window in Hs. simpl in Hs.
  repeat (destruct Hs as [<- | Hs];
          [apply filter_In; split;
           [simpl; repeat (first [left; reflexivity | right])
           | cbv beta zeta; apply negb_true_iff; exact Hfree] |]).
  destruct Hs.
Qed.

Lemma supabase_slots_among_sqlite_slots_witness :
  exists slots,
    getAvailableSlots afternoon_rows "turf1" "2024-01-06" = Some slots
    /\ In "06:00 - 07:00" slots.
Proof.
  apply (supabase_slots_among_sqlite_slots afternoon_rows "turf1" "2024-01-06"
           (mkSlot "06:00" "07:00")).
  vm_compute. left. reflexivity.
Defined.

(** ** Examples of the invariants and of the slot lists *)

Lemma perform_all_within_capacity_witness :
  exists game',
    findById (perform_all "g1" sample_world sample_guarded_calls) "g1" = Some game'
    /\ within_capacity game'.
Proof.
  apply (perform_all_within_capacity "g1" sample_guarded_calls sample_world
           sample_game).
  - reflexivity.
  - unfold within_capacity, counts_host, len. simpl. lia.
Defined.

Lemma getAvailableSlots_supabase_exact_witness :
  In (mkSlot "15:00" "16:00")
    (getAvailableSlots_supabase afternoon_rows "turf1" "2024-01-06")
  <-> In (mkSlot "15:00" "16:00") (List.map hour_slot (seqZ 6 17))
      /\ forall b, In b afternoon_rows -> competes "turf1" "2024-01-06" None b ->
                   overlaps "15:00" "16:00" (b_startTime b) (b_endTime b) = false.
Proof.
  apply (getAvailableSlots_supabase_exact afternoon_rows "turf1" "2024-01-06"
           (mkSlot "15:00" "16:00")).
  intros b [<- | []]. reflexivity.
Defined.

Lemma getAvailableSlots_supabase_round_trip_witness :
  getAvailableSlots_supabase
    (afternoon_rows
     ++ List.map booking_of_slot
          (getAvailableSlots_supabase afternoon_rows "turf1" "2024-01-06"))
    "turf1" "2024-01-06" = [].
Proof.
  apply getAvailableSlots_supabase_round_trip.
  intros s Hs. exists (booking_of_slot s).
  split; [apply in_map; exact Hs |]. repeat split.
Defined.

Lemma getAvailableSlots_round_trip_witness :
  getAvailableSlots afternoon_rows "turf1" "2024-01-06" = Some afternoon_free_slots
  /\ getAvailableSlots
       (afternoon_rows ++ List.map booking_of_text afternoon_free_slots)
       "turf1" "2024-01-06" = Some [].
Proof.
  assert (Hslots : getAvailableSlots afternoon_rows "turf1" "2024-01-06"
                   = Some afternoon_free_slots) by (vm_compute; reflexivity).
  split; [exact Hslots |].
  apply (getAvailableSlots_round_trip afternoon_rows
           (List.map booking_of_text afternoon_free_slots) "turf1" "2024-01-06"
           afternoon_free_slots Hslots).
  intros slot Hslot. exists (booking_of_text slot).
  split; [apply in_map; exact Hslot |].
  repeat split.
  unfold afternoon_free_slots in Hslot. simpl in Hslot.
  repeat (destruct Hslot as [<- | Hslot]; [reflexivity |]). destruct Hslot.
Defined.
